(** * Query routing and tool resolution of the Yahoo Finance MCP bridge

    A shallow embedding of [src/llm-query-processor.js] (the LLM-backed
    classifier and its rule-based fallback) and of [src/mcp-http-bridge.js]
    (tool registry, symbol resolver and the [/analyze] orchestrator), with
    the properties the specification states about them.

    Conventions of the embedding.
    - A JavaScript string is a [string] of bytes; the model is exact on
      ASCII text (case mapping, [\b], [\s] and [\d] only look at ASCII).
    - JSON values are the inductive [JValue]; a number is a rational, which
      is exact for the comparisons, [Math.min] and [Math.max] used here, and
      for the counts [parseInt] reads below 2^53.
    - A variable of the handler can also hold a function that an object
      literal inherits from [Object.prototype]; such a value is a [Held],
      and [JSON.stringify] leaves it out of a request.
    - [undefined] is [None] of an [option].
    - An exception is the [Throw] constructor of [outcome]; [try]/[catch]
      is [try_catch].
    - Calls that leave the process (the Ollama endpoint, the MCP server) are
      answered by a [World] of oracles and recorded in a call log, which is
      the state threaded through the monad [M]. *)

From Stdlib Require Import String Ascii List Bool Arith ZArith QArith Qminmax Lia.
From Stdlib Require Import DecimalString.
Import ListNotations.
Local Open Scope string_scope.
Local Open Scope nat_scope.

(** ** JavaScript strings *)

Module JS.

Definition code (c : ascii) : nat := nat_of_ascii c.

Definition between (lo hi : nat) (c : ascii) : bool :=
  (lo <=? code c) && (code c <=? hi).

Definition is_upper : ascii -> bool := between 65 90.
Definition is_lower : ascii -> bool := between 97 122.
Definition is_digit : ascii -> bool := between 48 57.
Definition is_letter (c : ascii) : bool := is_upper c || is_lower c.

(** [\w] *)
Definition is_word (c : ascii) : bool :=
  is_letter c || is_digit c || (code c =? 95).

(** [\s] on ASCII: tab, line feed, vertical tab, form feed, carriage return,
    space. *)
Definition is_space (c : ascii) : bool := between 9 13 c || (code c =? 32).

(** [.] excludes the line terminators. *)
Definition is_dot (c : ascii) : bool := negb ((code c =? 10) || (code c =? 13)).

Definition lower_char (c : ascii) : ascii :=
  if is_upper c then ascii_of_nat (code c + 32) else c.

Fixpoint toLowerCase (s : string) : string :=
  match s with
  | EmptyString => EmptyString
  | String c s' => String (lower_char c) (toLowerCase s')
  end.

(** [s.includes(t)] *)
Fixpoint includes (s t : string) : bool :=
  if prefix t s then true
  else match s with
       | EmptyString => false
       | String _ s' => includes s' t
       end.

Fixpoint trimStart (s : string) : string :=
  match s with
  | String c s' => if is_space c then trimStart s' else s
  | EmptyString => EmptyString
  end.

Fixpoint trimEnd (s : string) : string :=
  match s with
  | EmptyString => EmptyString
  | String c s' =>
      match trimEnd s' with
      | EmptyString => if is_space c then EmptyString else String c EmptyString
      | t => String c t
      end
  end.

Definition trim (s : string) : string := trimEnd (trimStart s).

(** [xs.join(sep)] *)
Fixpoint join (sep : string) (xs : list string) : string :=
  match xs with
  | [] => ""
  | [x] => x
  | x :: rest => x ++ sep ++ join sep rest
  end.

(** [[...new Set(xs)]]: duplicates dropped, first occurrences kept in order. *)
Fixpoint dedup_from (seen : list string) (xs : list string) : list string :=
  match xs with
  | [] => []
  | x :: rest =>
      if existsb (String.eqb x) seen then dedup_from seen rest
      else x :: dedup_from (x :: seen) rest
  end.

Definition unique (xs : list string) : list string := dedup_from [] xs.

(** [parseInt] on a string of decimal digits (what [(\d+)] captures). *)
Definition digit_val (c : ascii) : Z := Z.of_nat (code c - 48).

Fixpoint parseInt_acc (acc : Z) (s : string) : Z :=
  match s with
  | String c s' => if is_digit c then parseInt_acc (10 * acc + digit_val c) s' else acc
  | EmptyString => acc
  end.

Definition parseInt (s : string) : Z := parseInt_acc 0 s.

(** The double quote character, for texts that contain it. *)
Definition dq : string := String (ascii_of_nat 34) EmptyString.

End JS.

(** ** Regular expressions

    A backtracking matcher with the priorities of the ECMAScript one:
    alternatives left to right, greedy quantifiers longest first, lazy ones
    shortest first, the leftmost start position wins. *)

Module Regex.

Inductive re : Type :=
| Chr (p : ascii -> bool)
| Eps
| Seq (a b : re)
| Alt (a b : re)
| Star (greedy : bool) (a : re)
| Rep (lo hi : nat) (a : re)
| Grp (n : nat) (a : re)
| WordB.

(** Where the matcher stands: the character before it, the text left, the
    index. *)
Record cursor : Type := { prev : option ascii; rest : string; pos : nat }.

Definition start (s : string) : cursor := {| prev := None; rest := s; pos := 0 |}.

Definition advance (c : cursor) : option (ascii * cursor) :=
  match rest c with
  | EmptyString => None
  | String x xs => Some (x, {| prev := Some x; rest := xs; pos := S (pos c) |})
  end.

Definition word_before (c : cursor) : bool :=
  match prev c with Some x => JS.is_word x | None => false end.

Definition word_after (c : cursor) : bool :=
  match rest c with String x _ => JS.is_word x | EmptyString => false end.

Definition caps : Type := list (nat * string).

Fixpoint cap_get (n : nat) (cs : caps) : option string :=
  match cs with
  | [] => None
  | (m, s) :: cs' => if m =? n then Some s else cap_get n cs'
  end.

(** [x <|> y]: the alternative [y] is tried only when [x] fails. *)
Notation "x <|> y" :=
  (match x with Some r => Some r | None => y end)
  (at level 60, right associativity, only parsing).

Definition K : Type := cursor -> caps -> option (cursor * caps).

Fixpoint run (r : re) (c : cursor) (cs : caps) (k : K) {struct r}
  : option (cursor * caps) :=
  match r with
  | Chr p =>
      match advance c with
      | Some (x, c') => if p x then k c' cs else None
      | None => None
      end
  | Eps => k c cs
  | Seq a b => run a c cs (fun c' cs' => run b c' cs' k)
  | Alt a b => run a c cs k <|> run b c cs k
  | Star greedy a =>
      (fix loop (fuel : nat) (c : cursor) (cs : caps) {struct fuel} :=
         match fuel with
         | O => k c cs
         | S fuel' =>
             let again (_ : unit) :=
               run a c cs
                 (fun c' cs' => if pos c <? pos c' then loop fuel' c' cs' else None) in
             if greedy then again tt <|> k c cs else k c cs <|> again tt
         end) (S (String.length (rest c))) c cs
  | Rep lo hi a =>
      (fix rep (lo hi : nat) (c : cursor) (cs : caps) {struct hi} :=
         match hi with
         | O => if lo =? 0 then k c cs else None
         | S hi' =>
             let again (_ : unit) :=
               run a c cs (fun c' cs' => rep (Nat.pred lo) hi' c' cs') in
             if lo =? 0 then again tt <|> k c cs else again tt
         end) lo hi c cs
  | Grp n a =>
      run a c cs
        (fun c' cs' => k c' ((n, substring 0 (pos c' - pos c) (rest c)) :: cs'))
  | WordB => if xorb (word_before c) (word_after c) then k c cs else None
  end.

(** One match: where it starts and ends, the text matched, the groups. *)
Record hit : Type :=
  { h_start : nat; h_end : nat; h_text : string; h_caps : caps; h_after : cursor }.

Definition match_at (r : re) (c : cursor) : option hit :=
  match run r c [] (fun c' cs' => Some (c', cs')) with
  | Some (c', cs') =>
      Some {| h_start := pos c; h_end := pos c';
              h_text := substring 0 (pos c' - pos c) (rest c);
              h_caps := cs'; h_after := c' |}
  | None => None
  end.

(** The leftmost match at or after the cursor. *)
Fixpoint search (fuel : nat) (r : re) (c : cursor) : option hit :=
  match match_at r c with
  | Some h => Some h
  | None =>
      match fuel with
      | O => None
      | S fuel' =>
          match advance c with
          | Some (_, c') => search fuel' r c'
          | None => None
          end
      end
  end.

(** [s.match(r)] and [r.exec(s)] for a regular expression without [g]. *)
Definition exec (r : re) (s : string) : option hit :=
  search (String.length s) r (start s).

(** All matches of a [g] expression, as [matchAll] and [replace] visit them:
    after an empty match the search resumes one character further. *)
Fixpoint all_from (fuel : nat) (r : re) (c : cursor) : list hit :=
  match fuel with
  | O => []
  | S fuel' =>
      match search (String.length (rest c)) r c with
      | None => []
      | Some h =>
          if h_start h <? h_end h then h :: all_from fuel' r (h_after h)
          else match advance (h_after h) with
               | Some (_, c') => h :: all_from fuel' r c'
               | None => [h]
               end
      end
  end.

Definition matchAll (r : re) (s : string) : list hit :=
  all_from (S (String.length s)) r (start s).

(** [s.replace(r, f)] for a [g] expression; [f] builds the replacement from
    the groups. *)
Fixpoint splice (s : string) (at_ : nat) (hs : list hit) (f : hit -> string) : string :=
  match hs with
  | [] => substring at_ (String.length s - at_) s
  | h :: hs' =>
      substring at_ (h_start h - at_) s ++ f h ++ splice s (h_end h) hs' f
  end.

Definition replaceAll (r : re) (f : hit -> string) (s : string) : string :=
  splice s 0 (matchAll r s) f.

(** [s.replace(r, t)] without [g]: only the first match. *)
Definition replaceFirst (r : re) (f : hit -> string) (s : string) : string :=
  match exec r s with
  | None => s
  | Some h => splice s 0 [h] f
  end.

(** Building blocks. *)
Definition chr (x : ascii) : re := Chr (Ascii.eqb x).
(** a character under the [i] flag *)
Definition chr_i (x : ascii) : re :=
  Chr (fun y => Ascii.eqb (JS.lower_char y) (JS.lower_char x)).

Fixpoint lit (s : string) : re :=
  match s with
  | EmptyString => Eps
  | String x EmptyString => chr x
  | String x s' => Seq (chr x) (lit s')
  end.

Fixpoint lit_i (s : string) : re :=
  match s with
  | EmptyString => Eps
  | String x EmptyString => chr_i x
  | String x s' => Seq (chr_i x) (lit_i s')
  end.

Definition plus (a : re) : re := Seq a (Star true a).

Fixpoint alts (rs : list re) : re :=
  match rs with
  | [] => Chr (fun _ => false)
  | [a] => a
  | a :: rs' => Alt a (alts rs')
  end.

Definition upper : re := Chr JS.is_upper.
Definition digit : re := Chr JS.is_digit.
Definition space : re := Chr JS.is_space.
(** [[a-z]] under the [i] flag *)
Definition letter_i : re := Chr JS.is_letter.

End Regex.

(** ** JSON values and JavaScript numbers *)

#[warnings="-register-all"]
Inductive JValue : Type :=
| JNull
| JBool (b : bool)
| JNum (q : Q)
| JStr (s : string)
| JArr (items : list JValue)
| JObj (fields : list (string * JValue)).

(** An object literal or a parsed object as its fields in insertion order,
    every key once. *)
Definition Fields : Type := list (string * JValue).

Fixpoint get (k : string) (kv : Fields) : option JValue :=
  match kv with
  | [] => None
  | (k', v) :: kv' => if String.eqb k' k then Some v else get k kv'
  end.

(** [o[k] = v]: an existing key keeps its place. *)
Fixpoint set (k : string) (v : JValue) (kv : Fields) : Fields :=
  match kv with
  | [] => [(k, v)]
  | (k', v') :: kv' =>
      if String.eqb k' k then (k, v) :: kv' else (k', v') :: set k v kv'
  end.

(** A number after [ToNumber]: a rational or [NaN]. *)
Inductive JSNum : Type := Fin (q : Q) | NaN.

Definition Math_max (a b : JSNum) : JSNum :=
  match a, b with Fin x, Fin y => Fin (Qmax x y) | _, _ => NaN end.

Definition Math_min (a b : JSNum) : JSNum :=
  match a, b with Fin x, Fin y => Fin (Qmin x y) | _, _ => NaN end.

(** Truthiness of a value that may be [undefined]. *)
Definition truthy (v : option JValue) : bool :=
  match v with
  | None | Some JNull => false
  | Some (JBool b) => b
  | Some (JNum q) => negb (Qeq_bool q 0)
  | Some (JStr s) => negb (String.eqb s "")
  | Some (JArr _) | Some (JObj _) => true
  end.

(** Whether a value has a primitive value, which a template literal prints
    and [Math.max] turns into a number. An object with a property
    [toString] of its own has none: no JSON text makes that property a
    function, and the inherited [valueOf] returns the object itself. The
    text of an array joins the texts of its items. Converting a value
    without a primitive value throws a [TypeError]. *)
Fixpoint printable (v : JValue) : bool :=
  match v with
  | JObj kv => match get "toString" kv with Some _ => false | None => true end
  | JArr items => forallb printable items
  | _ => true
  end.

(** The same for a value that may be [undefined]. *)
Definition prints (v : option JValue) : bool :=
  match v with
  | Some v => printable v
  | None => true
  end.

(** ** Exceptions, the outside world and the call log *)

Inductive outcome (A : Type) : Type :=
| Ret (a : A)
| Throw (msg : string).
Arguments Ret {A} a.
Arguments Throw {A} msg.

(** A tool as the MCP server lists it. *)
Record Tool : Type :=
  { t_name : string;
    t_description : option string;
    t_required : option (list string) }.   (* inputSchema?.required *)

Inductive McpRequest : Type :=
| ToolsList
| ToolsCall (name : string) (arguments : Fields).

Record ContentItem : Type := { c_type : string; c_text : option string }.

(** [response.result] of a response [sendToMCP] resolves with. *)
Record McpResult : Type :=
  { r_tools : option (list Tool);
    r_content : option (list ContentItem) }.

(** A call that leaves the process, with the timeout it is made under, in
    milliseconds. *)
Inductive ExtCall : Type :=
| OllamaTags (timeout_ms : Z)
| OllamaGenerate (prompt : string) (timeout_ms : Z)
| McpCall (req : McpRequest) (timeout_ms : Z).

Definition Log : Type := list ExtCall.

(** The answers of the outside, given the calls made before. A [Throw] is a
    refused connection, a timeout or any other rejection. *)
Record World : Type :=
  { ollama_tags : Log -> outcome (list string);              (* names of the models *)
    ollama_generate : Log -> string -> outcome (option string); (* response.data.response *)
    mcp : Log -> McpRequest -> outcome McpResult }.

Definition M (A : Type) : Type := Log -> outcome A * Log.

Definition ret {A} (a : A) : M A := fun l => (Ret a, l).
Definition throw {A} (msg : string) : M A := fun l => (Throw msg, l).
Definition lift {A} (o : outcome A) : M A := fun l => (o, l).

Definition bind {A B} (m : M A) (f : A -> M B) : M B :=
  fun l => match m l with
           | (Ret a, l') => f a l'
           | (Throw e, l') => (Throw e, l')
           end.

Definition try_catch {A} (m : M A) (handler : string -> M A) : M A :=
  fun l => match m l with
           | (Ret a, l') => (Ret a, l')
           | (Throw e, l') => handler e l'
           end.

Notation "x <- m ;; k" := (bind m (fun x => k))
  (at level 61, m at next level, right associativity).

(** The call is logged, then answered. *)
Definition call {A} (c : ExtCall) (answer : Log -> outcome A) : M A :=
  fun l => (answer l, (l ++ [c])%list).

(** ** The classifier: [src/llm-query-processor.js] *)

Module LLMQueryProcessor.

Import JS Regex.

Record ClassificationResult : Type :=
  { tool : string;
    parameters : JValue;
    reasoning : option JValue;
    confidence : JSNum;
    source : string }.

Definition ollamaUrl : string := "http://localhost:11434".
Definition model : string := "phi3:mini".

(** [/\b[A-Z]{1,5}\b/] *)
Definition symbol_1_5 : re := Seq WordB (Seq (Rep 1 5 upper) WordB).
(** [/\b[A-Z]{3,5}\b/g] *)
Definition symbol_3_5 : re := Seq WordB (Seq (Rep 3 5 upper) WordB).
(** [/(\d+)/] *)
Definition digits : re := Grp 1 (plus digit).

(** The company names of [extractSymbol], in the order [Object.entries]
    visits them. *)
Definition companyMap : list (string * string) :=
  [ ("apple", "AAPL"); ("microsoft", "MSFT"); ("google", "GOOGL");
    ("amazon", "AMZN"); ("tesla", "TSLA"); ("meta", "META");
    ("nvidia", "NVDA"); ("netflix", "NFLX"); ("ford", "F");
    ("general motors", "GM"); ("berkshire", "BRK.A"); ("jpmorgan", "JPM");
    ("bank of america", "BAC"); ("walmart", "WMT"); ("coca cola", "KO");
    ("pepsi", "PEP"); ("mcdonalds", "MCD"); ("disney", "DIS");
    ("adobe", "ADBE"); ("salesforce", "CRM") ].

Fixpoint first_company (m : list (string * string)) (lowered : string) : option string :=
  match m with
  | [] => None
  | (company, symbol) :: m' =>
      if includes lowered company then Some symbol else first_company m' lowered
  end.

(** [extractSymbol(query)], lines 418-456. *)
Definition extractSymbol (query : string) : string :=
  match exec symbol_1_5 query with
  | Some symbolMatch => h_text symbolMatch
  | None =>
      match first_company companyMap (toLowerCase query) with
      | Some symbol => symbol
      | None => "AAPL"                     (* Default fallback *)
      end
  end.

(** The company names of the comparison rule, lines 177-188. *)
Definition comparisonMap : list (string * string) :=
  [ ("apple", "AAPL"); ("microsoft", "MSFT"); ("google", "GOOGL");
    ("amazon", "AMZN"); ("tesla", "TSLA"); ("meta", "META");
    ("nvidia", "NVDA"); ("netflix", "NFLX"); ("uber", "UBER");
    ("spotify", "SPOT") ].

Definition num (z : Z) : JValue := JNum (inject_Z z).

Definition result (t : string) (params : Fields) (why : string) (conf : Q)
  : ClassificationResult :=
  {| tool := t; parameters := JObj params; reasoning := Some (JStr why);
     confidence := Fin conf; source := "enhanced_fallback" |}.

(** [a || b || ...] over [query.includes] tests. *)
Definition any_of (query : string) (words : list string) : bool :=
  existsb (includes query) words.

(** [fallbackProcessing(userQuery)], lines 162-413. *)
Definition fallbackProcessing (userQuery : string) : ClassificationResult :=
  let query := toLowerCase userQuery in
  let count :=
    match exec digits query with
    | Some countMatch =>
        match cap_get 1 (h_caps countMatch) with
        | Some d => parseInt d
        | None => 5%Z
        end
    | None => 5%Z
    end in
  if any_of query ["compare"; "vs"; "versus"; "comparison"; "side by side"] then
    let named :=
      map snd (filter (fun e => includes query (fst e)) comparisonMap) in
    let foundSymbols := map h_text (matchAll symbol_3_5 userQuery) in
    let symbols := (named ++ foundSymbols)%list in
    let uniqueSymbols := unique symbols in
    let firstSymbol := match uniqueSymbols with s :: _ => s | [] => "AAPL" end in
    result "get_quote" [("symbol", JStr firstSymbol)]
      ("Comparison query detected with symbols: " ++ join ", " uniqueSymbols
         ++ ". Using first symbol for fallback.")
      0.85
  else if any_of query ["top"; "best"; "highest"; "most"; "list"; "show me"] then
    if includes query "dividend" then
      result "get_screener"
        [("criteria", JStr "dividend_yield"); ("count", num count);
         ("sort", JStr "dividend_yield_desc")]
        "Query appears to be asking for high dividend stocks" 0.9
    else if any_of query ["market cap"; "marketcap"; "largest"] then
      result "get_trending_stocks" [("count", num count)]
        "Query appears to be asking for top stocks by market cap" 0.8
    else if any_of query ["performing"; "gaining"; "winning"] then
      result "get_trending_stocks" [("count", num count)]
        "Query appears to be asking for top performing stocks" 0.8
    else
      result "get_trending_stocks" [("count", num count)]
        "Query appears to be asking for top/trending stocks" 0.7
  else if any_of query ["quote"; "price"; "stock"; "current"; "latest"] then
    result "get_quote" [("symbol", JStr (extractSymbol userQuery))]
      "Query appears to be asking for current stock quote/price" 0.8
  else if any_of query ["historical"; "chart"; "history"; "past"; "performance"] then
    result "get_historical_data" [("symbol", JStr (extractSymbol userQuery))]
      "Query appears to be asking for historical data or charts" 0.8
  else if any_of query ["trending"; "top"; "popular"; "most active"; "hot"] then
    result "get_trending_stocks" [("count", num count)]
      "Query appears to be asking for trending or popular stocks" 0.8
  else if any_of query ["reit etf"; "real estate etf";
                        "real estate investment trust"; "reit fund"] then
    result "search_symbols" [("query", JStr "REIT ETF real estate")]
      "Query specifically mentions REIT ETFs - using search to find real estate ETFs"
      0.95
  else if any_of query ["bond etf"; "bond fund"; "fixed income etf"; "treasury etf"] then
    result "search_symbols" [("query", JStr "bond ETF treasury fixed income")]
      "Query specifically mentions bond ETFs - using search to find fixed income ETFs"
      0.95
  else if any_of query ["tech etf"; "technology etf"; "sector etf"; "sector fund"] then
    result "search_symbols" [("query", JStr "technology ETF sector")]
      "Query specifically mentions sector ETFs - using search to find sector-specific ETFs"
      0.95
  else if any_of query ["etf"; "exchange traded fund"; "diversified investing";
                        "popular etf"] then
    result "get_trending_etfs" [("count", num count)]
      "Query appears to be asking for general/popular ETFs" 0.9
  else if any_of query ["search"; "find"; "company"; "symbol"; "ticker"] then
    result "search_symbols" [("query", JStr userQuery)]
      "Query appears to be a search request for symbols or companies" 0.8
  else if any_of query ["news"; "headlines"] then
    result "get_news"
      [("symbol", JStr (extractSymbol userQuery)); ("count", num count)]
      "Query appears to be asking for news" 0.8
  else if any_of query ["insights"; "analysis"; "technical"] then
    result "get_insights" [("symbol", JStr (extractSymbol userQuery))]
      "Query appears to be asking for technical analysis or insights" 0.8
  else if any_of query ["market"; "summary"; "overview"] then
    result "get_market_summary" []
      "Query appears to be asking for market summary or overview" 0.8
  else if any_of query ["recommendations"; "analyst"] then
    result "get_recommendations" [("symbol", JStr (extractSymbol userQuery))]
      "Query appears to be asking for analyst recommendations" 0.8
  else
    result "get_trending_stocks" [("count", num count)]
      "Default fallback to trending stocks" 0.6.

(** *** The LLM-backed path *)

(** [x || d] *)
Definition or_else (x : option JValue) (d : JValue) : JValue :=
  match x with
  | Some v => if truthy x then v else d
  | None => d
  end.

(** [v.k] on a parsed value: reading a property of [null] throws, of any
    other value that is not an object with that key gives [undefined]. *)
Definition prop (v : JValue) (k : string) : outcome (option JValue) :=
  match v with
  | JNull => Throw "TypeError: Cannot read properties of null"
  | JObj kv => Ret (get k kv)
  | _ => Ret None
  end.

(** The fields of an object; a value of another kind has none of the
    properties read here. *)
Definition fields_of (v : JValue) : Fields :=
  match v with JObj kv => kv | _ => [] end.

(** [this.model.split(':')[0]] *)
Fixpoint before_colon (s : string) : string :=
  match s with
  | EmptyString => EmptyString
  | String c s' => if Ascii.eqb c ":" then EmptyString else String c (before_colon s')
  end.

Definition nl : string := String (ascii_of_nat 10) EmptyString.
Definition quoted (s : string) : string := dq ++ s ++ dq.

(** One JSON line of the prompt. *)
Definition sample (t key val why conf : string) : string :=
  "{" ++ quoted "tool" ++ ": " ++ quoted t ++ ", " ++ quoted "parameters"
    ++ ": {" ++ quoted key ++ ": " ++ val ++ "}, " ++ quoted "reasoning"
    ++ ": " ++ quoted why ++ ", " ++ quoted "confidence" ++ ": " ++ conf ++ "}".

(** The prompt of lines 57-67. *)
Definition prompt (userQuery : string) : string :=
  "Select tool for: " ++ quoted userQuery ++ nl ++ nl
  ++ "Tools: get_quote, get_trending_stocks, get_trending_etfs, search_symbols, get_historical_data"
  ++ nl ++ nl
  ++ "Respond with JSON only:" ++ nl
  ++ sample "tool_name" "symbol" (quoted "AAPL") "reason" "0.95" ++ nl ++ nl
  ++ "Examples:" ++ nl
  ++ quoted "Apple stock" ++ " → "
  ++ sample "get_quote" "symbol" (quoted "AAPL") "Single stock" "0.95" ++ nl
  ++ quoted "Compare Apple Microsoft" ++ " → "
  ++ sample "get_quote" "symbol" (quoted "AAPL") "Comparison" "0.9" ++ nl
  ++ quoted "Trending stocks" ++ " → "
  ++ sample "get_trending_stocks" "count" "10" "Multiple stocks" "0.9".

(** [/```json\s*/g] and [/```\s*/g] *)
Definition fence_json : re := Seq (lit "```json") (Star true space).
Definition fence : re := Seq (lit "```") (Star true space).
(** [/\{[\s\S]*\}/] *)
Definition json_object : re :=
  Seq (chr "{") (Seq (Star true (Chr (fun _ => true))) (chr "}")).
(** [/00\.(\d+)/g] *)
Definition double_zero : re := Seq (lit "00.") (Grp 1 (plus digit)).
(** [/,(\s*[}\]])/g] *)
Definition trailing_comma : re :=
  Seq (chr ",")
    (Grp 1 (Seq (Star true space)
              (Chr (fun c => Ascii.eqb c "}" || Ascii.eqb c "]")))).

(** [$1] in a replacement. *)
Definition group1 (h : hit) : string :=
  match cap_get 1 (h_caps h) with Some s => s | None => "" end.

Section Classifier.

(** [JSON.parse]; [None] is the [SyntaxError] it throws. *)
Variable JSON_parse : string -> option JValue.
(** [ToNumber] of a string, an array or an object. *)
Variable ToNumber_ext : JValue -> JSNum.

Definition ToNumber (v : JValue) : JSNum :=
  match v with
  | JNum q => Fin q
  | JBool b => Fin (if b then 1 else 0)
  | JNull => Fin 0
  | _ => ToNumber_ext v
  end.

(** [Math.min(Math.max(c || 0.8, 0), 1)], line 115. *)
Definition clamp_confidence (c : option JValue) : JSNum :=
  Math_min (Math_max (ToNumber (or_else c (JNum 0.8))) (Fin 0)) (Fin 1).

(** [checkOllamaStatus()], lines 24-40. *)
Definition checkOllamaStatus (w : World) : M bool :=
  try_catch
    (models <- call (OllamaTags 3000) (ollama_tags w) ;;
     ret (existsb (fun name => includes name (before_colon model)) models))
    (fun _ => ret false).

(** Lines 92-106: the response text cleaned, the JSON object cut out and
    repaired, then parsed; [Ret None] when no brace-delimited text is found. *)
Definition parse_response (responseText : option string) : outcome (option JValue) :=
  match responseText with
  | None => Throw "TypeError: Cannot read properties of undefined (reading 'trim')"
  | Some text =>
      let cleanedResponse :=
        replaceAll fence (fun _ => "")
          (replaceAll fence_json (fun _ => "") (trim text)) in
      match exec json_object cleanedResponse with
      | None => Ret None
      | Some jsonMatch =>
          let jsonStr :=
            replaceAll trailing_comma group1
              (replaceAll double_zero (fun h => "0." ++ group1 h)
                 (h_text jsonMatch)) in
          match JSON_parse jsonStr with
          | None => Throw "SyntaxError"
          | Some parsed => Ret (Some parsed)
          end
      end
  end.

(** [this.availableTools.has(v)] *)
Definition has_tool (availableTools : list string) (v : option JValue) : option string :=
  match v with
  | Some (JStr t) => if existsb (String.eqb t) availableTools then Some t else None
  | _ => None
  end.

(** Lines 108-121: the classification of a parsed answer that names a tool
    of the registry. *)
Definition validate (availableTools : list string) (parsed : JValue)
  : outcome (option ClassificationResult) :=
  match prop parsed "tool" with
  | Throw e => Throw e
  | Ret named =>
      match has_tool availableTools named with
      | Some t =>
          if prints (get "confidence" (fields_of parsed)) then
            Ret (Some {| tool := t;
                         parameters := or_else (get "parameters" (fields_of parsed)) (JObj []);
                         reasoning := get "reasoning" (fields_of parsed);
                         confidence := clamp_confidence (get "confidence" (fields_of parsed));
                         source := "llm" |})
          else Throw "Cannot convert object to primitive value"   (* [Math.max] *)
      | None => Ret None
      end
  end.

(** The inner [try] block of [processQuery], lines 90-122: [Some] is the
    classification it returns, [None] is falling out of the block. *)
Definition interpret (availableTools : list string) (responseText : option string)
  : outcome (option ClassificationResult) :=
  match parse_response responseText with
  | Throw e => Throw e
  | Ret None => Ret None
  | Ret (Some parsed) => validate availableTools parsed
  end.

(** [processQuery(userQuery)], lines 45-135. [createToolsContext] builds a
    text that is not used and is left out. *)
Definition processQuery (w : World) (availableTools : list string)
    (userQuery : string) : M ClassificationResult :=
  try_catch
    (isOllamaReady <- checkOllamaStatus w ;;
     if negb isOllamaReady then ret (fallbackProcessing userQuery)
     else
       responseText <-
         call (OllamaGenerate (prompt userQuery) 10000)
           (fun l => ollama_generate w l (prompt userQuery)) ;;
       answer <-
         try_catch (lift (interpret availableTools responseText))
           (fun _ => ret None) ;;
       match answer with
       | Some r => ret r
       | None => ret (fallbackProcessing userQuery)
       end)
    (fun _ => ret (fallbackProcessing userQuery)).

End Classifier.

End LLMQueryProcessor.

(** ** The bridge: [src/mcp-http-bridge.js] *)

Module Bridge.

Import JS Regex.
Import LLMQueryProcessor.

(** *** Registry and capabilities *)

Record Capabilities : Type :=
  { keywords : list string;
    requiresSymbol : bool;
    requiresCount : bool;
    requiresQuery : bool;
    category : string }.

(** [s.split(c)] for a one-character separator. *)
Fixpoint split_on (sep : ascii) (s : string) : list string :=
  match s with
  | EmptyString => [""]
  | String c s' =>
      if Ascii.eqb c sep then "" :: split_on sep s'
      else match split_on sep s' with
           | piece :: pieces => String c piece :: pieces
           | [] => [String c ""]
           end
  end.

(** [extractToolCapabilities(tool)], lines 204-242. *)
Definition extractToolCapabilities (tool : Tool) : Capabilities :=
  let name := toLowerCase (t_name tool) in
  let description :=
    toLowerCase (match t_description tool with Some d => d | None => "" end) in
  {| keywords :=
       filter (fun k => 2 <? String.length k)
         (split_on "_" name ++ split_on " " description)%list;
     requiresSymbol :=
       includes name "quote" || includes name "historical"
       || includes name "chart" || includes name "insights";
     requiresCount :=
       includes name "trending" || includes name "gainers"
       || includes name "screener";
     requiresQuery := includes name "search" || includes name "symbols";
     category :=
       if includes name "trending" then "trending"
       else if includes name "quote" || includes name "price" then "quotes"
       else if includes name "historical" then "historical_chart"
       else if includes name "chart" then "chart_data"
       else if includes name "insights" then "insights"
       else if includes name "search" then "search"
       else if includes name "etf" then "etfs"
       else if includes name "gainer" then "gainers"
       else "general" |}.

(** A [Map] with string keys: insertion order, [set] on a present key keeps
    its place. *)
Fixpoint map_get {V} (k : string) (m : list (string * V)) : option V :=
  match m with
  | [] => None
  | (k', v) :: m' => if String.eqb k' k then Some v else map_get k m'
  end.

Fixpoint map_set {V} (k : string) (v : V) (m : list (string * V)) : list (string * V) :=
  match m with
  | [] => [(k, v)]
  | (k', v') :: m' =>
      if String.eqb k' k then (k, v) :: m' else (k', v') :: map_set k v m'
  end.

(** The module-level caches [availableTools] and [toolCapabilities]. *)
Record Registry : Type :=
  { availableTools : list (string * Tool);
    toolCapabilities : list (string * Capabilities) }.

(** The tool names of the classifier, [llmProcessor.availableTools]. The set
    starts empty, as the caches do, and its one assignment is in
    [initialize] (lines 14-19 of the classifier), which
    [discoverAvailableTools] calls in the step that has filled the caches
    (line 194): [new Set(availableTools.keys())]. It is the keys of
    [availableTools] in every state. *)
Definition llm_availableTools (reg : Registry) : list string :=
  map fst (availableTools reg).

Definition empty_registry : Registry :=
  {| availableTools := []; toolCapabilities := [] |}.

(** [sendToMCP(message)], lines 245-298: rejected when the server is not
    running or after 30000 ms without a response. *)
Definition sendToMCP (w : World) (req : McpRequest) : M McpResult :=
  call (McpCall req 30000) (fun l => mcp w l req).

Fixpoint cache_tools (tools : list Tool) (reg : Registry) : Registry :=
  match tools with
  | [] => reg
  | tool :: tools' =>
      cache_tools tools'
        {| availableTools := map_set (t_name tool) tool (availableTools reg);
           toolCapabilities :=
             map_set (t_name tool) (extractToolCapabilities tool)
               (toolCapabilities reg) |}
  end.

(** [discoverAvailableTools()], lines 167-201, as the registry it leaves. *)
Definition discoverAvailableTools (w : World) (reg : Registry) : M Registry :=
  try_catch
    (response <- sendToMCP w ToolsList ;;
     let tools := match r_tools response with Some ts => ts | None => [] end in
     ret (cache_tools tools empty_registry))
    (fun _ => ret reg).

(** *** Symbol resolution *)

Definition known_companies : list string :=
  [ "apple"; "microsoft"; "google"; "amazon"; "tesla"; "meta"; "nvidia";
    "netflix"; "amd"; "intel"; "palantir"; "coinbase"; "berkshire";
    "jpmorgan"; "walmart"; "coca cola"; "pepsi"; "disney"; "nike";
    "home depot"; "lowes"; "target"; "costco"; "mcdonalds"; "starbucks";
    "boeing"; "general electric"; "general motors"; "ford motor"; "ford" ].

(** [[a-z]+(?:\s+[a-z]+)*] under the [i] flag *)
Definition words_i : re :=
  Seq (plus letter_i) (Star true (Seq (plus space) (plus letter_i))).

(** The three patterns of [extractCompanyNames], all [gi]. *)
Definition name_patterns : list re :=
  [ Seq WordB (Seq (Grp 1 (alts (map lit_i known_companies))) WordB);
    Seq WordB (Seq (Grp 1 words_i) (Seq (plus space)
      (Seq (Grp 2 (alts (map lit_i
         ["inc"; "corp"; "corporation"; "company"; "co"; "llc"; "ltd"; "limited"])))
         WordB)));
    Seq WordB (Seq (Grp 1 words_i) (Seq (plus space)
      (Seq (Grp 2 (alts (map lit_i
         ["technologies"; "tech"; "systems"; "solutions"; "group"; "holdings";
          "industries"])))
         WordB))) ].

(** [extractCompanyNames(message)], lines 88-112. *)
Definition extractCompanyNames (message : string) : list string :=
  let of_match (m : hit) : list string :=
    let company :=
      match cap_get 1 (h_caps m) with
      | Some g => if String.eqb g "" then h_text m else g
      | None => h_text m
      end in
    if 2 <? String.length company then [trim company] else [] in
  unique (flat_map (fun pattern => flat_map of_match (matchAll pattern message))
            name_patterns).

(** A value a variable of the handler holds: a JSON value, or a function,
    which no JSON text gives. *)
Inductive Held : Type :=
| Json (v : JValue)
| Function.

Definition held_truthy (v : option Held) : bool :=
  match v with
  | Some (Json v) => truthy (Some v)
  | Some Function => true
  | None => false
  end.

(** The properties an object literal inherits from [Object.prototype]
    besides [__proto__]; each holds a function. *)
Definition Object_prototype : list string :=
  [ "constructor"; "__defineGetter__"; "__defineSetter__"; "hasOwnProperty";
    "__lookupGetter__"; "__lookupSetter__"; "isPrototypeOf";
    "propertyIsEnumerable"; "toString"; "valueOf"; "toLocaleString" ].

(** [table[k]] for an object literal [table] of strings: an own property,
    else an inherited one; [__proto__] reads the prototype, an object that
    [JSON.stringify] writes as an empty object. *)
Definition read_property (table : list (string * string)) (k : string) : option Held :=
  match map_get k table with
  | Some s => Some (Json (JStr s))
  | None =>
      if existsb (String.eqb k) Object_prototype then Some Function
      else if String.eqb k "__proto__" then Some (Json (JObj []))
      else None
  end.

(** The names [extractSymbol] maps itself, lines 22-42. *)
Definition companyMap : list (string * string) :=
  [ ("microsoft", "MSFT"); ("apple", "AAPL"); ("google", "GOOGL");
    ("amazon", "AMZN"); ("tesla", "TSLA"); ("meta", "META");
    ("nvidia", "NVDA"); ("netflix", "NFLX"); ("amd", "AMD");
    ("intel", "INTC"); ("ford", "F"); ("berkshire", "BRK.B");
    ("jpmorgan", "JPM"); ("walmart", "WMT"); ("disney", "DIS");
    ("nike", "NKE"); ("boeing", "BA"); ("general electric", "GE");
    ("general motors", "GM") ].

(** [/\b([A-Z]{1,5})\b/] *)
Definition symbol_token : re := Seq WordB (Seq (Grp 1 (Rep 1 5 upper)) WordB).

Definition is_stock (quoteType : option JValue) : bool :=
  match quoteType with
  | Some (JStr t) => String.eqb t "EQUITY" || String.eqb t "STOCK"
  | _ => false
  end.

(** [searchResults.find(r => r.quoteType === 'EQUITY' || r.quoteType === 'STOCK')] *)
Fixpoint find_stock (results : list JValue) : outcome (option JValue) :=
  match results with
  | [] => Ret None
  | r :: results' =>
      match prop r "quoteType" with
      | Throw e => Throw e
      | Ret quoteType => if is_stock quoteType then Ret (Some r) else find_stock results'
      end
  end.

Section Orchestrator.

Variable JSON_parse : string -> option JValue.
Variable ToNumber_ext : JValue -> JSNum.

(** The symbol a search response gives, lines 64-76. A parsed value that is
    not a non-empty array either fails the test of line 67 or has no [find]
    and throws into the [catch] of line 77: no symbol in both cases. *)
Definition symbol_of_search (response : McpResult) : outcome (option JValue) :=
  match r_content response with
  | Some (item :: _) =>
      match c_text item with
      | None => Throw "SyntaxError"             (* JSON.parse(undefined) *)
      | Some text =>
          match JSON_parse text with
          | None => Throw "SyntaxError"
          | Some (JArr (first :: others)) =>
              match find_stock (first :: others) with
              | Throw e => Throw e
              | Ret (Some stockResult) => prop stockResult "symbol"
              | Ret None => prop first "symbol"
              end
          | Some _ => Ret None
          end
      end
  | _ => Ret None
  end.

(** [extractSymbol(message)], lines 8-85; [None] is [null]. The test
    [companyMap[companyName]] of line 45 reads a property of an object
    literal, so the name [constructor] gives the function every object
    inherits, which is truthy and becomes the symbol. *)
Definition extractSymbol (w : World) (message : string) : M (option Held) :=
  match exec symbol_token message with
  | Some symbolMatch => ret (Some (Json (JStr (group1 symbolMatch))))
  | None =>
      match extractCompanyNames message with
      | [] => ret None
      | first :: _ =>
          let companyName := toLowerCase first in
          if held_truthy (read_property companyMap companyName) then
            ret (read_property companyMap companyName)
          else
            try_catch
              (response <-
                 sendToMCP w (ToolsCall "search_symbols" [("query", JStr first)]) ;;
               symbol <- lift (symbol_of_search response) ;;
               ret (option_map Json symbol))
              (fun _ => ret None)
      end
  end.

(** *** The [/analyze] handler, lines 519-710 *)

Record Response : Type :=
  { status : Z;
    error : option string;
    content : string;
    data : JValue;
    widgetType : string;
    query : option string;
    toolUsed : option string }.

(** The alternates of a tool, lines 537-547. *)
Definition fallbacks_for (tool : string) : list string :=
  if String.eqb tool "get_screener" then ["get_trending_stocks"; "search_symbols"]
  else if String.eqb tool "get_trending_stocks" then ["search_symbols"]
  else if String.eqb tool "get_quote" then ["search_symbols"]
  else if String.eqb tool "search_symbols" then ["get_trending_stocks"]
  else [].

Definition index_key (i : nat) : string := NilZero.string_of_uint (Nat.to_uint i).

Fixpoint indexed (i : nat) (items : list JValue) : Fields :=
  match items with
  | [] => []
  | v :: items' => (index_key i, v) :: indexed (S i) items'
  end.

Fixpoint chars (s : string) : list JValue :=
  match s with
  | EmptyString => []
  | String c s' => JStr (String c "") :: chars s'
  end.

(** [{ ...parameters }], line 560. *)
Definition spread (v : JValue) : Fields :=
  match v with
  | JObj kv => kv
  | JArr items => indexed 0 items
  | JStr s => indexed 0 (chars s)
  | _ => []
  end.

Definition tool_not_found (reg : Registry) (tool : string) : Response :=
  {| status := 200; error := None;
     content := "Tool " ++ quoted tool ++ " not found. Available tools: "
                ++ join ", " (map fst (availableTools reg));
     data := JObj [("error", JStr "Tool not found")];
     widgetType := "error"; query := None; toolUsed := None |}.

Definition no_symbol_found (message : string) : Response :=
  {| status := 200; error := None;
     content := "I couldn't identify a stock symbol in your message: "
                ++ quoted message
                ++ ". Please specify a stock symbol (like AAPL, MSFT) or company name (like Apple, Microsoft).";
     data := JObj [("error", JStr "No symbol found")];
     widgetType := "error"; query := None; toolUsed := None |}.

(** [/search.*?(?:for|symbol|ticker|find)/i] *)
Definition search_phrase : re :=
  Seq (lit_i "search")
    (Seq (Star false (Chr is_dot))
       (alts (map lit_i ["for"; "symbol"; "ticker"; "find"]))).

(** The arguments as the handler holds them, and as [JSON.stringify]
    writes them into the request (line 296): a property that holds a
    function is left out. *)
Definition hold (kv : Fields) : list (string * Held) :=
  map (fun e => (fst e, Json (snd e))) kv.

Fixpoint stringify (held : list (string * Held)) : Fields :=
  match held with
  | [] => []
  | (k, Json v) :: held' => (k, v) :: stringify held'
  | (k, Function) :: held' => stringify held'
  end.

(** The loop over the required parameters, lines 564-588: the response of
    an early return, or the arguments completed. *)
Fixpoint fill_loop (w : World) (tool message : string)
    (requiredParams : list string) (toolArgs : list (string * Held))
  : M (Response + list (string * Held)) :=
  match requiredParams with
  | [] => ret (inr toolArgs)
  | param :: others =>
      if held_truthy (map_get param toolArgs) then
        fill_loop w tool message others toolArgs
      else if String.eqb param "symbol" then
        symbol <- extractSymbol w message ;;
        match symbol with
        | Some v =>
            if held_truthy symbol then
              fill_loop w tool message others (map_set "symbol" v toolArgs)
            else ret (inl (no_symbol_found message))
        | None => ret (inl (no_symbol_found message))
        end
      else if String.eqb param "count" then
        let count :=
          match exec digits message with
          | Some countMatch => parseInt (group1 countMatch)
          | None => 5%Z
          end in
        fill_loop w tool message others (map_set "count" (Json (num count)) toolArgs)
      else if String.eqb param "query" then
        let q :=
          if String.eqb tool "search_symbols" then
            let searchQuery := trim (replaceFirst search_phrase (fun _ => "") message) in
            if String.eqb searchQuery "" then trim message else searchQuery
          else message in
        fill_loop w tool message others (map_set "query" (Json (JStr q)) toolArgs)
      else fill_loop w tool message others toolArgs
  end.

(** Lines 560-599: the loop run on the arguments of the classification,
    and the arguments of the request as they are sent. *)
Definition fill_required (w : World) (tool message : string)
    (requiredParams : list string) (toolArgs : Fields) : M (Response + Fields) :=
  filled <- fill_loop w tool message requiredParams (hold toolArgs) ;;
  ret match filled with
      | inl early => inl early
      | inr held => inr (stringify held)
      end.

(** [response.result?.content?.[0]?.text?.includes('Error:')] *)
Definition has_error_marker (result : McpResult) : bool :=
  match r_content result with
  | Some (item :: _) =>
      match c_text item with
      | Some text => includes text "Error:"
      | None => false
      end
  | _ => false
  end.

(** The variables the invocation block updates: [response], [lastError]
    (its message) and the name and arguments inside [mcpRequest]. *)
Record Exec : Type :=
  { response : option McpResult;
    lastError : option string;
    req_name : string;
    req_arguments : Fields }.

(** The outcome of a call, caught. *)
Definition attempt {A} (m : M A) : M (outcome A) :=
  fun l => let (o, l') := m l in (Ret o, l').

(** The loop over the fallback tools, lines 618-638. *)
Fixpoint try_fallbacks (w : World) (message : string) (fallbacks : list string)
    (e : Exec) : M Exec :=
  match fallbacks with
  | [] => ret e
  | fallbackTool :: others =>
      let arguments :=
        if String.eqb fallbackTool "search_symbols"
        then [("query", JStr (trim message))]
        else req_arguments e in
      o <- attempt (sendToMCP w (ToolsCall fallbackTool arguments)) ;;
      match o with
      | Ret r =>
          let e' := {| response := Some r; lastError := lastError e;
                       req_name := fallbackTool; req_arguments := arguments |} in
          if negb (has_error_marker r) then ret e'          (* break *)
          else try_fallbacks w message others e'
      | Throw fallbackError =>
          try_fallbacks w message others
            {| response := response e; lastError := Some fallbackError;
               req_name := fallbackTool; req_arguments := arguments |}
      end
  end.

(** The primary invocation and its [catch], lines 591-639. *)
Definition execute (w : World) (message tool : string) (toolArgs : Fields)
    (fallbacks : list string) : M Exec :=
  o <- attempt (sendToMCP w (ToolsCall tool toolArgs)) ;;
  match o with
  | Ret r =>
      if has_error_marker r then
        try_fallbacks w message fallbacks
          {| response := Some r; lastError := Some "Tool returned error";
             req_name := tool; req_arguments := toolArgs |}
      else ret {| response := Some r; lastError := None;
                  req_name := tool; req_arguments := toolArgs |}
  | Throw err =>
      try_fallbacks w message fallbacks
        {| response := None; lastError := Some err;
           req_name := tool; req_arguments := toolArgs |}
  end.

Definition toolToWidgetMap : list (string * string) :=
  [ ("get_insights", "insights"); ("get_chart", "chart_data");
    ("get_quote_summary", "quote_summary");
    ("get_fundamentals_timeseries", "fundamentals");
    ("fundamentals_analysis", "fundamentals");
    ("get_trending_symbols", "trending_symbols");
    ("get_daily_gainers", "gainers"); ("get_screener", "screener");
    ("get_autoc", "autoc"); ("get_trending_etfs", "etfs");
    ("get_trending_stocks", "trending"); ("get_quote", "quotes");
    ("get_historical_data", "historical_chart"); ("search_symbols", "search") ].

(** The widget type of the tool named in the request, lines 650-680. *)
Definition widget_for (reg : Registry) (toolName : string) : string :=
  if String.eqb toolName "" then "general"
  else match map_get toolName (toolCapabilities reg) with
       | Some capabilities => category capabilities
       | None =>
           match map_get toolName toolToWidgetMap with
           | Some widget => widget
           | None => "general"
           end
       end.

(** Lines 682-691. *)
Definition financialData_of (result : McpResult) : JValue :=
  match r_content result with
  | Some items =>
      match find (fun c => String.eqb (c_type c) "text") items with
      | Some textContent =>
          match c_text textContent with
          | Some text =>
              if String.eqb text "" then JObj []
              else match JSON_parse text with
                   | Some parsed => parsed
                   | None => JObj [("message", JStr text)]
                   end
          | None => JObj []
          end
      | None => JObj []
      end
  | None => JObj []
  end.

(** Lines 641-699: the throw when no response was ever received, else the
    response sent. *)
Definition respond (reg : Registry) (message tool : string) (e : Exec) : M Response :=
  match response e with
  | None =>
      throw (match lastError e with Some msg => msg | None => "All tools failed" end)
  | Some result =>
      ret {| status := 200; error := None;
             content := "Analysis completed for: " ++ message;
             data := financialData_of result;
             widgetType := widget_for reg (req_name e);
             query := Some message;
             toolUsed := Some tool |}
  end.

(** The response of the [catch] of lines 701-709. *)
Definition failure (msg : string) : Response :=
  {| status := 500; error := Some msg; content := "Failed to analyze message";
     data := JObj []; widgetType := "error"; query := None; toolUsed := None |}.

(** [console.log(`Reasoning: ${reasoning}`)], line 535. *)
Definition log_reasoning (reasoning : option JValue) : M unit :=
  if prints reasoning then ret tt
  else throw "Cannot convert object to primitive value".

(** The body of the [try], from the classification on, lines 530-699. *)
Definition handle (w : World) (reg : Registry) (message : string) : M Response :=
  llmResult <- processQuery JSON_parse ToNumber_ext w (llm_availableTools reg) message ;;
  _ <- log_reasoning (reasoning llmResult) ;;
  let tool := tool llmResult in
  let fallbacks := fallbacks_for tool in
  match map_get tool (availableTools reg) with
  | None => ret (tool_not_found reg tool)
  | Some toolInfo =>
      let requiredParams :=
        match t_required toolInfo with Some ps => ps | None => [] end in
      filled <- fill_required w tool message requiredParams
                  (spread (parameters llmResult)) ;;
      match filled with
      | inl early => ret early
      | inr toolArgs =>
          e <- execute w message tool toolArgs fallbacks ;;
          respond reg message tool e
      end
  end.

(** [app.post('/analyze')]: the registry the request leaves and the response
    sent. [discoverAvailableTools] catches its own errors, so it stands
    before the [try]. *)
Definition analyze (w : World) (reg : Registry) (message : string)
  : M (Registry * Response) :=
  reg' <- (if length (availableTools reg) =? 0
           then discoverAvailableTools w reg else ret reg) ;;
  r <- try_catch (handle w reg' message) (fun msg => ret (failure msg)) ;;
  ret (reg', r).

End Orchestrator.

End Bridge.

(** ** The other routes of the bridge *)

Module Routes.

Import JS Regex LLMQueryProcessor Bridge.

(** *** Keyword routing: [findBestTool], lines 399-516 *)

Record Preference : Type :=
  { keywords : list string;
    primary : string;
    fallbacks : list string;
    requiresSymbol : option bool;
    requiresCount : option bool;
    requiresQuery : option bool;
    priority : option nat }.

Definition toolPreferences : list Preference :=
  [ {| keywords := ["trending"; "top"; "stock"; "stocks"; "top 5 stocks"; "top 10 stocks"];
       primary := "get_trending_stocks"; fallbacks := ["search_symbols"];
       requiresSymbol := None; requiresCount := Some true; requiresQuery := None;
       priority := Some 1 |};
    {| keywords := ["etf"; "etfs"; "trending etf"; "top etf"];
       primary := "get_trending_etfs";
       fallbacks := ["get_trending_stocks"; "search_symbols"];
       requiresSymbol := None; requiresCount := Some true; requiresQuery := None;
       priority := Some 2 |};
    {| keywords := ["historical"; "chart"; "price history"];
       primary := "get_historical_data"; fallbacks := ["get_quote"; "search_symbols"];
       requiresSymbol := Some true; requiresCount := None; requiresQuery := None;
       priority := Some 2 |};
    {| keywords := ["quote"; "price"; "stock price"; "current price"];
       primary := "get_quote"; fallbacks := ["search_symbols"];
       requiresSymbol := Some true; requiresCount := None; requiresQuery := None;
       priority := Some 1 |};
    {| keywords := ["search"; "symbol"; "ticker"; "find"];
       primary := "search_symbols"; fallbacks := [];
       requiresSymbol := None; requiresCount := None; requiresQuery := Some true;
       priority := None |};
    {| keywords := ["summary"; "comprehensive"; "detailed"];
       primary := "get_quote_summary"; fallbacks := ["get_quote"; "search_symbols"];
       requiresSymbol := Some true; requiresCount := None; requiresQuery := None;
       priority := None |};
    {| keywords := ["chart"; "analysis"];
       primary := "get_chart"; fallbacks := ["get_historical_data"; "get_quote"];
       requiresSymbol := Some true; requiresCount := None; requiresQuery := None;
       priority := None |};
    {| keywords := ["insights"; "technical"; "analysis"];
       primary := "get_insights"; fallbacks := ["get_quote"; "search_symbols"];
       requiresSymbol := Some true; requiresCount := None; requiresQuery := None;
       priority := None |};
    {| keywords := ["dividend"; "yield"; "high yield"; "screener"; "filter"; "screen"];
       primary := "get_screener";
       fallbacks := ["get_trending_stocks"; "search_symbols"];
       requiresSymbol := None; requiresCount := Some true; requiresQuery := None;
       priority := Some 3 |} ].

(** [p.priority || 10] *)
Definition rank (p : Preference) : nat :=
  match priority p with
  | Some n => if n =? 0 then 10 else n
  | None => 10
  end.

(** [toolPreferences.sort((a, b) => rank a - rank b)]; the sort of an array
    is stable. *)
Fixpoint insert_by_rank (p : Preference) (sorted : list Preference) : list Preference :=
  match sorted with
  | [] => [p]
  | q :: others =>
      if rank q <=? rank p then q :: insert_by_rank p others else p :: sorted
  end.

Definition sort_by_rank (prefs : list Preference) : list Preference :=
  fold_left (fun sorted p => insert_by_rank p sorted) prefs [].

(** What [findBestTool] returns. *)
Record Choice : Type :=
  { c_tool : string;
    c_fallbacks : list string;
    c_requiresSymbol : option bool;
    c_requiresCount : option bool;
    c_requiresQuery : option bool }.

(** [availableTools.has(name)] *)
Definition has (availableTools : list (string * Tool)) (name : string) : bool :=
  match map_get name availableTools with Some _ => true | None => false end.

(** The loop of lines 478-506 and the default of lines 508-515. *)
Fixpoint choose (availableTools : list (string * Tool)) (lowerMessage : string)
    (prefs : list Preference) : Choice :=
  match prefs with
  | [] =>
      {| c_tool := "search_symbols"; c_fallbacks := [];
         c_requiresSymbol := Some false; c_requiresCount := Some false;
         c_requiresQuery := Some true |}
  | preference :: others =>
      if existsb (includes lowerMessage) (keywords preference) then
        if has availableTools (primary preference) then
          {| c_tool := primary preference;
             c_fallbacks := filter (has availableTools) (fallbacks preference);
             c_requiresSymbol := requiresSymbol preference;
             c_requiresCount := requiresCount preference;
             c_requiresQuery := requiresQuery preference |}
        else
          match find (has availableTools) (fallbacks preference) with
          | Some fallback =>
              {| c_tool := fallback; c_fallbacks := [];
                 c_requiresSymbol := requiresSymbol preference;
                 c_requiresCount := requiresCount preference;
                 c_requiresQuery := requiresQuery preference |}
          | None => choose availableTools lowerMessage others
          end
      else choose availableTools lowerMessage others
  end.

Definition findBestTool (availableTools : list (string * Tool)) (message : string)
  : Choice :=
  choose availableTools (toLowerCase message) (sort_by_rank toolPreferences).

(** *** [determineWidgetType(name)], lines 713-734 *)

Definition widgetMap : list (string * string) :=
  [ ("analyze_stock", "stock_analysis"); ("compare_stocks", "stock_comparison");
    ("market_overview", "market_overview");
    ("portfolio_analysis", "portfolio_analysis"); ("stock_news", "news");
    ("find_stocks", "search_results"); ("get_quote", "stock_quote");
    ("get_historical_data", "historical_chart");
    ("search_symbols", "search_results");
    ("get_market_summary", "market_overview"); ("get_news", "news");
    ("get_recommendations", "recommendations"); ("get_financials", "financials");
    ("get_options", "options"); ("get_trending_stocks", "trending_stocks");
    ("get_trending_etfs", "trending_etfs") ].

(** [widgetMap[name] || 'general']. The table answers for the names that
    are not properties every object inherits; for one of those, such as
    [constructor], the lookup gives a function, which [res.json] leaves
    out, and the response has no widget type at all. *)
Definition determineWidgetType (name : string) : string :=
  match map_get name widgetMap with
  | Some widget => widget
  | None => "general"
  end.

Section Tool.

Variable JSON_parse : string -> option JValue.
(** The text a template literal makes of a value that is not a string. *)
Variable ToString_ext : JValue -> string.

Definition ToString (v : JValue) : string :=
  match v with JStr s => s | _ => ToString_ext v end.

(** The loop over [result.content] of lines 366-379, from the data and the
    content text so far. An item that does not parse leaves its text as
    content and the loop goes on; [parsedData.symbol] of a parsed [null],
    and the template literal on a symbol it cannot print, throw after the
    data was assigned. *)
Fixpoint read_items (name : string) (items : list ContentItem)
    (financialData : JValue) (content : string) : JValue * string :=
  match items with
  | [] => (financialData, content)
  | item :: others =>
      match c_text item with
      | Some text =>
          if String.eqb (c_type item) "text" && negb (String.eqb text "") then
            match JSON_parse text with
            | Some parsedData =>
                match prop parsedData "symbol" with
                | Ret symbol =>
                    if printable (or_else symbol (JStr "stock")) then
                      (parsedData,
                       "Current " ++ name ++ " data for "
                         ++ ToString (or_else symbol (JStr "stock")))
                    else read_items name others parsedData text
                | Throw _ => read_items name others parsedData text
                end
            | None => read_items name others financialData text
            end
          else read_items name others financialData content
      | None => read_items name others financialData content
      end
  end.

(** [app.post('/tool')], lines 340-396. *)
Definition post_tool (w : World) (name : string) (args : Fields) : M Response :=
  try_catch
    (result <- sendToMCP w (ToolsCall name args) ;;
     let '(financialData, content) :=
       match r_content result with
       | Some items => read_items name items (JObj []) "Tool executed successfully"
       | None => (JObj [], "Tool executed successfully")
       end in
     ret {| status := 200; error := None; content := content;
            data := financialData; widgetType := determineWidgetType name;
            query := None; toolUsed := None |})
    (fun msg =>
       ret {| status := 500; error := Some msg;
              content := "Failed to execute tool"; data := JObj [];
              widgetType := "error"; query := None; toolUsed := None |}).

End Tool.

End Routes.

(** ** Query suggestions: [generateWidgetSuggestions] and [/suggestions] *)

Module Suggestions.

Import JS Regex LLMQueryProcessor Bridge.

(** [getDefaultSuggestions()], lines 548-561 of the classifier. *)
Definition getDefaultSuggestions : list string :=
  [ "Show me top 10 trending stocks by volume and price movement";
    "Get Apple Inc. current stock price with P/E ratio and market cap";
    "Display Microsoft Corporation historical chart for past 6 months";
    "Show me comprehensive market summary with major indices performance";
    "Get Tesla Inc. latest financial news and analyst recommendations";
    "Display top 5 high dividend yield stocks for income investors";
    "Show me NVIDIA technical analysis with RSI and moving averages";
    "Get Amazon stock quote with 52-week range and trading volume";
    "Display trending technology sector ETFs with holdings breakdown";
    "Show me Google Alphabet chart analysis with support and resistance levels" ].

(** The prompt of lines 468-483. *)
Definition prompt (userQuery : string) : string :=
  "Based on this financial query: " ++ quoted userQuery ++ nl ++ nl
  ++ "Generate 3-5 detailed, comprehensive financial queries that would be valuable for a professional financial dashboard. Each query should be:"
  ++ nl
  ++ "- 15-30 words long with specific details" ++ nl
  ++ "- Include company names, sectors, or specific metrics" ++ nl
  ++ "- Cover different aspects: quotes, charts, analysis, news, comparisons" ++ nl
  ++ "- Use professional financial terminology" ++ nl
  ++ "- Include time periods, sectors, or specific data requirements" ++ nl ++ nl
  ++ "Examples of good detailed queries:" ++ nl
  ++ "- " ++ quoted "Show me Apple Inc. current stock price with P/E ratio, market cap, and 52-week range" ++ nl
  ++ "- " ++ quoted "Display Microsoft Corporation historical chart for past 6 months with volume analysis" ++ nl
  ++ "- " ++ quoted "Get top 5 high dividend yield stocks in technology sector with yield percentages" ++ nl
  ++ "- " ++ quoted "Show me Tesla technical analysis with RSI, moving averages, and support levels" ++ nl ++ nl
  ++ "Respond with a JSON array of detailed query strings.".

(** [s.endsWith(t)] *)
Fixpoint endsWith (s t : string) : bool :=
  if String.eqb s t then true
  else match s with
       | EmptyString => false
       | String _ s' => endsWith s' t
       end.

(** The loop of lines 517-527: the lines from the first that starts with
    a bracket to the first that ends with one. *)
Fixpoint json_lines (inJson : bool) (lines : list string) : list string :=
  match lines with
  | [] => []
  | line :: others =>
      let inJson := inJson || prefix "[" (trim line) in
      if inJson then
        if endsWith (trim line) "]" then [line]
        else line :: json_lines true others
      else json_lines false others
  end.

(** [typeof s === 'string' && s.length > 0] over the items of an array. *)
Fixpoint strings_of (items : list JValue) : list string :=
  match items with
  | [] => []
  | JStr s :: others =>
      if String.eqb s "" then strings_of others else s :: strings_of others
  | _ :: others => strings_of others
  end.

Section Suggest.

Variable JSON_parse : string -> option JValue.

(** The inner [try] block, lines 505-531. A parsed value that is not an
    array has no [filter], and of [null] no property can be read. *)
Definition read_suggestions (responseText : option string) : outcome (list string) :=
  match responseText with
  | None => Throw "TypeError: Cannot read properties of undefined (reading 'trim')"
  | Some text =>
      let cleanedResponse :=
        replaceAll fence (fun _ => "")
          (replaceAll fence_json (fun _ => "") (trim text)) in
      let jsonLines := json_lines false (split_on (ascii_of_nat 10) cleanedResponse) in
      let jsonStr := join nl jsonLines in
      match JSON_parse jsonStr with
      | None => Throw "SyntaxError"
      | Some (JArr items) => Ret (strings_of items)
      | Some _ => Throw "TypeError: suggestions.filter is not a function"
      end
  end.

(** [generateWidgetSuggestions(userQuery)], lines 461-543. *)
Definition generateWidgetSuggestions (w : World) (userQuery : string) : M (list string) :=
  try_catch
    (isOllamaReady <- checkOllamaStatus w ;;
     if negb isOllamaReady then ret getDefaultSuggestions
     else
       responseText <-
         call (OllamaGenerate (prompt userQuery) 8000)
           (fun l => ollama_generate w l (prompt userQuery)) ;;
       answer <-
         try_catch
           (suggestions <- lift (read_suggestions responseText) ;;
            ret (Some suggestions))
           (fun _ => ret None) ;;
       match answer with
       | Some suggestions => ret suggestions
       | None => ret getDefaultSuggestions
       end)
    (fun _ => ret getDefaultSuggestions).

(** [app.post('/suggestions')], lines 761-774 of the bridge; a query that
    is missing or empty is falsy. *)
Definition post_suggestions (w : World) (query : option string) : M (list string) :=
  match query with
  | None => ret []
  | Some q =>
      if String.eqb q "" then ret []
      else try_catch (generateWidgetSuggestions w q)
             (fun _ => ret getDefaultSuggestions)
  end.

End Suggest.

End Suggestions.

(** ** The statements of the specification, as definitions *)

Module Spec.

Import JS Regex LLMQueryProcessor Bridge.

(** Section 4.5: the ordered substring checks on the name, each with the
    category it gives; no check matching gives [general]. *)
Definition category_rules : list (list string * string) :=
  [ (["trending"], "trending");
    (["quote"; "price"], "quotes");
    (["historical"], "historical_chart");
    (["chart"], "chart_data");
    (["insights"], "insights");
    (["search"], "search");
    (["etf"], "etfs");
    (["gainer"], "gainers") ].

Fixpoint first_rule (rules : list (list string * string)) (name : string) : string :=
  match rules with
  | [] => "general"
  | (substrings, cat) :: rules' =>
      if existsb (includes name) substrings then cat else first_rule rules' name
  end.

(** The classifier is unavailable: the status check answers no. *)
Definition unavailable (w : World) (l : Log) : Prop :=
  fst (checkOllamaStatus w l) = Ret false.

(** Comparison phrasing, rule 1 of section 4.2 as the code tests it. *)
Definition comparison_phrasing (userQuery : string) : bool :=
  any_of (toLowerCase userQuery)
    ["compare"; "vs"; "versus"; "comparison"; "side by side"].

(** Section 5 on the model endpoint: the timeout of a generation call
    stays below ten seconds. *)
Definition generation_timeout_is_single_digit : Prop :=
  forall JSON_parse ToNumber_ext w tools q prompt_sent timeout_ms,
    In (OllamaGenerate prompt_sent timeout_ms)
       (snd (processQuery JSON_parse ToNumber_ext w tools q [])) ->
    (timeout_ms < 10000)%Z.

Definition timeout_of (c : ExtCall) : Z :=
  match c with
  | OllamaTags t | OllamaGenerate _ t | McpCall _ t => t
  end.

(** The timeout each kind of call is made under: 3 s for the status check,
    10 s for the generation call, 30 s for a call to the MCP server. *)
Definition timed (c : ExtCall) : Prop :=
  timeout_of c = match c with
                 | OllamaTags _ => 3000%Z
                 | OllamaGenerate _ _ => 10000%Z
                 | McpCall _ _ => 30000%Z
                 end.

(** Every call a computation adds to the log satisfies [P]. *)
Definition logs (P : ExtCall -> Prop) {A} (m : M A) : Prop :=
  forall l, exists calls, snd (m l) = (l ++ calls)%list /\ Forall P calls.

(** *** The fallback chain, section 4.4 *)

Definition call_of (req : McpRequest) : ExtCall := McpCall req 30000.

Definition request_name (req : McpRequest) : string :=
  match req with ToolsCall name _ => name | ToolsList => "" end.

(** An invocation succeeds when the server answers and the answer does not
    carry the error marker; it fails by a transport error or by the marker. *)
Definition succeeds (w : World) (l : Log) (req : McpRequest) : bool :=
  match mcp w l req with
  | Ret r => negb (has_error_marker r)
  | Throw _ => false
  end.

(** The arguments an alternate is called with: the trimmed query text for a
    search tool, else the arguments of the request before it. *)
Definition adapt (message : string) (arguments : Fields) (fallbackTool : string) : Fields :=
  if String.eqb fallbackTool "search_symbols"
  then [("query", JStr (trim message))]
  else arguments.

(** The requests of a chain of alternates, in its order. *)
Fixpoint plan (message : string) (arguments : Fields) (fallbacks : list string)
  : list McpRequest :=
  match fallbacks with
  | [] => []
  | fallbackTool :: others =>
      let adapted := adapt message arguments fallbackTool in
      ToolsCall fallbackTool adapted :: plan message adapted others
  end.

(** Requests tried in order, up to and including the first that succeeds. *)
Fixpoint attempts (w : World) (l : Log) (requests : list McpRequest) : list McpRequest :=
  match requests with
  | [] => []
  | req :: others =>
      if succeeds w l req then [req]
      else req :: attempts w (l ++ [call_of req])%list others
  end.

(** The first request that succeeds when they are tried in order. *)
Fixpoint winner (w : World) (l : Log) (requests : list McpRequest) : option McpRequest :=
  match requests with
  | [] => None
  | req :: others =>
      if succeeds w l req then Some req
      else winner w (l ++ [call_of req])%list others
  end.

(** Every one of the requests fails when they are tried in order. *)
Fixpoint all_fail (w : World) (l : Log) (requests : list McpRequest) : bool :=
  match requests with
  | [] => true
  | req :: others =>
      negb (succeeds w l req) && all_fail w (l ++ [call_of req])%list others
  end.

(** The names of the alternates called after a failed primary invocation. *)
Definition alternates_called (w : World) (message tool : string) (toolArgs : Fields)
    (l : Log) : list McpRequest :=
  attempts w (l ++ [call_of (ToolsCall tool toolArgs)])%list
    (plan message toolArgs (fallbacks_for tool)).

(** Section 4.4: the alternates called are tools of the live registry. *)
Definition alternates_restricted_to_registry : Prop :=
  forall w (reg : Registry) message tool toolArgs l,
    succeeds w l (ToolsCall tool toolArgs) = false ->
    (exists f, In f (fallbacks_for tool) /\ map_get f (availableTools reg) <> None) ->
    forall req,
      In req (alternates_called w message tool toolArgs l) ->
      map_get (request_name req) (availableTools reg) <> None.

(** Section 4.4: a fallback search tool receives the raw query text. *)
Definition search_alternate_gets_raw_text : Prop :=
  forall w message tool toolArgs l arguments,
    succeeds w l (ToolsCall tool toolArgs) = false ->
    In (ToolsCall "search_symbols" arguments)
       (alternates_called w message tool toolArgs l) ->
    arguments = [("query", JStr message)].

(** *** Symbol resolution, section 4.3 *)



(** The clamp of section 4.1 on a rational. *)
Definition clamp01 (q : Q) : Q := Qmin (Qmax q 0) 1.

End Spec.

(** ** Concrete worlds and registries *)

Module Examples.

Import LLMQueryProcessor Bridge.

(** No JSON text parses; no string is a number. *)
Definition parse_nothing (s : string) : option JValue := None.
Definition not_a_number (v : JValue) : JSNum := NaN.

(** The Ollama endpoint refuses the connection; the MCP server is down. *)
Definition offline : World :=
  {| ollama_tags := fun _ => Throw "connect ECONNREFUSED";
     ollama_generate := fun _ _ => Throw "connect ECONNREFUSED";
     mcp := fun _ _ => Throw "MCP server not running" |}.

(** The endpoint has the model and answers every prompt with [text]. *)
Definition answering (text : string) : World :=
  {| ollama_tags := fun _ => Ret ["phi3:mini"];
     ollama_generate := fun _ _ => Ret (Some text);
     mcp := fun _ _ => Throw "MCP server not running" |}.

(** [JSON.parse] on the texts of a table. *)
Definition parse_table (table : list (string * JValue)) (s : string) : option JValue :=
  map_get s table.

(** An answer of the model that names [get_news]. *)
Definition news_text : string :=
  sample "get_news" "symbol" (quoted "AAPL") "News" "0.9".

Definition news_value : JValue :=
  JObj [("tool", JStr "get_news");
        ("parameters", JObj [("symbol", JStr "AAPL")]);
        ("reasoning", JStr "News"); ("confidence", JNum 0.9)].

(** The endpoint has the model; the generation call times out. *)
Definition timing_out : World :=
  {| ollama_tags := fun _ => Ret ["phi3:mini"];
     ollama_generate := fun _ _ => Throw "timeout of 10000ms exceeded";
     mcp := fun _ _ => Throw "MCP server not running" |}.

Definition text_item (text : string) : McpResult :=
  {| r_tools := None;
     r_content := Some [{| c_type := "text"; c_text := Some text |}] |}.

(** The endpoint is down. The MCP server answers every call of a tool with
    the text the function [reply] gives for the name of the tool, and
    rejects the call when it gives none. *)
Definition serving (reply : string -> option string) : World :=
  {| ollama_tags := fun _ => Throw "connect ECONNREFUSED";
     ollama_generate := fun _ _ => Throw "connect ECONNREFUSED";
     mcp := fun _ req =>
              match req with
              | ToolsCall name _ =>
                  match reply name with
                  | Some text => Ret (text_item text)
                  | None => Throw "MCP server timeout"
                  end
              | ToolsList => Throw "MCP server timeout"
              end |}.

(** The endpoint is down; the server lists [tools] and rejects every
    invocation. *)
Definition listing (tools : list Tool) : World :=
  {| ollama_tags := fun _ => Throw "connect ECONNREFUSED";
     ollama_generate := fun _ _ => Throw "connect ECONNREFUSED";
     mcp := fun _ req =>
              match req with
              | ToolsList => Ret {| r_tools := Some tools; r_content := None |}
              | ToolsCall _ _ => Throw "MCP server timeout"
              end |}.

Definition registry_of (tools : list Tool) : Registry :=
  cache_tools tools empty_registry.

Definition get_quote : Tool :=
  {| t_name := "get_quote";
     t_description := Some "Get real-time quote data for a stock symbol";
     t_required := Some ["symbol"] |}.

Definition search_symbols : Tool :=
  {| t_name := "search_symbols";
     t_description := Some "Search for stock symbols and company names";
     t_required := Some ["query"] |}.

Definition get_trending_stocks : Tool :=
  {| t_name := "get_trending_stocks";
     t_description := Some "Get trending stocks";
     t_required := Some [] |}.

Definition get_screener : Tool :=
  {| t_name := "get_screener";
     t_description := Some "Use stock screener to find stocks based on criteria";
     t_required := Some [] |}.

(** Every tool answers with a tool-level error. *)
Definition soft_errors : World :=
  serving (fun _ => Some "Error: Failed to fetch data from Yahoo Finance").

(** The quote tool answers; nothing else does. *)
Definition quotes_only : World :=
  serving (fun name => if String.eqb name "get_quote" then Some "[]" else None).

(** The screener times out, the trending tool answers. *)
Definition screener_down : World :=
  serving (fun name =>
             if String.eqb name "get_screener" then None
             else if String.eqb name "get_trending_stocks" then Some "[]"
             else Some "Error: not reached").


(** An answer of the model with confidence 0. *)
Definition zero_text : string :=
  sample "get_quote" "symbol" (quoted "AAPL") "Single stock" "0".

Definition zero_value : JValue :=
  JObj [("tool", JStr "get_quote");
        ("parameters", JObj [("symbol", JStr "AAPL")]);
        ("reasoning", JStr "Single stock"); ("confidence", JNum 0)].

Definition trending_etfs : Tool :=
  {| t_name := "get_trending_etfs";
     t_description := Some "Get quote and price of exchange traded funds";
     t_required := Some [] |}.

End Examples.

(** ** Shapes and counts used by the further properties *)

Module Extra.

Import JS Regex LLMQueryProcessor Bridge.

Fixpoint all_upper (s : string) : bool :=
  match s with
  | EmptyString => true
  | String c s' => is_upper c && all_upper s'
  end.

(** One to five uppercase letters. *)
Definition ticker_shaped (t : string) : Prop :=
  1 <= String.length t <= 5 /\ all_upper t = true.

(** The requests sent to the MCP server among the calls of a log. *)
Fixpoint mcp_requests (calls : Log) : list McpRequest :=
  match calls with
  | [] => []
  | McpCall req _ :: calls' => req :: mcp_requests calls'
  | _ :: calls' => mcp_requests calls'
  end.

(** The symbol of a comparison: the ticker of the first company of the table
    that the query names, else the first token of three to five uppercase
    letters, else [AAPL]. *)
Definition comparison_symbol (userQuery : string) : string :=
  match first_company comparisonMap (toLowerCase userQuery) with
  | Some symbol => symbol
  | None =>
      match matchAll symbol_3_5 userQuery with
      | found :: _ => h_text found
      | [] => "AAPL"
      end
  end.

(** The tools the rule-based classifier can name. *)
Definition fallback_tools : list string :=
  [ "get_quote"; "get_screener"; "get_trending_stocks"; "get_historical_data";
    "search_symbols"; "get_trending_etfs"; "get_news"; "get_insights";
    "get_market_summary"; "get_recommendations" ].

(** A confidence the model left out or gave as a number. *)
Definition absent_or_number (c : option JValue) : Prop :=
  c = None \/ exists q, c = Some (JNum q).

(** The message has no uppercase token, and the first company name found in
    it is, in lower case, the name of a function that every object
    inherits: [constructor inc]. *)
Definition inherited_name (message : string) : Prop :=
  exec symbol_token message = None
  /\ exists first others,
       extractCompanyNames message = first :: others
       /\ read_property Bridge.companyMap (toLowerCase first) = Some Function.

(** A preference that does not list its primary tool among its fallbacks. *)
Definition preference_ok (p : Routes.Preference) : bool :=
  negb (existsb (String.eqb (Routes.primary p)) (Routes.fallbacks p)).

(** What the two caches hold while the tools listed are stored one by one:
    the same names in the same order, each once, the names of the tools
    seen; a name looks up a tool of that name together with the
    capabilities derived from it. *)
Definition coherent (reg : Registry) (seen : list Tool) : Prop :=
  map fst (toolCapabilities reg) = map fst (availableTools reg)
  /\ NoDup (map fst (availableTools reg))
  /\ (forall name, In name (map fst (availableTools reg)) <-> In name (map t_name seen))
  /\ (forall name tool,
        map_get name (availableTools reg) = Some tool ->
        t_name tool = name /\ In tool seen
        /\ map_get name (toolCapabilities reg) = Some (extractToolCapabilities tool)).

End Extra.

(** ** Properties *)

Import JS Regex LLMQueryProcessor Bridge Spec.
Local Open Scope list_scope.

(** *** Maps *)

Lemma map_get_set_same {V} k (v : V) m : map_get k (map_set k v m) = Some v.
Proof.
  induction m as [|[k0 v0] m IH]; cbn.
  - now rewrite String.eqb_refl.
  - destruct (String.eqb_spec k0 k) as [->|Hne]; cbn.
    + now rewrite String.eqb_refl.
    + destruct (String.eqb_spec k0 k); [contradiction|exact IH].
Qed.

Lemma map_get_set_other {V} k k' (v : V) m :
  k <> k' -> map_get k' (map_set k v m) = map_get k' m.
Proof.
  intros Hne. induction m as [|[k0 v0] m IH]; cbn.
  - destruct (String.eqb_spec k k'); [contradiction|reflexivity].
  - destruct (String.eqb_spec k0 k) as [->|Hk0]; cbn.
    + destruct (String.eqb_spec k k'); [contradiction|reflexivity].
    + destruct (String.eqb_spec k0 k'); [reflexivity|exact IH].
Qed.

Lemma map_set_keys {V W} k (v : V) (x : W) m n :
  map fst m = map fst n -> map fst (map_set k v m) = map fst (map_set k x n).
Proof.
  revert n. induction m as [|[k0 v0] m IH]; intros [|[k1 x1] n]; cbn;
    try discriminate; [reflexivity|].
  intros [= -> Hrest]. destruct (String.eqb k1 k); cbn; f_equal; auto.
Qed.

Lemma map_get_keys {V} name (m : list (string * V)) :
  map_get name m <> None <-> In name (map fst m).
Proof.
  induction m as [|[k v] m IH]; cbn; [tauto|].
  destruct (String.eqb_spec k name) as [->|Hne].
  - split; [now left|discriminate].
  - rewrite IH. split; [now right|]. intros [H|H]; [contradiction|assumption].
Qed.

Lemma map_set_keys_In {V} k (v : V) m name :
  In name (map fst (map_set k v m)) <-> name = k \/ In name (map fst m).
Proof.
  rewrite <- !map_get_keys.
  destruct (String.eqb_spec k name) as [->|Hne].
  - rewrite map_get_set_same. split; [now left|discriminate].
  - rewrite map_get_set_other by assumption. split; [now right|].
    intros [H|H]; [congruence|assumption].
Qed.

Lemma map_set_NoDup {V} k (v : V) m :
  NoDup (map fst m) -> NoDup (map fst (map_set k v m)).
Proof.
  induction m as [|[k0 v0] m IH]; cbn; intros H.
  - constructor; [tauto|constructor].
  - inversion H as [|? ? Hnot Hrest]; subst.
    destruct (String.eqb_spec k0 k) as [->|Hne]; cbn; [now constructor|].
    constructor; [|now apply IH].
    rewrite map_set_keys_In. intros [->|Hin]; [congruence|contradiction].
Qed.

(** *** Strings *)

Lemma prefix_toLowerCase (t s : string) :
  prefix t s = true -> prefix (toLowerCase t) (toLowerCase s) = true.
Proof.
  revert s; induction t as [|a t IH]; intros [|b s]; simpl; auto.
  destruct (ascii_dec a b) as [->|]; [|discriminate].
  intros H. destruct (ascii_dec (lower_char b) (lower_char b)); [auto|congruence].
Qed.

Lemma includes_toLowerCase (s t : string) :
  includes s t = true -> includes (toLowerCase s) (toLowerCase t) = true.
Proof.
  induction s as [|c s IH]; cbn [includes toLowerCase].
  - destruct (prefix t "") eqn:E; [|discriminate].
    intros _. apply prefix_toLowerCase in E. cbn [toLowerCase] in E. now rewrite E.
  - destruct (prefix t (String c s)) eqn:E.
    + intros _. apply prefix_toLowerCase in E. cbn [toLowerCase] in E. now rewrite E.
    + intros H. rewrite (IH H).
      now destruct (prefix (toLowerCase t) (String (lower_char c) (toLowerCase s))).
Qed.

(** *** Capability categories *)

(** C6. The category [extractToolCapabilities] derives is the one of the
    first matching check in the order trending, quote or price, historical,
    chart, insights, search, etf, gainer, and [general] when none matches;
    a tool whose name contains [trending] gets the category [trending]
    whatever its description and schema are. *)
Theorem category_follows_name_precedence :
  (forall tool : Tool,
      category (extractToolCapabilities tool)
      = first_rule category_rules (toLowerCase (t_name tool)))
  /\ (forall name description required,
        includes name "trending" = true ->
        category (extractToolCapabilities
                    {| t_name := name; t_description := description;
                       t_required := required |}) = "trending").
Proof.
  split.
  - intros tool. unfold extractToolCapabilities. cbn [category first_rule category_rules existsb].
    set (n := toLowerCase (t_name tool)).
    rewrite !orb_false_r.
    destruct (includes n "trending"), (includes n "quote"), (includes n "price"),
      (includes n "historical"), (includes n "chart"), (includes n "insights"),
      (includes n "search"), (includes n "etf"), (includes n "gainer"); reflexivity.
  - intros name description required H.
    apply includes_toLowerCase in H. change (toLowerCase "trending") with "trending" in H.
    unfold extractToolCapabilities. cbn [category t_name]. now rewrite H.
Qed.

Lemma category_follows_name_precedence_witness :
  category (extractToolCapabilities Examples.trending_etfs) = "trending".
Proof.
  apply (proj2 category_follows_name_precedence). reflexivity.
Defined.

(** *** The classifier when the model is unavailable *)

Lemma processQuery_when_unavailable JSON_parse ToNumber_ext w tools q l :
  unavailable w l ->
  fst (processQuery JSON_parse ToNumber_ext w tools q l) = Ret (fallbackProcessing q).
Proof.
  unfold unavailable, processQuery, try_catch, bind.
  destruct (checkOllamaStatus w l) as [o l']. simpl. intros ->. reflexivity.
Qed.

Lemma offline_unavailable l : unavailable Examples.offline l.
Proof. reflexivity. Qed.

Ltac fallback_branches :=
  unfold fallbackProcessing;
  repeat match goal with
         | |- context [if ?b then _ else _] => destruct b
         end.

Lemma fallback_source (q : string) : source (fallbackProcessing q) = "enhanced_fallback".
Proof. fallback_branches; reflexivity. Qed.

(** C7. With the classifier unavailable, the query [top 5 dividend stocks]
    is classified as the screening tool with criteria [dividend_yield] and
    count 5 among its parameters, confidence 0.9 and the source of the
    fallback classifier, [enhanced_fallback], which is the source of every
    classification the rule-based classifier makes. *)
Theorem top_dividend_query_uses_screener :
  (forall q, source (fallbackProcessing q) = "enhanced_fallback")
  /\ (forall JSON_parse ToNumber_ext w tools l,
        unavailable w l ->
        fst (processQuery JSON_parse ToNumber_ext w tools "top 5 dividend stocks" l)
        = Ret {| tool := "get_screener";
                 parameters :=
                   JObj [("criteria", JStr "dividend_yield"); ("count", JNum 5);
                         ("sort", JStr "dividend_yield_desc")];
                 reasoning :=
                   Some (JStr "Query appears to be asking for high dividend stocks");
                 confidence := Fin 0.9;
                 source := "enhanced_fallback" |}).
Proof.
  split; [exact fallback_source|].
  intros. rewrite processQuery_when_unavailable by assumption.
  vm_compute. reflexivity.
Qed.

Lemma top_dividend_query_uses_screener_witness :
  option_map confidence
    (match fst (processQuery Examples.parse_nothing Examples.not_a_number
                  Examples.offline [] "top 5 dividend stocks" []) with
     | Ret r => Some r
     | Throw _ => None
     end) = Some (Fin 0.9).
Proof.
  rewrite (proj2 top_dividend_query_uses_screener Examples.parse_nothing
             Examples.not_a_number Examples.offline [] [] (offline_unavailable [])).
  reflexivity.
Defined.

(** The comparison rule stands first: comparison phrasing alone decides the
    tool and the confidence. *)
Lemma comparison_rule_first (q : string) :
  comparison_phrasing q = true ->
  tool (fallbackProcessing q) = "get_quote"
  /\ confidence (fallbackProcessing q) = Fin 0.85.
Proof.
  unfold comparison_phrasing, fallbackProcessing. intros ->. split; reflexivity.
Qed.

(** C8. With the classifier unavailable, [compare Apple and Microsoft] is
    answered by the comparison rule, which stands before every other rule:
    a quote with symbol [AAPL], the first symbol extracted, confidence 0.85
    and a reasoning that names both [AAPL] and [MSFT]. *)
Theorem comparison_query_uses_first_symbol :
  (forall q,
      comparison_phrasing q = true ->
      tool (fallbackProcessing q) = "get_quote"
      /\ confidence (fallbackProcessing q) = Fin 0.85)
  /\ comparison_phrasing "compare Apple and Microsoft" = true
  /\ (forall JSON_parse ToNumber_ext w tools l,
        unavailable w l ->
        fst (processQuery JSON_parse ToNumber_ext w tools
               "compare Apple and Microsoft" l)
        = Ret {| tool := "get_quote";
                 parameters := JObj [("symbol", JStr "AAPL")];
                 reasoning :=
                   Some (JStr "Comparison query detected with symbols: AAPL, MSFT. Using first symbol for fallback.");
                 confidence := Fin 0.85;
                 source := "enhanced_fallback" |}).
Proof.
  split; [exact comparison_rule_first|]. split; [reflexivity|].
  intros. rewrite processQuery_when_unavailable by assumption.
  vm_compute. reflexivity.
Qed.

Lemma comparison_query_uses_first_symbol_witness :
  option_map tool
    (match fst (processQuery Examples.parse_nothing Examples.not_a_number
                  Examples.offline [] "compare Apple and Microsoft" []) with
     | Ret r => Some r
     | Throw _ => None
     end) = Some "get_quote".
Proof.
  rewrite (proj2 (proj2 comparison_query_uses_first_symbol) Examples.parse_nothing
             Examples.not_a_number Examples.offline [] [] (offline_unavailable [])).
  reflexivity.
Defined.

(** *** The LLM-backed classifier *)

Lemma checkOllamaStatus_runs w l :
  exists ready, checkOllamaStatus w l = (Ret ready, (l ++ [OllamaTags 3000])%list).
Proof.
  unfold checkOllamaStatus, try_catch, bind, call, ret.
  destruct (ollama_tags w l); eauto.
Qed.

(** What [processQuery] does, case by case. *)
Lemma processQuery_cases JSON_parse ToNumber_ext w tools q l :
  processQuery JSON_parse ToNumber_ext w tools q l
  = let l1 := (l ++ [OllamaTags 3000])%list in
    let l2 := (l1 ++ [OllamaGenerate (prompt q) 10000])%list in
    match fst (checkOllamaStatus w l) with
    | Ret true =>
        match ollama_generate w l1 (prompt q) with
        | Ret text =>
            match interpret JSON_parse ToNumber_ext tools text with
            | Ret (Some r) => (Ret r, l2)
            | _ => (Ret (fallbackProcessing q), l2)
            end
        | Throw _ => (Ret (fallbackProcessing q), l2)
        end
    | _ => (Ret (fallbackProcessing q), l1)
    end.
Proof.
  destruct (checkOllamaStatus_runs w l) as [ready E].
  unfold processQuery, try_catch, bind. rewrite E. cbn [fst negb].
  destruct ready; cbn [fst negb]; [|reflexivity].
  unfold call, lift, ret.
  destruct (ollama_generate w (l ++ [OllamaTags 3000])%list (prompt q)) as [text|msg];
    [|reflexivity].
  destruct (interpret JSON_parse ToNumber_ext tools text) as [[r|]|]; reflexivity.
Qed.

Lemma has_tool_In tools named t : has_tool tools named = Some t -> In t tools.
Proof.
  destruct named as [[]|]; try discriminate. cbn.
  destruct (existsb (String.eqb s) tools) eqn:E; [|discriminate].
  intros [= <-]. apply existsb_exists in E as (x & Hin & Heq).
  apply String.eqb_eq in Heq. now subst.
Qed.

Lemma has_tool_absent tools t : ~ In t tools -> has_tool tools (Some (JStr t)) = None.
Proof.
  intros H. cbn. destruct (existsb (String.eqb t) tools) eqn:E; [|reflexivity].
  apply existsb_exists in E as (x & Hin & Heq). apply String.eqb_eq in Heq.
  now subst.
Qed.

Lemma validate_gives ToNumber_ext tools parsed r :
  validate ToNumber_ext tools parsed = Ret (Some r) ->
  source r = "llm" /\ has_tool tools (get "tool" (fields_of parsed)) = Some (tool r).
Proof.
  unfold validate. intros H.
  destruct parsed; cbn in H; try discriminate.
  destruct (has_tool tools (get "tool" fields)) eqn:E; [|discriminate].
  destruct (prints (get "confidence" fields)); [|discriminate].
  injection H as <-. now split.
Qed.

(** The reasoning of a rule-based classification is a text. *)
Lemma fallback_reasoning (q : string) :
  exists why, reasoning (fallbackProcessing q) = Some (JStr why).
Proof. fallback_branches; eexists; reflexivity. Qed.

Lemma log_reasoning_fallback (q : string) l :
  log_reasoning (reasoning (fallbackProcessing q)) l = (Ret tt, l).
Proof. destruct (fallback_reasoning q) as [why ->]. reflexivity. Qed.

(** Where a classification comes from. *)
Lemma processQuery_result JSON_parse ToNumber_ext w tools q l cls l1 :
  processQuery JSON_parse ToNumber_ext w tools q l = (Ret cls, l1) ->
  cls = fallbackProcessing q \/ (source cls = "llm" /\ In (tool cls) tools).
Proof.
  rewrite processQuery_cases. cbv zeta.
  destruct (fst (checkOllamaStatus w l)) as [[|]|msg0];
    [|intros [= <- _]; now left|intros [= <- _]; now left].
  destruct (ollama_generate w (l ++ [OllamaTags 3000]) (prompt q)) as [text|msg1];
    [|intros [= <- _]; now left].
  unfold interpret.
  destruct (parse_response JSON_parse text) as [[parsed|]|msg2];
    [|intros [= <- _]; now left|intros [= <- _]; now left].
  destruct (validate ToNumber_ext tools parsed) as [[r|]|msg3] eqn:V;
    [|intros [= <- _]; now left|intros [= <- _]; now left].
  intros [= <- _]. apply validate_gives in V as [Hsrc Htool].
  right. split; [assumption|]. eapply has_tool_In; eassumption.
Qed.

(** A classification whose tool the registry does not hold goes no further
    than the handler: the answer is the error [Tool not found] and no call
    is made for it. *)
Lemma unregistered_tool_is_rejected JSON_parse ToNumber_ext w reg message l cls l1 :
  processQuery JSON_parse ToNumber_ext w (llm_availableTools reg) message l
  = (Ret cls, l1) ->
  map_get (tool cls) (availableTools reg) = None ->
  handle JSON_parse ToNumber_ext w reg message l
  = (Ret (tool_not_found reg (tool cls)), l1).
Proof.
  intros Hcls Hnone. unfold handle, bind. rewrite Hcls.
  destruct (processQuery_result _ _ _ _ _ _ _ _ Hcls) as [->|[_ Hin]].
  - rewrite log_reasoning_fallback. now rewrite Hnone.
  - apply map_get_keys in Hin. contradiction.
Qed.

(** C2. [processQuery] returns a classification for every query and every
    behaviour of the endpoint, never an exception. The classification is
    the one of the rule-based classifier whenever the endpoint is
    unavailable, the generation call is rejected (refused or timed out), the
    answer does not parse, or the answer names a tool that is not in the
    registry; a classification that comes from the model names a tool of the
    registry. Past the classifier, a classified tool that the registry does
    not hold is answered by the error [Tool not found] and never invoked. *)
Theorem processQuery_never_throws :
  (forall JSON_parse ToNumber_ext w tools q l,
   exists r l',
    processQuery JSON_parse ToNumber_ext w tools q l = (Ret r, l')
    /\ (r = fallbackProcessing q \/ (source r = "llm" /\ In (tool r) tools))
    /\ (unavailable w l -> r = fallbackProcessing q)
    /\ (forall msg,
          ollama_generate w (l ++ [OllamaTags 3000])%list (prompt q) = Throw msg ->
          r = fallbackProcessing q)
    /\ (forall text,
          ollama_generate w (l ++ [OllamaTags 3000])%list (prompt q) = Ret text ->
          (forall parsed, parse_response JSON_parse text <> Ret (Some parsed)) ->
          r = fallbackProcessing q)
    /\ (forall text parsed t,
          ollama_generate w (l ++ [OllamaTags 3000])%list (prompt q) = Ret text ->
          parse_response JSON_parse text = Ret (Some parsed) ->
          get "tool" (fields_of parsed) = Some (JStr t) ->
          ~ In t tools ->
          r = fallbackProcessing q))
  /\ (forall JSON_parse ToNumber_ext w reg message l cls l1,
        processQuery JSON_parse ToNumber_ext w (llm_availableTools reg) message l
        = (Ret cls, l1) ->
        map_get (tool cls) (availableTools reg) = None ->
        handle JSON_parse ToNumber_ext w reg message l
        = (Ret (tool_not_found reg (tool cls)), l1)
        /\ widgetType (tool_not_found reg (tool cls)) = "error").
Proof.
  split; [|intros; split; [now apply unregistered_tool_is_rejected|reflexivity]].
  intros. rewrite processQuery_cases. unfold unavailable. cbv zeta.
  destruct (fst (checkOllamaStatus w l)) as [[|]|msg0].
  2,3: (do 2 eexists; split; [reflexivity|]; repeat split; auto).
  destruct (ollama_generate w (l ++ [OllamaTags 3000])%list (prompt q))
    as [text|msg1] eqn:G.
  2: (do 2 eexists; split; [reflexivity|]; repeat split; auto).
  unfold interpret.
  destruct (parse_response JSON_parse text) as [[parsed|]|msg2] eqn:P.
  2,3: (do 2 eexists; split; [reflexivity|]; repeat split; auto).
  destruct (validate ToNumber_ext tools parsed) as [[r|]|msg3] eqn:V.
  2,3: (do 2 eexists; split; [reflexivity|]; repeat split; auto).
  apply validate_gives in V as [Hsrc Htool].
  do 2 eexists; split; [reflexivity|]. repeat split.
  - right. split; [assumption|]. eapply has_tool_In; eassumption.
  - discriminate.
  - discriminate.
  - intros text' [= <-] Hno. now destruct (Hno parsed).
  - intros text' parsed' t [= <-] P' Ht Hnot.
    rewrite P in P'. injection P' as <-.
    rewrite Ht, (has_tool_absent _ _ Hnot) in Htool. discriminate.
Qed.

Lemma processQuery_never_throws_witness :
  exists r l',
    processQuery (Examples.parse_table [(Examples.news_text, Examples.news_value)])
      Examples.not_a_number (Examples.answering Examples.news_text)
      ["get_quote"] "news today" [] = (Ret r, l')
    /\ r = fallbackProcessing "news today".
Proof.
  destruct (proj1 processQuery_never_throws
              (Examples.parse_table [(Examples.news_text, Examples.news_value)])
              Examples.not_a_number (Examples.answering Examples.news_text)
              ["get_quote"] "news today" [])
    as (r & l' & E & _ & _ & _ & _ & H).
  exists r, l'. split; [exact E|].
  apply (H (Some Examples.news_text) Examples.news_value "get_news").
  - reflexivity.
  - vm_compute. reflexivity.
  - reflexivity.
  - cbn. intros [H0|[]]. discriminate.
Defined.

(** *** Confidence *)

Lemma clamp_confidence_absent ToNumber_ext :
  clamp_confidence ToNumber_ext None = Fin 0.8.
Proof. reflexivity. Qed.

Lemma clamp_confidence_number ToNumber_ext (q : Q) :
  Qeq_bool q 0 = false ->
  clamp_confidence ToNumber_ext (Some (JNum q)) = Fin (clamp01 q).
Proof.
  intros H. unfold clamp_confidence, or_else, truthy. rewrite H. reflexivity.
Qed.

Lemma clamp01_range (q : Q) : (0 <= clamp01 q /\ clamp01 q <= 1)%Q.
Proof.
  unfold clamp01. split.
  - apply Q.min_glb; [apply Q.le_max_r | discriminate].
  - apply Q.le_min_r.
Qed.

(** A numeric or absent confidence always lands in [0,1]. *)
Lemma clamp_confidence_range ToNumber_ext (c : option JValue) :
  (c = None \/ exists q, c = Some (JNum q)) ->
  exists r, clamp_confidence ToNumber_ext c = Fin r /\ (0 <= r /\ r <= 1)%Q.
Proof.
  intros [->|[q ->]].
  - exists 0.8%Q. split; [reflexivity|]. split; discriminate.
  - destruct (Qeq_bool q 0) eqn:E.
    + exists 0.8%Q. split; [|split; discriminate].
      unfold clamp_confidence, or_else, truthy. rewrite E. reflexivity.
    + exists (clamp01 q). split; [now apply clamp_confidence_number|apply clamp01_range].
Qed.

Lemma fallback_confidence_range (q : string) :
  exists r, confidence (fallbackProcessing q) = Fin r /\ (0 <= r /\ r <= 1)%Q.
Proof.
  fallback_branches; eexists; (split; [reflexivity|split; discriminate]).
Qed.

(** C5, at the answer [{"tool": "get_quote", ..., "confidence": 0}]: the
    supplied confidence 0 clamps to 0, and [processQuery] reports 0.8, the
    value meant for an answer without confidence. *)
Theorem zero_confidence_becomes_default :
  clamp01 0 = 0%Q
  /\ (forall ToNumber_ext, clamp_confidence ToNumber_ext (Some (JNum 0)) = Fin 0.8)
  /\ fst (processQuery
            (Examples.parse_table [(Examples.zero_text, Examples.zero_value)])
            Examples.not_a_number (Examples.answering Examples.zero_text)
            ["get_quote"] "Apple stock" [])
     = Ret {| tool := "get_quote";
              parameters := JObj [("symbol", JStr "AAPL")];
              reasoning := Some (JStr "Single stock");
              confidence := Fin 0.8;
              source := "llm" |}.
Proof.
  split; [reflexivity|]. split; [reflexivity|]. vm_compute. reflexivity.
Qed.

(** *** The call log *)

Section Logs.

Variable P : ExtCall -> Prop.

Lemma logs_ret {A} (a : A) : logs P (ret a).
Proof. intros l. exists []. cbn. now rewrite app_nil_r. Qed.

Lemma logs_throw {A} (msg : string) : logs P (@throw A msg).
Proof. intros l. exists []. cbn. now rewrite app_nil_r. Qed.

Lemma logs_lift {A} (o : outcome A) : logs P (lift o).
Proof. intros l. exists []. cbn. now rewrite app_nil_r. Qed.

Lemma logs_call {A} (c : ExtCall) (answer : Log -> outcome A) :
  P c -> logs P (call c answer).
Proof. intros H l. exists [c]. cbn. auto. Qed.

Lemma logs_bind {A B} (m : M A) (f : A -> M B) :
  logs P m -> (forall a, logs P (f a)) -> logs P (bind m f).
Proof.
  intros Hm Hf l. unfold bind.
  destruct (Hm l) as (c1 & E1 & F1). destruct (m l) as [[a|msg] l1]; cbn in E1; subst l1.
  - destruct (Hf a (l ++ c1)%list) as (c2 & E2 & F2).
    exists (c1 ++ c2)%list. rewrite E2, app_assoc. split; [reflexivity|].
    apply Forall_app; auto.
  - exists c1. auto.
Qed.

Lemma logs_try_catch {A} (m : M A) (handler : string -> M A) :
  logs P m -> (forall msg, logs P (handler msg)) -> logs P (try_catch m handler).
Proof.
  intros Hm Hh l. unfold try_catch.
  destruct (Hm l) as (c1 & E1 & F1). destruct (m l) as [[a|msg] l1]; cbn in E1; subst l1.
  - exists c1. auto.
  - destruct (Hh msg (l ++ c1)%list) as (c2 & E2 & F2).
    exists (c1 ++ c2)%list. rewrite E2, app_assoc. split; [reflexivity|].
    apply Forall_app; auto.
Qed.

Lemma logs_attempt {A} (m : M A) : logs P m -> logs P (attempt m).
Proof.
  intros Hm l. unfold attempt. destruct (Hm l) as (c1 & E1 & F1).
  destruct (m l) as [o l1]. cbn in *. eauto.
Qed.

End Logs.

Create HintDb logs.

#[local] Hint Resolve logs_ret logs_throw logs_lift logs_call logs_bind
  logs_try_catch logs_attempt : logs.

Lemma sendToMCP_timed w req : logs timed (sendToMCP w req).
Proof. apply logs_call. reflexivity. Qed.

#[local] Hint Resolve sendToMCP_timed : logs.

Lemma checkOllamaStatus_timed w : logs timed (checkOllamaStatus w).
Proof.
  unfold checkOllamaStatus. apply logs_try_catch; [apply logs_bind|]; intros;
    auto with logs. apply logs_call. reflexivity.
Qed.

Lemma processQuery_timed JSON_parse ToNumber_ext w tools q :
  logs timed (processQuery JSON_parse ToNumber_ext w tools q).
Proof.
  unfold processQuery. apply logs_try_catch; [|auto with logs].
  apply logs_bind; [apply checkOllamaStatus_timed|]. intros ready.
  destruct (negb ready); [auto with logs|].
  apply logs_bind; [apply logs_call; reflexivity|]. intros text.
  apply logs_bind; [auto with logs|]. intros [r|]; auto with logs.
Qed.

Lemma discoverAvailableTools_timed w reg : logs timed (discoverAvailableTools w reg).
Proof.
  unfold discoverAvailableTools. apply logs_try_catch; [|auto with logs].
  apply logs_bind; auto with logs.
Qed.

Lemma extractSymbol_timed JSON_parse w message :
  logs timed (Bridge.extractSymbol JSON_parse w message).
Proof.
  unfold Bridge.extractSymbol.
  destruct (exec symbol_token message); [auto with logs|].
  destruct (extractCompanyNames message) as [|first others]; [auto with logs|].
  destruct (held_truthy (read_property Bridge.companyMap (toLowerCase first)));
    [auto with logs|].
  apply logs_try_catch; [|auto with logs].
  apply logs_bind; [auto with logs|]. intros response.
  apply logs_bind; auto with logs.
Qed.

Lemma fill_loop_timed JSON_parse w tool message requiredParams :
  forall toolArgs,
    logs timed (fill_loop JSON_parse w tool message requiredParams toolArgs).
Proof.
  induction requiredParams as [|param others IH]; intros toolArgs; cbn [fill_loop];
    [auto with logs|].
  destruct (held_truthy (map_get param toolArgs)); [apply IH|].
  destruct (String.eqb param "symbol").
  { apply logs_bind; [apply extractSymbol_timed|]. intros [v|]; [|auto with logs].
    destruct (held_truthy (Some v)); [apply IH|auto with logs]. }
  destruct (String.eqb param "count"); [apply IH|].
  destruct (String.eqb param "query"); apply IH.
Qed.

Lemma fill_required_timed JSON_parse w tool message requiredParams toolArgs :
  logs timed (fill_required JSON_parse w tool message requiredParams toolArgs).
Proof.
  unfold fill_required. apply logs_bind; [apply fill_loop_timed|auto with logs].
Qed.

Lemma try_fallbacks_timed w message fallbacks :
  forall e, logs timed (try_fallbacks w message fallbacks e).
Proof.
  induction fallbacks as [|fallbackTool others IH]; intros e; cbn [try_fallbacks];
    [auto with logs|].
  apply logs_bind; [auto with logs|]. intros [r|msg]; [|apply IH].
  destruct (negb (has_error_marker r)); [auto with logs|apply IH].
Qed.

Lemma execute_timed w message tool toolArgs fallbacks :
  logs timed (execute w message tool toolArgs fallbacks).
Proof.
  unfold execute. apply logs_bind; [auto with logs|].
  intros [r|msg]; [|apply try_fallbacks_timed].
  destruct (has_error_marker r); [apply try_fallbacks_timed|auto with logs].
Qed.

Lemma handle_timed JSON_parse ToNumber_ext w reg message :
  logs timed (handle JSON_parse ToNumber_ext w reg message).
Proof.
  unfold handle. apply logs_bind; [apply processQuery_timed|]. intros llmResult.
  apply logs_bind.
  { unfold log_reasoning. destruct (prints (reasoning llmResult)); auto with logs. }
  intros _.
  destruct (map_get (tool llmResult) (availableTools reg)); [|auto with logs].
  apply logs_bind; [apply fill_required_timed|]. intros [early|toolArgs];
    [auto with logs|].
  apply logs_bind; [apply execute_timed|]. intros e.
  unfold respond. destruct (response e); auto with logs.
Qed.

Lemma analyze_timed JSON_parse ToNumber_ext w reg message :
  logs timed (analyze JSON_parse ToNumber_ext w reg message).
Proof.
  unfold analyze. apply logs_bind.
  - destruct (length (availableTools reg) =? 0);
      [apply discoverAvailableTools_timed|auto with logs].
  - intros reg'. apply logs_bind; [|auto with logs].
    apply logs_try_catch; [apply handle_timed|auto with logs].
Qed.

(** *** Timeouts and retries *)

(** C9 as stated fails: the generation call is made under a timeout of
    10000 ms, which is not a single-digit number of seconds. *)
Lemma generation_timeout_is_ten_seconds : ~ generation_timeout_is_single_digit.
Proof.
  intros H.
  specialize (H Examples.parse_nothing Examples.not_a_number (Examples.answering "")
                [] "Apple stock" (prompt "Apple stock") 10000%Z).
  apply (Z.lt_irrefl 10000). apply H.
  rewrite processQuery_cases. cbn. right. left. reflexivity.
Qed.

(** C9, amended. Every call [/analyze] makes carries a timeout: 3 s for the
    status check of the model endpoint, 10 s for the generation call, 30 s
    for each call to the MCP server. [processQuery] makes the status check
    once and the generation call at most once; when the generation call is
    rejected, by timeout or otherwise, it returns the rule-based
    classification without another call. *)
Theorem calls_are_timed_and_not_retried :
  forall JSON_parse ToNumber_ext w reg message l,
    (exists calls,
        snd (analyze JSON_parse ToNumber_ext w reg message l) = (l ++ calls)%list
        /\ Forall timed calls
        /\ Forall (fun c => (3000 <= timeout_of c <= 30000)%Z) calls)
    /\ ((exists r,
           processQuery JSON_parse ToNumber_ext w (llm_availableTools reg) message l
           = (Ret r, (l ++ [OllamaTags 3000])%list)
           /\ r = fallbackProcessing message)
        \/ (exists r,
              processQuery JSON_parse ToNumber_ext w (llm_availableTools reg) message l
              = (Ret r, (l ++ [OllamaTags 3000;
                               OllamaGenerate (prompt message) 10000])%list)
              /\ (forall msg,
                    ollama_generate w (l ++ [OllamaTags 3000])%list (prompt message)
                    = Throw msg ->
                    r = fallbackProcessing message))).
Proof.
  intros. split.
  - destruct (analyze_timed JSON_parse ToNumber_ext w reg message l) as (calls & E & F).
    exists calls. repeat split; auto.
    eapply Forall_impl; [|exact F]. intros [t|p t|req t] Ht; unfold timed in Ht;
      cbn in *; lia.
  - rewrite processQuery_cases. cbv zeta.
    destruct (fst (checkOllamaStatus w l)) as [[|]|msg0]; [|left; eauto|left; eauto].
    right. rewrite <- app_assoc. cbn [app].
    destruct (ollama_generate w (l ++ [OllamaTags 3000])%list (prompt message))
      as [text|msg1].
    + destruct (interpret JSON_parse ToNumber_ext (llm_availableTools reg) text)
        as [[r|]|]; eexists; (split; [reflexivity|]); discriminate.
    + eexists; split; [reflexivity|]. reflexivity.
Qed.

Lemma calls_are_timed_and_not_retried_witness :
  fst (processQuery Examples.parse_nothing Examples.not_a_number Examples.timing_out
         (llm_availableTools empty_registry) "Apple stock" [])
  = Ret (fallbackProcessing "Apple stock").
Proof.
  destruct (proj2 (calls_are_timed_and_not_retried Examples.parse_nothing
                     Examples.not_a_number Examples.timing_out empty_registry
                     "Apple stock" []))
    as [(r & E & ->)|(r & E & H)]; rewrite E; [reflexivity|].
  cbn [fst]. f_equal. apply (H "timeout of 10000ms exceeded"). reflexivity.
Defined.

(** *** The fallback chain *)

Lemma sendToMCP_runs w req l :
  sendToMCP w req l = (mcp w l req, (l ++ [call_of req])%list).
Proof. reflexivity. Qed.

(** The loop over the alternates tries the requests of [plan] in order and
    stops at the first that succeeds; the request left in [mcpRequest] is
    the last one tried. *)
Lemma try_fallbacks_walk w message :
  forall fallbacks e l,
  exists e',
    try_fallbacks w message fallbacks e l
    = (Ret e',
       (l ++ map call_of
               (attempts w l (plan message (req_arguments e) fallbacks)))%list)
    /\ match winner w l (plan message (req_arguments e) fallbacks) with
       | Some req =>
           req_name e' = request_name req
           /\ exists r l0,
               response e' = Some r /\ has_error_marker r = false
               /\ mcp w l0 req = Ret r
       | None =>
           (response e = None
            /\ (forall req l0, exists msg, mcp w l0 req = Throw msg) ->
            response e' = None)
           /\ (lastError e <> None -> lastError e' <> None)
       end.
Proof.
  induction fallbacks as [|fallbackTool others IH]; intros e l.
  - exists e. cbn. rewrite app_nil_r. repeat split; tauto.
  - cbn [try_fallbacks plan attempts winner]. unfold bind, attempt.
    rewrite sendToMCP_runs.
    set (adapted := adapt message (req_arguments e) fallbackTool).
    change (if String.eqb fallbackTool "search_symbols"
            then [("query", JStr (trim message))] else req_arguments e)
      with adapted.
    set (req := ToolsCall fallbackTool adapted).
    destruct (mcp w l req) as [r|msg] eqn:E.
    + destruct (has_error_marker r) eqn:Hm; cbn [negb].
      * assert (S : succeeds w l req = false)
          by (unfold succeeds; now rewrite E, Hm).
        rewrite S.
        match goal with
        | |- context [try_fallbacks w message others ?e1 ?l1] =>
            destruct (IH e1 l1) as (e' & E' & W)
        end.
        cbn [req_arguments] in E', W. exists e'. rewrite E', <- app_assoc.
        split; [reflexivity|].
        destruct (winner w (l ++ [call_of req]) (plan message adapted others));
          [exact W|].
        destruct W as [W1 W2]. cbn [response lastError] in W1, W2. split.
        -- intros [_ Hall]. destruct (Hall req l) as [msg Hmsg]. congruence.
        -- exact W2.
      * assert (S : succeeds w l req = true)
          by (unfold succeeds; now rewrite E, Hm).
        rewrite S.
        eexists. split; [reflexivity|]. cbn. eauto 6.
    + assert (S : succeeds w l req = false)
        by (unfold succeeds; now rewrite E).
      rewrite S.
      match goal with
      | |- context [try_fallbacks w message others ?e1 ?l1] =>
          destruct (IH e1 l1) as (e' & E' & W)
      end.
      cbn [req_arguments] in E', W. exists e'. rewrite E', <- app_assoc.
      split; [reflexivity|].
      destruct (winner w (l ++ [call_of req]) (plan message adapted others));
        [exact W|].
      destruct W as [W1 W2]. cbn [response lastError] in W1, W2. split.
      * intros [Hr Hall]. apply W1. auto.
      * intros _. apply W2. discriminate.
Qed.

(** The primary invocation and, when it fails, the walk over the chain. *)
Lemma execute_walk w message tool toolArgs fallbacks l :
  succeeds w l (ToolsCall tool toolArgs) = false ->
  let l1 := (l ++ [call_of (ToolsCall tool toolArgs)])%list in
  let requests := plan message toolArgs fallbacks in
  exists e,
    execute w message tool toolArgs fallbacks l
    = (Ret e, (l1 ++ map call_of (attempts w l1 requests))%list)
    /\ match winner w l1 requests with
       | Some req =>
           req_name e = request_name req
           /\ exists r l0,
               response e = Some r /\ has_error_marker r = false
               /\ mcp w l0 req = Ret r
       | None => lastError e <> None
       end.
Proof.
  intros Hfail l1 requests. unfold execute, bind, attempt.
  rewrite sendToMCP_runs. unfold succeeds in Hfail.
  destruct (mcp w l (ToolsCall tool toolArgs)) as [r|msg].
  - destruct (has_error_marker r); [|discriminate].
    match goal with
    | |- context [try_fallbacks w message fallbacks ?e1 ?l0] =>
        destruct (try_fallbacks_walk w message fallbacks e1 l0) as (e & E & W)
    end.
    exists e. split; [exact E|]. cbn [req_arguments] in W. fold l1 requests in W.
    destruct (winner w l1 requests); [exact W|]. apply W. discriminate.
  - match goal with
    | |- context [try_fallbacks w message fallbacks ?e1 ?l0] =>
        destruct (try_fallbacks_walk w message fallbacks e1 l0) as (e & E & W)
    end.
    exists e. split; [exact E|]. cbn [req_arguments] in W. fold l1 requests in W.
    destruct (winner w l1 requests); [exact W|]. apply W. discriminate.
Qed.

Lemma plan_names message : forall fallbacks arguments,
  map request_name (plan message arguments fallbacks) = fallbacks.
Proof.
  induction fallbacks as [|f fs IH]; intros; cbn; [reflexivity|]. now rewrite IH.
Qed.

Lemma plan_search_arguments message : forall fallbacks arguments found,
  In (ToolsCall "search_symbols" found) (plan message arguments fallbacks) ->
  found = [("query", JStr (trim message))].
Proof.
  induction fallbacks as [|f fs IH]; intros arguments found; cbn; [tauto|].
  intros [H|H]; [|eapply IH; eassumption].
  injection H as -> <-. reflexivity.
Qed.

Lemma attempts_prefix w : forall requests l,
  exists rest, requests = (attempts w l requests ++ rest)%list.
Proof.
  induction requests as [|req others IH]; intros l; cbn.
  - now exists [].
  - destruct (succeeds w l req).
    + now exists others.
    + destruct (IH (l ++ [call_of req])%list) as [rest E].
      exists rest. cbn. now rewrite <- E.
Qed.

Lemma attempts_stop_at_first_success w : forall before l req after,
  all_fail w l before = true ->
  succeeds w (l ++ map call_of before)%list req = true ->
  attempts w l (before ++ req :: after) = (before ++ [req])%list.
Proof.
  induction before as [|b before IH]; intros l req after; cbn.
  - rewrite app_nil_r. now intros _ ->.
  - destruct (succeeds w l b); cbn; [discriminate|].
    intros Hall Hreq. f_equal. apply IH; [assumption|].
    now rewrite <- app_assoc.
Qed.

Lemma attempts_exhaust w : forall requests l,
  all_fail w l requests = true -> attempts w l requests = requests.
Proof.
  induction requests as [|req others IH]; intros l; cbn; [reflexivity|].
  destruct (succeeds w l req); cbn; [discriminate|].
  intros H. f_equal. now apply IH.
Qed.


(** A chain never holds the tool it is the chain of. *)
Lemma fallbacks_exclude_primary (tool : string) : ~ In tool (fallbacks_for tool).
Proof.
  unfold fallbacks_for.
  destruct (String.eqb_spec tool "get_screener") as [->|];
    [cbn; intuition discriminate|].
  destruct (String.eqb_spec tool "get_trending_stocks") as [->|];
    [cbn; intuition discriminate|].
  destruct (String.eqb_spec tool "get_quote") as [->|];
    [cbn; intuition discriminate|].
  destruct (String.eqb_spec tool "search_symbols") as [->|];
    [cbn; intuition discriminate|].
  cbn. tauto.
Qed.

(** C3 as stated fails twice. With a registry that holds the screener and
    the search tool but no trending tool, the failed screener is followed by
    a call of the trending tool all the same; and the search alternate is
    called with the trimmed message, not the raw one. *)
Lemma alternates_ignore_registry :
  ~ alternates_restricted_to_registry /\ ~ search_alternate_gets_raw_text.
Proof.
  split.
  - intros H.
    assert (Hreg : exists f, In f (fallbacks_for "get_screener")
             /\ map_get f (availableTools
                  (Examples.registry_of [Examples.get_screener; Examples.search_symbols]))
                <> None)
      by (exists "search_symbols"; split; [right; left; reflexivity|discriminate]).
    specialize (H Examples.screener_down _ "top 5 dividend stocks" "get_screener"
                  [] [] eq_refl Hreg (ToolsCall "get_trending_stocks" [])).
    apply H.
    + (left; reflexivity).
    + reflexivity.
  - intros H.
    specialize (H Examples.offline "top 5 dividend stocks " "get_screener" [] []
                  [("query", JStr "top 5 dividend stocks")] eq_refl).
    assert (E : [("query", JStr "top 5 dividend stocks")]
                = [("query", JStr "top 5 dividend stocks ")])
      by (apply H; right; left; reflexivity).
    discriminate E.
Qed.

(** C3, amended. When the primary invocation fails, the alternates of the
    tool are called in the order of the table (screener: trending, search;
    trending: search; quote: search; search: trending); a search alternate
    is called with the trimmed message as its query and any other alternate
    with the arguments of the request before it; the calls stop at the first
    alternate that succeeds and cover the whole chain when none does. *)
Theorem alternates_tried_in_declared_order :
  forall w message tool toolArgs l,
    succeeds w l (ToolsCall tool toolArgs) = false ->
    let l1 := l ++ [call_of (ToolsCall tool toolArgs)] in
    let requests := plan message toolArgs (fallbacks_for tool) in
    let tried := alternates_called w message tool toolArgs l in
    (exists e,
        execute w message tool toolArgs (fallbacks_for tool) l
        = (Ret e, l1 ++ map call_of tried))
    /\ map request_name requests = fallbacks_for tool
    /\ (exists rest, requests = tried ++ rest)
    /\ (forall before req after,
          requests = before ++ req :: after ->
          all_fail w l1 before = true ->
          succeeds w (l1 ++ map call_of before) req = true ->
          tried = before ++ [req])
    /\ (all_fail w l1 requests = true -> tried = requests)
    /\ (forall found,
          In (ToolsCall "search_symbols" found) requests ->
          found = [("query", JStr (trim message))])
    /\ fallbacks_for "get_screener" = ["get_trending_stocks"; "search_symbols"]
    /\ fallbacks_for "get_trending_stocks" = ["search_symbols"]
    /\ fallbacks_for "get_quote" = ["search_symbols"]
    /\ fallbacks_for "search_symbols" = ["get_trending_stocks"].
Proof.
  intros w message tool toolArgs l Hfail l1 requests tried.
  split.
  { destruct (execute_walk w message tool toolArgs (fallbacks_for tool) l Hfail)
      as (e & E & _). exists e. exact E. }
  split; [apply plan_names|].
  split; [apply attempts_prefix|].
  split.
  { intros before req after E Hall Hreq. unfold tried, alternates_called.
    fold l1 requests. rewrite E. now apply attempts_stop_at_first_success. }
  split; [apply attempts_exhaust|].
  split; [apply plan_search_arguments|].
  repeat split.
Qed.

Lemma alternates_tried_in_declared_order_witness :
  exists e,
    execute Examples.screener_down "top 5 dividend stocks" "get_screener" []
      (fallbacks_for "get_screener") []
    = (Ret e, [call_of (ToolsCall "get_screener" []);
               call_of (ToolsCall "get_trending_stocks" [])]).
Proof.
  exact (proj1 (alternates_tried_in_declared_order Examples.screener_down
                  "top 5 dividend stocks" "get_screener" [] [] eq_refl)).
Defined.

(** *** The response after a fallback *)

Lemma analyze_with_registry JSON_parse ToNumber_ext w reg message l :
  availableTools reg <> [] ->
  analyze JSON_parse ToNumber_ext w reg message l
  = match handle JSON_parse ToNumber_ext w reg message l with
    | (Ret resp, l') => (Ret (reg, resp), l')
    | (Throw msg, l') => (Ret (reg, failure msg), l')
    end.
Proof.
  intros H. unfold analyze, bind, try_catch, ret.
  destruct (availableTools reg) as [|entry entries]; [congruence|]. cbn.
  destruct (handle JSON_parse ToNumber_ext w reg message l) as [[resp|msg] l'];
    reflexivity.
Qed.

(** *** The resolver and the required parameters *)

Import Extra.


Lemma company_ticker k ticker :
  map_get k Bridge.companyMap = Some ticker ->
  read_property Bridge.companyMap k = Some (Json (JStr ticker))
  /\ held_truthy (read_property Bridge.companyMap k) = true.
Proof.
  intros H. unfold read_property. rewrite H. split; [reflexivity|].
  assert (Hin : In ticker (map snd Bridge.companyMap)).
  { clear - H. induction Bridge.companyMap as [|[k0 s] m IH]; cbn in *; [discriminate|].
    destruct (String.eqb k0 k); [injection H as ->; now left|auto]. }
  cbn in Hin. repeat destruct Hin as [<-|Hin]; try reflexivity. destruct Hin.
Qed.

(** What [extractSymbol] of the bridge does, case by case. *)
Lemma resolver_cases JSON_parse w message l :
  Bridge.extractSymbol JSON_parse w message l
  = match exec symbol_token message with
    | Some symbolMatch => (Ret (Some (Json (JStr (group1 symbolMatch)))), l)
    | None =>
        match extractCompanyNames message with
        | [] => (Ret None, l)
        | first :: _ =>
            if held_truthy (read_property Bridge.companyMap (toLowerCase first)) then
              (Ret (read_property Bridge.companyMap (toLowerCase first)), l)
            else
              let req := ToolsCall "search_symbols" [("query", JStr first)] in
              (Ret match mcp w l req with
                   | Ret response =>
                       match symbol_of_search JSON_parse response with
                       | Ret symbol => option_map Json symbol
                       | Throw _ => None
                       end
                   | Throw _ => None
                   end, l ++ [call_of req])
        end
    end.
Proof.
  unfold Bridge.extractSymbol.
  destruct (exec symbol_token message); [reflexivity|].
  destruct (extractCompanyNames message) as [|first others]; [reflexivity|].
  destruct (held_truthy (read_property Bridge.companyMap (toLowerCase first)));
    [reflexivity|].
  unfold try_catch, bind. rewrite sendToMCP_runs.
  destruct (mcp w l (ToolsCall "search_symbols" [("query", JStr first)]))
    as [response|msg]; [|reflexivity].
  unfold lift. destruct (symbol_of_search JSON_parse response); reflexivity.
Qed.

(** The resolver logs nothing or one search; a function it returns is the
    inherited one, found without a call. *)
Lemma resolver_log JSON_parse w message l :
  exists symbol l',
    Bridge.extractSymbol JSON_parse w message l = (Ret symbol, l')
    /\ (l' = l
        \/ exists first,
             l' = l ++ [call_of (ToolsCall "search_symbols" [("query", JStr first)])])
    /\ (symbol = Some Function -> inherited_name message /\ l' = l).
Proof.
  rewrite resolver_cases. unfold inherited_name.
  destruct (exec symbol_token message);
    [do 2 eexists; split; [reflexivity|]; split; [now left|discriminate]|].
  destruct (extractCompanyNames message) as [|first others];
    [do 2 eexists; split; [reflexivity|]; split; [now left|discriminate]|].
  destruct (held_truthy (read_property Bridge.companyMap (toLowerCase first))).
  - do 2 eexists. split; [reflexivity|]. split; [now left|]. eauto 6.
  - cbv zeta. do 2 eexists. split; [reflexivity|]. split; [right; eauto|].
    intros H. exfalso.
    destruct (mcp w l (ToolsCall "search_symbols" [("query", JStr first)]))
      as [response|msg]; [|discriminate].
    destruct (symbol_of_search JSON_parse response) as [[v|]|msg]; discriminate.
Qed.

Lemma resolver_inherited JSON_parse w message l :
  inherited_name message ->
  Bridge.extractSymbol JSON_parse w message l = (Ret (Some Function), l).
Proof.
  intros (Htoken & first & others & Hnames & Hread).
  rewrite resolver_cases, Htoken, Hnames, Hread. reflexivity.
Qed.

(** Arguments held and arguments sent. *)
Lemma map_get_hold k (kv : Fields) : map_get k (hold kv) = option_map Json (get k kv).
Proof.
  induction kv as [|[k0 v0] kv IH]; cbn; [reflexivity|].
  destruct (String.eqb k0 k); [reflexivity|exact IH].
Qed.

Lemma held_truthy_hold k (kv : Fields) :
  held_truthy (map_get k (hold kv)) = truthy (get k kv).
Proof. rewrite map_get_hold. now destruct (get k kv). Qed.

Lemma get_stringify k v held :
  map_get k held = Some (Json v) -> get k (stringify held) = Some v.
Proof.
  induction held as [|[k0 h] held IH]; cbn; [discriminate|].
  destruct (String.eqb_spec k0 k) as [->|Hne].
  - intros [= ->]. cbn. now rewrite String.eqb_refl.
  - intros H. destruct h as [v0|]; cbn; [|now apply IH].
    destruct (String.eqb_spec k0 k); [contradiction|now apply IH].
Qed.

Lemma get_stringify_absent k held :
  ~ In k (map fst held) -> get k (stringify held) = None.
Proof.
  induction held as [|[k0 h] held IH]; cbn; [reflexivity|].
  intros H. destruct h as [v0|]; cbn.
  - destruct (String.eqb_spec k0 k); [tauto|]. apply IH. tauto.
  - apply IH. tauto.
Qed.

Lemma get_stringify_function k held :
  NoDup (map fst held) -> map_get k held = Some Function ->
  get k (stringify held) = None.
Proof.
  induction held as [|[k0 h] held IH]; cbn; [discriminate|].
  intros Hnd. inversion Hnd as [|? ? Hnot Hrest]; subst.
  destruct (String.eqb_spec k0 k) as [->|Hne].
  - intros [= ->]. now apply get_stringify_absent.
  - intros H. destruct h as [v0|]; cbn; [|now apply IH].
    destruct (String.eqb_spec k0 k); [contradiction|now apply IH].
Qed.

Lemma hold_keys (kv : Fields) : map fst (hold kv) = map fst kv.
Proof. unfold hold. rewrite map_map. now apply map_ext. Qed.

(** The loop over the required parameters, with everything it keeps. *)
Lemma fill_loop_keeps JSON_parse w tool message :
  forall requiredParams toolArgs l,
  exists r l',
    fill_loop JSON_parse w tool message requiredParams toolArgs l = (Ret r, l')
    /\ (held_truthy (map_get "symbol" toolArgs) = true -> l' = l)
    /\ (l' = l
        \/ exists first,
             l' = l ++ [call_of (ToolsCall "search_symbols" [("query", JStr first)])])
    /\ (forall early, r = inl early -> early = no_symbol_found message)
    /\ (forall filled,
          r = inr filled ->
          (forall k, held_truthy (map_get k toolArgs) = true ->
                     map_get k filled = map_get k toolArgs)
          /\ (In "symbol" requiredParams ->
              held_truthy (map_get "symbol" filled) = true)
          /\ (map_get "symbol" filled = Some Function ->
              map_get "symbol" toolArgs = Some Function
              \/ inherited_name message /\ l' = l)).
Proof.
  induction requiredParams as [|param others IH]; intros toolArgs l.
  { exists (inr toolArgs), l. cbn [fill_loop].
    split; [reflexivity|]. split; [auto|]. split; [now left|].
    split; [discriminate|]. intros filled [= <-].
    split; [auto|]. split; [intros []|now left]. }
  cbn [fill_loop].
  (* a step that stores a value under a key that was falsy, or stores nothing *)
  assert (Hstep : forall toolArgs1 l1,
             (l1 = l
              \/ (held_truthy (map_get "symbol" toolArgs) = false
                  /\ (exists first,
                        l1 = l ++ [call_of (ToolsCall "search_symbols"
                                              [("query", JStr first)])])
                  /\ held_truthy (map_get "symbol" toolArgs1) = true
                  /\ map_get "symbol" toolArgs1 <> Some Function)) ->
             (forall k, held_truthy (map_get k toolArgs) = true ->
                        map_get k toolArgs1 = map_get k toolArgs) ->
             (param = "symbol" -> held_truthy (map_get "symbol" toolArgs1) = true) ->
             (map_get "symbol" toolArgs1 = Some Function ->
              map_get "symbol" toolArgs = Some Function
              \/ inherited_name message /\ l1 = l) ->
             exists r l',
               fill_loop JSON_parse w tool message others toolArgs1 l1 = (Ret r, l')
               /\ (held_truthy (map_get "symbol" toolArgs) = true -> l' = l)
               /\ (l' = l
                   \/ exists first,
                        l' = l ++ [call_of (ToolsCall "search_symbols"
                                              [("query", JStr first)])])
               /\ (forall early, r = inl early -> early = no_symbol_found message)
               /\ (forall filled,
                     r = inr filled ->
                     (forall k, held_truthy (map_get k toolArgs) = true ->
                                map_get k filled = map_get k toolArgs)
                     /\ (In "symbol" (param :: others) ->
                         held_truthy (map_get "symbol" filled) = true)
                     /\ (map_get "symbol" filled = Some Function ->
                         map_get "symbol" toolArgs = Some Function
                         \/ inherited_name message /\ l' = l))).
  { intros toolArgs1 l1 Hl Hkeep Hsym Hfun.
    destruct (IH toolArgs1 l1) as (r & l' & E & Hnocall & Hone & Hearly & Hfilled).
    exists r, l'. split; [exact E|]. split; [|split; [|split; [exact Hearly|]]].
    - intros Ht. destruct Hl as [->|(Hf & _)]; [|congruence].
      apply Hnocall. rewrite Hkeep; assumption.
    - destruct Hl as [->|(_ & [first ->] & Ht1 & _)]; [exact Hone|].
      right. exists first. now rewrite (Hnocall Ht1).
    - intros filled Hr. destruct (Hfilled filled Hr) as (Hk & Hs & Hf).
      split; [|split].
      + intros k Hk0. rewrite Hk; [now apply Hkeep|]. rewrite Hkeep; assumption.
      + intros [Heq|Hin]; [|now apply Hs].
        specialize (Hsym Heq). rewrite Hk; assumption.
      + intros Hfn. destruct (Hf Hfn) as [H1|[Hinh Hl']].
        * destruct (Hfun H1) as [H0|[Hinh ->]]; [now left|].
          right. split; [exact Hinh|]. apply Hnocall. now rewrite H1.
        * destruct Hl as [->|(_ & _ & Ht1 & Hnf)]; [now right|].
          exfalso. apply Hnf. rewrite <- (Hk "symbol" Ht1). exact Hfn. }
  destruct (held_truthy (map_get param toolArgs)) eqn:Hp.
  { apply Hstep; auto. now intros ->. }
  assert (Hother : forall key v,
             param = key ->
             forall k, held_truthy (map_get k toolArgs) = true ->
                       map_get k (map_set key v toolArgs) = map_get k toolArgs).
  { intros key v <- k Hk. apply map_get_set_other. intros <-. congruence. }
  destruct (String.eqb_spec param "symbol") as [->|Hns].
  - unfold bind.
    destruct (resolver_log JSON_parse w message l) as (symbol & l1 & -> & Hl1 & Hinh).
    destruct symbol as [v|].
    + destruct (held_truthy (Some v)) eqn:Hv.
      * apply Hstep.
        -- destruct v as [v|].
           ++ destruct Hl1 as [->|Hl1]; [now left|].
              right. split; [exact Hp|]. split; [exact Hl1|].
              rewrite map_get_set_same. split; [exact Hv|discriminate].
           ++ left. now destruct (Hinh eq_refl).
        -- now apply Hother.
        -- intros _. now rewrite map_get_set_same.
        -- rewrite map_get_set_same. intros [= ->]. right. now apply Hinh.
      * do 2 eexists. split; [reflexivity|].
        split; [congruence|]. split; [exact Hl1|].
        split; [now intros ? [= <-]|discriminate].
    + do 2 eexists. split; [reflexivity|].
      split; [congruence|]. split; [exact Hl1|].
      split; [now intros ? [= <-]|discriminate].
  - assert (Hpass : forall key v,
               param = key -> key <> "symbol" ->
               map_get "symbol" (map_set key v toolArgs) = Some Function ->
               map_get "symbol" toolArgs = Some Function
               \/ inherited_name message /\ l = l).
    { intros key v <- Hk. rewrite map_get_set_other by assumption. now left. }
    destruct (String.eqb_spec param "count") as [->|Hnc].
    { apply Hstep; auto; try discriminate. now apply Hpass. }
    destruct (String.eqb_spec param "query") as [->|Hnq].
    { apply Hstep; auto; try discriminate. now apply Hpass. }
    apply Hstep; auto; try contradiction; now left.
Qed.

(** The same for the arguments of the classification and the arguments
    sent. *)
Lemma fill_required_keeps JSON_parse w tool message :
  forall requiredParams toolArgs l,
  exists r l',
    fill_required JSON_parse w tool message requiredParams toolArgs l = (Ret r, l')
    /\ (truthy (get "symbol" toolArgs) = true -> l' = l)
    /\ (l' = l
        \/ exists first,
             l' = l ++ [call_of (ToolsCall "search_symbols" [("query", JStr first)])])
    /\ (forall early, r = inl early -> early = no_symbol_found message)
    /\ (forall filled,
          r = inr filled ->
          (forall k, truthy (get k toolArgs) = true -> get k filled = get k toolArgs)
          /\ (In "symbol" requiredParams ->
              truthy (get "symbol" filled) = true
              \/ inherited_name message /\ l' = l)).
Proof.
  intros requiredParams toolArgs l. unfold fill_required, bind.
  destruct (fill_loop_keeps JSON_parse w tool message requiredParams (hold toolArgs) l)
    as (r & l' & -> & Hnocall & Hone & Hearly & Hfilled).
  rewrite held_truthy_hold in Hnocall.
  destruct r as [early|held].
  - exists (inl early), l'. split; [reflexivity|]. split; [exact Hnocall|].
    split; [exact Hone|]. split; [|discriminate].
    intros ? [= <-]. now apply Hearly.
  - exists (inr (stringify held)), l'. split; [reflexivity|].
    split; [exact Hnocall|]. split; [exact Hone|]. split; [discriminate|].
    intros filled [= <-]. destruct (Hfilled held eq_refl) as (Hk & Hs & Hf).
    split.
    + intros k Ht. rewrite <- held_truthy_hold in Ht. specialize (Hk k Ht).
      rewrite map_get_hold in Hk.
      destruct (get k toolArgs) as [v|] eqn:G; [|rewrite map_get_hold, G in Ht;
                                                  discriminate].
      now apply get_stringify.
    + intros Hin. specialize (Hs Hin).
      destruct (map_get "symbol" held) as [[v|]|] eqn:G; [| |discriminate].
      * left. rewrite (get_stringify _ _ _ G). exact Hs.
      * right. destruct (Hf eq_refl) as [H0|H0]; [|exact H0].
        rewrite map_get_hold in H0. destruct (get "symbol" toolArgs); discriminate.
Qed.

(** The handler, step by step. *)
Lemma handle_cases JSON_parse ToNumber_ext w reg message l :
  handle JSON_parse ToNumber_ext w reg message l
  = match processQuery JSON_parse ToNumber_ext w (llm_availableTools reg) message l with
    | (Ret cls, l1) =>
        if prints (reasoning cls) then
          match map_get (tool cls) (availableTools reg) with
          | None => (Ret (tool_not_found reg (tool cls)), l1)
          | Some toolInfo =>
              match fill_required JSON_parse w (tool cls) message
                      (match t_required toolInfo with Some ps => ps | None => [] end)
                      (spread (parameters cls)) l1 with
              | (Ret (inl early), l2) => (Ret early, l2)
              | (Ret (inr toolArgs), l2) =>
                  match execute w message (tool cls) toolArgs
                          (fallbacks_for (tool cls)) l2 with
                  | (Ret e, l3) => respond JSON_parse reg message (tool cls) e l3
                  | (Throw msg, l3) => (Throw msg, l3)
                  end
              | (Throw msg, l2) => (Throw msg, l2)
              end
          end
        else (Throw "Cannot convert object to primitive value", l1)
    | (Throw msg, l1) => (Throw msg, l1)
    end.
Proof.
  unfold handle, bind, log_reasoning.
  destruct (processQuery JSON_parse ToNumber_ext w (llm_availableTools reg) message l)
    as [[cls|msg] l1]; [|reflexivity].
  destruct (prints (reasoning cls)); [|reflexivity]. cbn.
  destruct (map_get (tool cls) (availableTools reg)) as [toolInfo|]; [|reflexivity].
  destruct (fill_required JSON_parse w (tool cls) message
              match t_required toolInfo with Some ps => ps | None => [] end
              (spread (parameters cls)) l1) as [[[early|toolArgs]|msg] l2]; reflexivity.
Qed.




(** *** Failures of every invocation *)

(** C4, at the query [AAPL price] with a server that answers every call with
    a tool-level error: the quote tool and its alternate, the search tool,
    both fail by the marker, and the response is a success (status 200) of
    widget type [search] that carries the error text as data. *)
Theorem soft_failures_are_reported_as_success :
  let w := Examples.soft_errors in
  let reg := Examples.registry_of [Examples.get_quote; Examples.search_symbols] in
  let primary := ToolsCall "get_quote" [("symbol", JStr "AAPL")] in
  let alternate := ToolsCall "search_symbols" [("query", JStr "AAPL price")] in
  succeeds w [OllamaTags 3000] primary = false
  /\ succeeds w [OllamaTags 3000; call_of primary] alternate = false
  /\ analyze Examples.parse_nothing Examples.not_a_number w reg "AAPL price" []
     = (Ret (reg,
             {| status := 200; error := None;
                content := "Analysis completed for: AAPL price";
                data := JObj [("message",
                               JStr "Error: Failed to fetch data from Yahoo Finance")];
                widgetType := "search";
                query := Some "AAPL price";
                toolUsed := Some "get_quote" |}),
        [OllamaTags 3000; call_of primary; call_of alternate]).
Proof.
  cbv zeta. repeat split; vm_compute; reflexivity.
Qed.

Lemma handle_never_answers JSON_parse ToNumber_ext w reg message l :
  (forall req l0, exists msg, mcp w l0 req = Throw msg) ->
  match fst (handle JSON_parse ToNumber_ext w reg message l) with
  | Ret resp => widgetType resp = "error"
  | Throw _ => True
  end.
Proof.
  intros Hdown. rewrite handle_cases.
  destruct (processQuery JSON_parse ToNumber_ext w (llm_availableTools reg) message l)
    as [[cls|msg] l1]; [|exact I].
  destruct (prints (reasoning cls)); [|exact I].
  destruct (map_get (tool cls) (availableTools reg)) as [toolInfo|]; [|reflexivity].
  destruct (fill_required_keeps JSON_parse w (tool cls) message
              match t_required toolInfo with Some ps => ps | None => [] end
              (spread (parameters cls)) l1) as (r & l2 & -> & _ & _ & Hearly & _).
  destruct r as [early|toolArgs]; [now rewrite (Hearly early eq_refl)|].
  unfold execute, bind, attempt. rewrite sendToMCP_runs.
  destruct (Hdown (ToolsCall (tool cls) toolArgs) l2) as [msg ->].
  match goal with
  | |- context [try_fallbacks w message ?fs ?e1 ?l0] =>
      destruct (try_fallbacks_walk w message fs e1 l0) as (e & -> & W)
  end.
  cbn [req_arguments response lastError] in W.
  match type of W with
  | match ?x with _ => _ end => destruct x as [req|] eqn:Hwin
  end.
  - destruct W as (_ & r & l3 & Hr & _). unfold respond. rewrite Hr. cbn.
    exfalso. clear - Hwin Hdown.
    match type of Hwin with
    | winner w ?l0 ?requests = _ => revert Hwin; generalize l0; induction requests as [|r0 rs IH]; intros l1; cbn
    end; [discriminate|].
    unfold succeeds at 1. destruct (Hdown r0 l1) as [msg ->]. apply IH.
  - destruct W as [W _]. unfold respond. rewrite W by auto. exact I.
Qed.

(** The part of C4 that holds: when no invocation gets an answer from the
    server (transport errors only), the response has widget type [error]. *)
Lemma transport_failures_give_error JSON_parse ToNumber_ext w reg message l :
  availableTools reg <> [] ->
  (forall req l0, exists msg, mcp w l0 req = Throw msg) ->
  exists resp l',
    analyze JSON_parse ToNumber_ext w reg message l = (Ret (reg, resp), l')
    /\ widgetType resp = "error".
Proof.
  intros Hreg Hdown. rewrite analyze_with_registry by assumption.
  pose proof (handle_never_answers JSON_parse ToNumber_ext w reg message l Hdown) as H.
  destruct (handle JSON_parse ToNumber_ext w reg message l) as [[resp|msg] l'];
    cbn in H; eauto.
Qed.

(** *** Unresolved symbols *)

Lemma get_set_other k k' v (kv : Fields) :
  k' <> k -> get k (set k' v kv) = get k kv.
Proof.
  intros Hne. induction kv as [|[k0 v0] kv IH]; cbn.
  - destruct (String.eqb_spec k' k); [contradiction|reflexivity].
  - destruct (String.eqb_spec k0 k') as [->|Hk0]; cbn.
    + destruct (String.eqb_spec k' k); [contradiction|reflexivity].
    + destruct (String.eqb_spec k0 k); [reflexivity|exact IH].
Qed.






(** * Further properties of the code *)

(** ** Symbols found by the token patterns *)

Ltac token_cases :=
  repeat match goal with
         | |- context [match ?s with EmptyString => _ | String _ _ => _ end] =>
             is_var s; destruct s; cbn -[Nat.sub substring]
         | |- context [if is_upper ?x then _ else _] =>
             destruct (is_upper x) eqn:?; cbn -[Nat.sub substring]
         | |- context [if xorb ?a ?b then _ else _] =>
             destruct (xorb a b) eqn:?; cbn -[Nat.sub substring]
         end.

Lemma substring_0_0 (s : string) : substring 0 0 s = "".
Proof. now destruct s. Qed.

Ltac token_shape n :=
  try discriminate;
  try replace (S n - n) with 1 by lia;
  try replace (S (S n) - n) with 2 by lia;
  try replace (S (S (S n)) - n) with 3 by lia;
  try replace (S (S (S (S n))) - n) with 4 by lia;
  try replace (S (S (S (S (S n)))) - n) with 5 by lia;
  intros [= <-]; unfold ticker_shaped; cbn;
  rewrite ?substring_0_0; cbn;
  repeat match goal with H : is_upper _ = true |- _ => rewrite H; clear H end;
  (split; [lia|reflexivity]).

Lemma match_at_symbol_1_5 c h :
  match_at symbol_1_5 c = Some h -> ticker_shaped (h_text h).
Proof.
  unfold match_at, symbol_1_5. destruct c as [p r n].
  cbn -[Nat.sub substring].
  destruct (xorb _ _); [|discriminate].
  unfold advance. cbn -[Nat.sub substring].
  token_cases; token_shape n.
Qed.

Lemma match_at_symbol_3_5 c h :
  match_at symbol_3_5 c = Some h -> ticker_shaped (h_text h).
Proof.
  unfold match_at, symbol_3_5. destruct c as [p r n].
  cbn -[Nat.sub substring].
  destruct (xorb _ _); [|discriminate].
  unfold advance. cbn -[Nat.sub substring].
  token_cases; token_shape n.
Qed.

Lemma match_at_symbol_token c h :
  match_at symbol_token c = Some h -> ticker_shaped (group1 h).
Proof.
  unfold match_at, symbol_token. destruct c as [p r n].
  cbn -[Nat.sub substring].
  destruct (xorb _ _); [|discriminate].
  unfold advance. cbn -[Nat.sub substring].
  token_cases; token_shape n.
Qed.

(** A match found by a search is a match at some position. *)
Lemma search_is_match_at r : forall fuel c h,
  search fuel r c = Some h -> exists c', match_at r c' = Some h.
Proof.
  induction fuel as [|fuel IH]; intros c h; cbn.
  - destruct (match_at r c) eqn:E; [|discriminate]. intros [= <-]. eauto.
  - destruct (match_at r c) eqn:E; [intros [= <-]; eauto|].
    destruct (advance c) as [[x c']|]; [apply IH|discriminate].
Qed.

Lemma matchAll_are_matches r s h :
  In h (matchAll r s) -> exists c', match_at r c' = Some h.
Proof.
  unfold matchAll. generalize (S (String.length s)) (start s).
  intros fuel. induction fuel as [|fuel IH]; intros c; cbn [all_from In]; [tauto|].
  destruct (search (String.length (rest c)) r c) as [h0|] eqn:E; [|cbn; tauto].
  assert (H0 : exists c', match_at r c' = Some h0)
    by (eapply search_is_match_at; eassumption).
  destruct (h_start h0 <? h_end h0).
  - cbn [In]. intros [<-|Hin]; [assumption|eapply IH; eassumption].
  - destruct (advance (h_after h0)) as [[x c']|]; cbn [In].
    + intros [<-|Hin]; [assumption|eapply IH; eassumption].
    + intros [<-|[]]. assumption.
Qed.

(** ** The rule-based classifier *)

Lemma first_company_In m lowered symbol :
  first_company m lowered = Some symbol -> In symbol (map snd m).
Proof.
  induction m as [|[company s] m IH]; cbn; [discriminate|].
  destruct (includes lowered company); [intros [= ->]; now left|auto].
Qed.

Lemma extractSymbol_cases query :
  ticker_shaped (LLMQueryProcessor.extractSymbol query)
  \/ In (LLMQueryProcessor.extractSymbol query)
        (map snd LLMQueryProcessor.companyMap).
Proof.
  unfold LLMQueryProcessor.extractSymbol.
  destruct (exec symbol_1_5 query) as [h|] eqn:E.
  - left. apply search_is_match_at in E as [c' E].
    eapply match_at_symbol_1_5; eassumption.
  - right.
    destruct (first_company LLMQueryProcessor.companyMap (toLowerCase query))
      eqn:F; [eapply first_company_In; eassumption|].
    cbn. tauto.
Qed.

Lemma extractSymbol_nonempty query : LLMQueryProcessor.extractSymbol query <> "".
Proof.
  destruct (extractSymbol_cases query) as [[Hlen _]|Hin].
  - intros E. rewrite E in Hlen. cbn in Hlen. lia.
  - intros E. rewrite E in Hin. cbn in Hin. intuition discriminate.
Qed.

(** X1. The symbol the classifier extracts from a query is a token of one
    to five uppercase letters of the query or a ticker of its company table
    ([AAPL] when nothing is found); it is never empty. A token of the query
    wins over a company name: the symbol is then the text of the first
    match of the token pattern. *)
Theorem classifier_symbol_shape :
  forall query,
    (ticker_shaped (LLMQueryProcessor.extractSymbol query)
     \/ In (LLMQueryProcessor.extractSymbol query)
           (map snd LLMQueryProcessor.companyMap))
    /\ LLMQueryProcessor.extractSymbol query <> ""
    /\ (forall symbolMatch,
          exec symbol_1_5 query = Some symbolMatch ->
          LLMQueryProcessor.extractSymbol query = h_text symbolMatch
          /\ ticker_shaped (h_text symbolMatch)).
Proof.
  intros query. split; [apply extractSymbol_cases|].
  split; [apply extractSymbol_nonempty|].
  intros symbolMatch E.
  assert (Hx : LLMQueryProcessor.extractSymbol query = h_text symbolMatch)
    by (unfold LLMQueryProcessor.extractSymbol; now rewrite E).
  split; [exact Hx|].
  apply search_is_match_at in E as [c' E].
  eapply match_at_symbol_1_5; eassumption.
Qed.

Lemma classifier_symbol_shape_witness :
  LLMQueryProcessor.extractSymbol "I like Apple" = "I".
Proof.
  destruct (exec symbol_1_5 "I like Apple") as [h|] eqn:X;
    [|vm_compute in X; discriminate].
  destruct (classifier_symbol_shape "I like Apple") as (_ & _ & H).
  rewrite (proj1 (H h X)).
  vm_compute in X. injection X as <-. reflexivity.
Defined.

Lemma unique_head x xs : exists tail, unique (x :: xs) = x :: tail.
Proof. unfold unique. cbn. eauto. Qed.

Lemma named_head (query : string) (m : list (string * string)) :
  match map snd (filter (fun e => includes query (fst e)) m) with
  | s :: _ => Some s
  | [] => None
  end = first_company m query.
Proof.
  induction m as [|[company s] m IH]; cbn; [reflexivity|].
  destruct (includes query company); [reflexivity|exact IH].
Qed.

(** The first of the unique symbols of the comparison rule. *)
Lemma first_unique_symbol q :
  match unique (map snd (filter (fun e => includes (toLowerCase q) (fst e))
                           comparisonMap)
                ++ map h_text (matchAll symbol_3_5 q)) with
  | s :: _ => s
  | [] => "AAPL"
  end = comparison_symbol q.
Proof.
  unfold comparison_symbol. rewrite <- named_head.
  destruct (map snd (filter (fun e => includes (toLowerCase q) (fst e)) comparisonMap))
    as [|s named]; cbn [app].
  - destruct (map h_text (matchAll symbol_3_5 q)) as [|t found] eqn:E.
    + destruct (matchAll symbol_3_5 q); [reflexivity|discriminate].
    + destruct (unique_head t found) as [tail ->].
      destruct (matchAll symbol_3_5 q); [discriminate|]. now injection E as <- _.
  - now destruct (unique_head s (named ++ map h_text (matchAll symbol_3_5 q)))
      as [tail ->].
Qed.

(** X2. In a comparison query the classifier asks for a quote of one
    symbol: the ticker of the first company of its table that the query
    names, whatever the order in the text and whatever tickers the query
    spells out; without a company name, the first token of three to five
    uppercase letters; without either, [AAPL]. *)
Theorem comparison_symbol_choice :
  forall q,
    comparison_phrasing q = true ->
    tool (fallbackProcessing q) = "get_quote"
    /\ parameters (fallbackProcessing q)
       = JObj [("symbol", JStr (comparison_symbol q))].
Proof.
  intros q H. unfold comparison_phrasing in H. unfold fallbackProcessing.
  rewrite H. split; [reflexivity|]. cbn [parameters result]. do 4 f_equal.
  apply first_unique_symbol.
Qed.

Lemma comparison_symbol_choice_witness :
  parameters (fallbackProcessing "MSFT vs Apple")
  = JObj [("symbol", JStr "AAPL")].
Proof.
  rewrite (proj2 (comparison_symbol_choice "MSFT vs Apple" eq_refl)).
  vm_compute. reflexivity.
Defined.

Lemma comparison_symbol_nonempty q : comparison_symbol q <> "".
Proof.
  unfold comparison_symbol.
  destruct (first_company comparisonMap (toLowerCase q)) eqn:F.
  - apply first_company_In in F. cbn in F. intros ->. intuition discriminate.
  - destruct (matchAll symbol_3_5 q) as [|h hs] eqn:E; [discriminate|].
    assert (Hin : In h (matchAll symbol_3_5 q)) by (rewrite E; now left).
    apply matchAll_are_matches in Hin as [c' Hm].
    apply match_at_symbol_3_5 in Hm as [Hlen _].
    intros E0. rewrite E0 in Hlen. cbn in Hlen. lia.
Qed.

(** X3. Every classification of the rule-based classifier names one of ten
    fixed tools, has a confidence between 0.6 and 0.95, and carries an
    object of parameters in which a symbol, when present, is a non-empty
    string: the classifier never leaves a symbol it sets for the resolver
    of the bridge to find. *)
Theorem fallback_classification_shape :
  forall q,
    In (tool (fallbackProcessing q)) fallback_tools
    /\ (exists c, confidence (fallbackProcessing q) = Fin c
                  /\ (0.6 <= c /\ c <= 0.95)%Q)
    /\ (exists kv, parameters (fallbackProcessing q) = JObj kv
                   /\ forall v, get "symbol" kv = Some v ->
                                exists s, v = JStr s /\ s <> ""
                                          /\ truthy (Some v) = true).
Proof.
  intros q.
  assert (Hsym : forall s, s <> "" -> truthy (Some (JStr s)) = true).
  { intros s Hs. cbn. destruct (String.eqb_spec s ""); [contradiction|reflexivity]. }
  pose proof (extractSymbol_nonempty q) as Hx.
  destruct (comparison_phrasing q) eqn:Hc.
  - pose proof (comparison_rule_first q Hc) as [Ht Hconf].
    assert (Hp : parameters (fallbackProcessing q)
                 = JObj [("symbol", JStr (comparison_symbol q))]).
    { unfold comparison_phrasing in Hc. unfold fallbackProcessing. rewrite Hc.
      cbn [parameters result]. do 4 f_equal. apply first_unique_symbol. }
    rewrite Ht, Hp, Hconf. split; [cbn; tauto|].
    split; [eexists; split; [reflexivity|split; discriminate]|].
    eexists; split; [reflexivity|]. cbn. intros v [= <-].
    pose proof (comparison_symbol_nonempty q). eauto.
  - unfold comparison_phrasing in Hc. unfold fallbackProcessing. rewrite Hc.
    repeat match goal with
           | |- context [if ?b then _ else _] => destruct b
           end;
      (split; [cbn; tauto|]);
      (split; [eexists; split; [reflexivity|split; discriminate]|]);
      (eexists; split; [reflexivity|]); cbn;
      try discriminate; intros v [= <-]; eauto.
Qed.

Lemma fallback_classification_shape_witness :
  In (tool (fallbackProcessing "Apple stock price")) fallback_tools.
Proof. exact (proj1 (fallback_classification_shape "Apple stock price")). Defined.

(** ** Confidence of every classification *)

(** X4. When the confidence in the answer of the model is absent or a
    number, whatever its value, the classification [processQuery] returns,
    from the model or from the rules, has a confidence between 0 and 1. *)
Theorem classification_confidence_in_unit_interval :
  forall JSON_parse ToNumber_ext w tools q l,
    (forall text parsed,
        ollama_generate w (l ++ [OllamaTags 3000]) (prompt q) = Ret text ->
        parse_response JSON_parse text = Ret (Some parsed) ->
        absent_or_number (get "confidence" (fields_of parsed))) ->
    exists r l' c,
      processQuery JSON_parse ToNumber_ext w tools q l = (Ret r, l')
      /\ confidence r = Fin c /\ (0 <= c /\ c <= 1)%Q.
Proof.
  intros JSON_parse ToNumber_ext w tools q l Hnum.
  rewrite processQuery_cases. cbv zeta.
  destruct (fallback_confidence_range q) as (c0 & Hc0 & Hr0).
  destruct (fst (checkOllamaStatus w l)) as [[|]|msg0]; [|eauto 6|eauto 6].
  destruct (ollama_generate w (l ++ [OllamaTags 3000]) (prompt q))
    as [text|msg1] eqn:G; [|eauto 6].
  unfold interpret.
  destruct (parse_response JSON_parse text) as [[parsed|]|msg2] eqn:P;
    [|eauto 6|eauto 6].
  specialize (Hnum text parsed eq_refl P).
  unfold validate.
  destruct (prop parsed "tool") as [named|msg3]; [|eauto 6].
  destruct (has_tool tools named) as [t|]; [|eauto 6].
  assert (Hp : prints (get "confidence" (fields_of parsed)) = true)
    by (destruct Hnum as [->|[n ->]]; reflexivity).
  rewrite Hp.
  destruct (clamp_confidence_range ToNumber_ext _ Hnum) as (c & Hc & Hr).
  do 3 eexists. split; [reflexivity|]. cbn [confidence]. eauto.
Qed.

Lemma classification_confidence_in_unit_interval_witness :
  exists r l' c,
    processQuery (Examples.parse_table [(Examples.zero_text, Examples.zero_value)])
      Examples.not_a_number (Examples.answering Examples.zero_text)
      ["get_quote"] "Apple stock" [] = (Ret r, l')
    /\ confidence r = Fin c /\ (0 <= c /\ c <= 1)%Q.
Proof.
  apply classification_confidence_in_unit_interval.
  intros text parsed [= <-]. vm_compute. intros [= <-].
  right. eexists. reflexivity.
Defined.

(** ** Query suggestions *)

Lemma strings_of_nonempty items : Forall (fun s => s <> "") (Suggestions.strings_of items).
Proof.
  induction items as [|v items IH]; cbn; [constructor|].
  destruct v; auto.
  destruct (String.eqb_spec s ""); auto.
Qed.

Lemma default_suggestions_nonempty :
  Forall (fun s => s <> "") Suggestions.getDefaultSuggestions.
Proof. repeat constructor; discriminate. Qed.

Lemma read_suggestions_nonempty JSON_parse text result :
  Suggestions.read_suggestions JSON_parse text = Ret result ->
  Forall (fun s => s <> "") result.
Proof.
  unfold Suggestions.read_suggestions. destruct text as [text|]; [|discriminate].
  destruct (JSON_parse _) as [[]|]; try discriminate.
  intros [= <-]. apply strings_of_nonempty.
Qed.

(** What [generateWidgetSuggestions] does, case by case. *)
Lemma generateWidgetSuggestions_cases JSON_parse w q l :
  Suggestions.generateWidgetSuggestions JSON_parse w q l
  = let l1 := l ++ [OllamaTags 3000] in
    let l2 := l1 ++ [OllamaGenerate (Suggestions.prompt q) 8000] in
    match fst (checkOllamaStatus w l) with
    | Ret true =>
        match ollama_generate w l1 (Suggestions.prompt q) with
        | Ret text =>
            match Suggestions.read_suggestions JSON_parse text with
            | Ret result => (Ret result, l2)
            | Throw _ => (Ret Suggestions.getDefaultSuggestions, l2)
            end
        | Throw _ => (Ret Suggestions.getDefaultSuggestions, l2)
        end
    | _ => (Ret Suggestions.getDefaultSuggestions, l1)
    end.
Proof.
  destruct (checkOllamaStatus_runs w l) as [ready E].
  unfold Suggestions.generateWidgetSuggestions, try_catch, bind.
  rewrite E. cbn [fst negb].
  destruct ready; cbn [fst negb]; [|reflexivity].
  unfold call, lift, ret.
  destruct (ollama_generate w (l ++ [OllamaTags 3000]) (Suggestions.prompt q))
    as [text|msg]; [|reflexivity].
  destruct (Suggestions.read_suggestions JSON_parse text); reflexivity.
Qed.

Lemma generateWidgetSuggestions_returns JSON_parse w q l :
  exists result l',
    Suggestions.generateWidgetSuggestions JSON_parse w q l = (Ret result, l')
    /\ Forall (fun s => s <> "") result.
Proof.
  rewrite generateWidgetSuggestions_cases. cbv zeta.
  pose proof default_suggestions_nonempty as Hd.
  destruct (fst (checkOllamaStatus w l)) as [[|]|msg0]; eauto.
  destruct (ollama_generate w (l ++ [OllamaTags 3000]) (Suggestions.prompt q))
    as [text|msg1]; eauto.
  destruct (Suggestions.read_suggestions JSON_parse text) as [found|msg2] eqn:R;
    eauto.
  do 2 eexists. split; [reflexivity|]. eapply read_suggestions_nonempty; eassumption.
Qed.

(** X5. [generateWidgetSuggestions] never throws and never returns an empty
    string among its suggestions. It checks the endpoint once and asks the
    model at most once, under a timeout of 8 s; when the endpoint is
    unavailable, the call is rejected, or the answer does not parse as a
    JSON array, it returns the ten default suggestions. An array the model
    answers is returned with everything but its non-empty strings dropped,
    even when nothing is left. *)
Theorem suggestions_are_nonempty_strings :
  forall JSON_parse w q l,
  exists result l',
    Suggestions.generateWidgetSuggestions JSON_parse w q l = (Ret result, l')
    /\ Forall (fun s => s <> "") result
    /\ (l' = l ++ [OllamaTags 3000]
        \/ l' = l ++ [OllamaTags 3000; OllamaGenerate (Suggestions.prompt q) 8000])
    /\ (unavailable w l ->
        result = Suggestions.getDefaultSuggestions /\ l' = l ++ [OllamaTags 3000])
    /\ (forall msg,
          ollama_generate w (l ++ [OllamaTags 3000]) (Suggestions.prompt q)
          = Throw msg ->
          result = Suggestions.getDefaultSuggestions)
    /\ (forall text msg,
          ollama_generate w (l ++ [OllamaTags 3000]) (Suggestions.prompt q)
          = Ret text ->
          Suggestions.read_suggestions JSON_parse text = Throw msg ->
          result = Suggestions.getDefaultSuggestions)
    /\ (forall text found,
          fst (checkOllamaStatus w l) = Ret true ->
          ollama_generate w (l ++ [OllamaTags 3000]) (Suggestions.prompt q)
          = Ret text ->
          Suggestions.read_suggestions JSON_parse text = Ret found ->
          result = found).
Proof.
  intros. rewrite generateWidgetSuggestions_cases. unfold unavailable. cbv zeta.
  rewrite <- app_assoc. cbn [app].
  pose proof default_suggestions_nonempty as Hd.
  destruct (fst (checkOllamaStatus w l)) as [[|]|msg0].
  2,3: (do 2 eexists; split; [reflexivity|]; repeat split; auto; discriminate).
  destruct (ollama_generate w (l ++ [OllamaTags 3000]) (Suggestions.prompt q))
    as [text|msg1].
  2: (do 2 eexists; split; [reflexivity|]; repeat split; auto; discriminate).
  destruct (Suggestions.read_suggestions JSON_parse text) as [found|msg2] eqn:R.
  - do 2 eexists; split; [reflexivity|].
    split; [eapply read_suggestions_nonempty; eassumption|].
    split; [auto|]. split; [discriminate|]. split; [discriminate|].
    split; [intros ? ? [= <-]; congruence|intros ? ? _ [= <-]; congruence].
  - do 2 eexists; split; [reflexivity|]. repeat split; auto; try discriminate.
    intros ? ? _ [= <-]. congruence.
Qed.

Lemma suggestions_are_nonempty_strings_witness :
  exists l',
    Suggestions.generateWidgetSuggestions
      (Examples.parse_table [("[]", JArr [])]) (Examples.answering "[]")
      "Apple stock" [] = (Ret [], l').
Proof.
  destruct (suggestions_are_nonempty_strings
              (Examples.parse_table [("[]", JArr [])]) (Examples.answering "[]")
              "Apple stock" []) as (result & l' & E & _ & _ & _ & _ & _ & H).
  exists l'. rewrite E. f_equal. f_equal.
  apply (H (Some "[]")); reflexivity.
Defined.

(** X6. The [/suggestions] route never throws: a missing or empty query is
    answered by the empty list without any call, any other query by the
    suggestions of [generateWidgetSuggestions], none of them empty. *)
Theorem suggestions_route_never_throws :
  forall JSON_parse w query l,
  exists result l',
    Suggestions.post_suggestions JSON_parse w query l = (Ret result, l')
    /\ Forall (fun s => s <> "") result
    /\ (query = None \/ query = Some "" -> result = [] /\ l' = l)
    /\ (forall q, query = Some q -> q <> "" ->
                  Suggestions.generateWidgetSuggestions JSON_parse w q l
                  = (Ret result, l')).
Proof.
  intros JSON_parse w query l. unfold Suggestions.post_suggestions.
  destruct query as [q|].
  - destruct (String.eqb_spec q "") as [->|Hq].
    + exists [], l. repeat split; auto. intros q [= <-]. congruence.
    + destruct (generateWidgetSuggestions_returns JSON_parse w q l)
        as (result & l' & E & Hne).
      exists result, l'. unfold try_catch. rewrite E.
      split; [reflexivity|]. split; [exact Hne|].
      split; [intros [H0|H0]; congruence|].
      intros q' [= <-] _. exact E.
  - exists [], l. repeat split; auto. discriminate.
Qed.

Lemma suggestions_route_never_throws_witness :
  Suggestions.post_suggestions Examples.parse_nothing Examples.offline (Some "") []
  = (Ret [], []).
Proof.
  destruct (suggestions_route_never_throws Examples.parse_nothing Examples.offline
              (Some "") []) as (result & l' & E & _ & H & _).
  destruct (H (or_intror eq_refl)) as [Hr Hl]. rewrite E, Hr, Hl. reflexivity.
Defined.

(** ** The [/tool] route *)

Lemma map_get_In {V} name (m : list (string * V)) v :
  map_get name m = Some v -> In v (map snd m).
Proof.
  induction m as [|[k x] m IH]; cbn; [discriminate|].
  destruct (String.eqb k name); [intros [= ->]; now left|auto].
Qed.

Lemma determineWidgetType_not_error name : Routes.determineWidgetType name <> "error".
Proof.
  unfold Routes.determineWidgetType.
  destruct (map_get name Routes.widgetMap) as [widget|] eqn:E; [|discriminate].
  apply map_get_In in E. cbn in E. intros ->. intuition discriminate.
Qed.

(** X7. The [/tool] route never throws and makes exactly one call to the
    MCP server, the tool asked for with the arguments given, and no
    fallback. It answers status 500 and widget type [error] exactly when
    that call is rejected, with the message of the rejection; an answer of
    the server, whatever its text, gives status 200 and the widget type
    [determineWidgetType] maps the name to, which is never [error]. *)
Theorem tool_route_single_call :
  forall JSON_parse ToString_ext w name args l,
  exists resp,
    Routes.post_tool JSON_parse ToString_ext w name args l
    = (Ret resp, l ++ [call_of (ToolsCall name args)])
    /\ (forall msg,
          mcp w l (ToolsCall name args) = Throw msg ->
          status resp = 500%Z /\ error resp = Some msg
          /\ widgetType resp = "error" /\ data resp = JObj [])
    /\ (forall result,
          mcp w l (ToolsCall name args) = Ret result ->
          status resp = 200%Z /\ error resp = None
          /\ widgetType resp = Routes.determineWidgetType name
          /\ widgetType resp <> "error").
Proof.
  intros. unfold Routes.post_tool, try_catch, bind. rewrite sendToMCP_runs.
  destruct (mcp w l (ToolsCall name args)) as [result|msg].
  - destruct (match r_content result with
              | Some items =>
                  Routes.read_items JSON_parse ToString_ext name items (JObj [])
                    "Tool executed successfully"
              | None => (JObj [], "Tool executed successfully")
              end) as [financialData content].
    eexists. split; [reflexivity|]. split; [discriminate|].
    intros ? _. cbn. repeat split; try apply determineWidgetType_not_error.
  - eexists. split; [reflexivity|]. split; [|discriminate].
    intros ? [= <-]. cbn. auto.
Qed.

Lemma tool_route_single_call_witness :
  exists resp,
    Routes.post_tool Examples.parse_nothing (fun _ => "") Examples.soft_errors
      "get_quote" [("symbol", JStr "AAPL")] []
    = (Ret resp, [call_of (ToolsCall "get_quote" [("symbol", JStr "AAPL")])])
    /\ status resp = 200%Z /\ widgetType resp = "stock_quote".
Proof.
  destruct (tool_route_single_call Examples.parse_nothing (fun _ => "")
              Examples.soft_errors "get_quote" [("symbol", JStr "AAPL")] [])
    as (resp & E & _ & H).
  exists resp. split; [exact E|].
  destruct (H _ eq_refl) as (Hs & _ & Hw & _). split; [exact Hs|exact Hw].
Defined.

(** ** Keyword routing *)

Lemma has_filter reg names f :
  In f (filter (Routes.has reg) names) -> Routes.has reg f = true /\ In f names.
Proof. intros H. apply filter_In in H. tauto. Qed.

Lemma choose_sound reg lower : forall prefs,
  forallb preference_ok prefs = true ->
  let c := Routes.choose reg lower prefs in
  (Routes.has reg (Routes.c_tool c) = true
   \/ (Routes.c_tool c = "search_symbols" /\ Routes.c_fallbacks c = []))
  /\ (forall f, In f (Routes.c_fallbacks c) -> Routes.has reg f = true)
  /\ ~ In (Routes.c_tool c) (Routes.c_fallbacks c).
Proof.
  induction prefs as [|p prefs IH]; cbn [Routes.choose forallb].
  - intros _. cbn. repeat split; auto; tauto.
  - intros H. apply andb_prop in H as [Hp Hrest].
    destruct (existsb (includes lower) (Routes.keywords p)); [|now apply IH].
    destruct (Routes.has reg (Routes.primary p)) eqn:Hhas.
    + cbn. split; [now left|]. split.
      * intros f Hf. now apply has_filter in Hf.
      * intros Hin. apply has_filter in Hin as [_ Hin].
        unfold preference_ok in Hp. apply negb_true_iff in Hp.
        assert (existsb (String.eqb (Routes.primary p)) (Routes.fallbacks p) = true).
        { apply existsb_exists. eexists. split; [eassumption|apply String.eqb_refl]. }
        congruence.
    + destruct (find (Routes.has reg) (Routes.fallbacks p)) as [fb|] eqn:F;
        [|now apply IH].
      apply find_some in F as [_ F]. cbn. repeat split; auto; tauto.
Qed.

(** X8. [findBestTool] returns a tool of the registry, or [search_symbols]
    as its default when no preference applies; the fallbacks it returns are
    all tools of the registry and never include the tool returned. *)
Theorem findBestTool_stays_in_registry :
  forall reg message,
    let c := Routes.findBestTool reg message in
    (Routes.has reg (Routes.c_tool c) = true
     \/ (Routes.c_tool c = "search_symbols" /\ Routes.c_fallbacks c = []))
    /\ (forall f, In f (Routes.c_fallbacks c) -> Routes.has reg f = true)
    /\ ~ In (Routes.c_tool c) (Routes.c_fallbacks c).
Proof.
  intros reg message. unfold Routes.findBestTool.
  apply choose_sound. vm_compute. reflexivity.
Qed.

Lemma findBestTool_stays_in_registry_witness :
  Routes.has (availableTools (Examples.registry_of [Examples.search_symbols]))
    (Routes.c_tool
       (Routes.findBestTool
          (availableTools (Examples.registry_of [Examples.search_symbols]))
          "Apple stock price")) = true.
Proof.
  destruct (findBestTool_stays_in_registry
              (availableTools (Examples.registry_of [Examples.search_symbols]))
              "Apple stock price") as ([H|[H _]] & _ & _).
  - exact H.
  - rewrite H. reflexivity.
Defined.

Lemma sorted_preferences :
  map Routes.primary (Routes.sort_by_rank Routes.toolPreferences)
  = [ "get_trending_stocks"; "get_quote"; "get_trending_etfs";
      "get_historical_data"; "get_screener"; "search_symbols";
      "get_quote_summary"; "get_chart"; "get_insights" ].
Proof. vm_compute. reflexivity. Qed.

Lemma choose_head reg lower p prefs :
  existsb (includes lower) (Routes.keywords p) = true ->
  Routes.has reg (Routes.primary p) = true ->
  Routes.choose reg lower (p :: prefs)
  = {| Routes.c_tool := Routes.primary p;
       Routes.c_fallbacks := filter (Routes.has reg) (Routes.fallbacks p);
       Routes.c_requiresSymbol := Routes.requiresSymbol p;
       Routes.c_requiresCount := Routes.requiresCount p;
       Routes.c_requiresQuery := Routes.requiresQuery p |}.
Proof. cbn [Routes.choose]. now intros -> ->. Qed.

(** X9. The preference for trending stocks is tried first: a message that
    contains [trending], [top] or [stock], such as a request for the price
    of one stock, is routed to [get_trending_stocks] whenever the registry
    holds that tool, before the quote preference is looked at. *)
Theorem findBestTool_prefers_trending :
  forall reg message,
    any_of (toLowerCase message) ["trending"; "top"; "stock"] = true ->
    Routes.has reg "get_trending_stocks" = true ->
    Routes.c_tool (Routes.findBestTool reg message) = "get_trending_stocks"
    /\ Routes.c_fallbacks (Routes.findBestTool reg message)
       = filter (Routes.has reg) ["search_symbols"].
Proof.
  intros reg message Hkw Hhas. unfold Routes.findBestTool.
  assert (S : exists p prefs,
             Routes.sort_by_rank Routes.toolPreferences = p :: prefs
             /\ Routes.keywords p
                = ["trending"; "top"; "stock"; "stocks"; "top 5 stocks";
                   "top 10 stocks"]
             /\ Routes.primary p = "get_trending_stocks"
             /\ Routes.fallbacks p = ["search_symbols"])
    by (do 2 eexists; vm_compute; repeat split).
  destruct S as (p & prefs & -> & Hk & Hp & Hf).
  rewrite choose_head.
  - cbn [Routes.c_tool Routes.c_fallbacks]. now rewrite Hp, Hf.
  - rewrite Hk. unfold any_of in Hkw. cbn [existsb] in Hkw |- *.
    destruct (includes (toLowerCase message) "trending"),
      (includes (toLowerCase message) "top"),
      (includes (toLowerCase message) "stock"); cbn in *; congruence.
  - now rewrite Hp.
Qed.

Lemma findBestTool_prefers_trending_witness :
  Routes.c_tool
    (Routes.findBestTool
       (availableTools
          (Examples.registry_of [Examples.get_quote; Examples.get_trending_stocks]))
       "Apple stock price")
  = "get_trending_stocks".
Proof.
  apply (findBestTool_prefers_trending
           (availableTools
              (Examples.registry_of [Examples.get_quote; Examples.get_trending_stocks]))
           "Apple stock price"); vm_compute; reflexivity.
Defined.

(** ** The registry *)

Lemma cache_tools_coherent : forall tools reg seen,
  coherent reg seen ->
  coherent (cache_tools tools reg) (seen ++ tools).
Proof.
  induction tools as [|tool tools IH]; intros reg seen Hc; cbn [cache_tools].
  - now rewrite app_nil_r.
  - replace (seen ++ tool :: tools) with ((seen ++ [tool]) ++ tools)
      by (now rewrite <- app_assoc).
    match goal with |- context [cache_tools tools ?r] => set (reg1 := r) end.
    assert (H1 : coherent reg1 (seen ++ [tool])).
    { destruct Hc as (Hk & Hnd & Hin & Hget). unfold reg1, coherent.
      cbn [availableTools toolCapabilities]. split; [|split; [|split]].
      - now apply map_set_keys.
      - now apply map_set_NoDup.
      - intros name. rewrite map_set_keys_In, Hin, map_app, in_app_iff. cbn.
        intuition.
      - intros name t.
        destruct (String.eqb_spec (t_name tool) name) as [<-|Hne].
        + rewrite !map_get_set_same. intros [= <-].
          repeat split; auto. apply in_or_app. right. now left.
        + rewrite !map_get_set_other by assumption. intros Hg.
          destruct (Hget name t Hg) as (Hn & Hs & Hcap).
          repeat split; auto. apply in_or_app. now left. }
    exact (IH reg1 (seen ++ [tool]) H1).
Qed.

Lemma empty_registry_coherent : coherent empty_registry [].
Proof.
  unfold coherent, empty_registry. cbn. repeat split; try tauto; try constructor;
    discriminate.
Qed.

(** What [discoverAvailableTools] does, case by case. *)
Lemma discoverAvailableTools_cases w reg l :
  discoverAvailableTools w reg l
  = (Ret match mcp w l ToolsList with
         | Ret response =>
             cache_tools (match r_tools response with Some ts => ts | None => [] end)
               empty_registry
         | Throw _ => reg
         end, l ++ [call_of ToolsList]).
Proof.
  unfold discoverAvailableTools, try_catch, bind. rewrite sendToMCP_runs.
  destruct (mcp w l ToolsList); reflexivity.
Qed.



Lemma category_is_first_rule (tool : Tool) :
  category (extractToolCapabilities tool)
  = first_rule category_rules (toLowerCase (t_name tool)).
Proof.
  unfold extractToolCapabilities. cbn [category first_rule category_rules existsb].
  set (n := toLowerCase (t_name tool)). rewrite !orb_false_r.
  destruct (includes n "trending"), (includes n "quote"), (includes n "price"),
    (includes n "historical"), (includes n "chart"), (includes n "insights"),
    (includes n "search"), (includes n "etf"), (includes n "gainer"); reflexivity.
Qed.

(** X11. After a discovery the server answered, the widget type of a tool
    of the registry is the category derived from its name by the ordered
    substring checks; the static table of [/analyze] is not consulted for
    it. *)
Theorem registered_tool_widget_is_derived :
  forall w reg l response name tool,
    mcp w l ToolsList = Ret response ->
    forall reg',
      fst (discoverAvailableTools w reg l) = Ret reg' ->
      map_get name (availableTools reg') = Some tool ->
      name <> "" ->
      widget_for reg' name = first_rule category_rules (toLowerCase name).
Proof.
  intros w reg l response name tool Hmcp reg' Hd Hget Hname.
  rewrite discoverAvailableTools_cases, Hmcp in Hd. cbn [fst] in Hd.
  injection Hd as <-.
  destruct (cache_tools_coherent
              (match r_tools response with Some ts => ts | None => [] end)
              empty_registry [] empty_registry_coherent)
    as (_ & _ & _ & Hc).
  destruct (Hc name tool Hget) as (Hn & _ & Hcap).
  unfold widget_for.
  destruct (String.eqb_spec name ""); [contradiction|].
  rewrite Hcap, category_is_first_rule, Hn. reflexivity.
Qed.


Lemma registered_tool_widget_is_derived_witness :
  widget_for (Examples.registry_of [Examples.trending_etfs]) "get_trending_etfs"
  = "trending".
Proof.
  exact (registered_tool_widget_is_derived
           (Examples.listing [Examples.trending_etfs]) empty_registry []
           {| r_tools := Some [Examples.trending_etfs]; r_content := None |}
           "get_trending_etfs" Examples.trending_etfs eq_refl
           (Examples.registry_of [Examples.trending_etfs]) eq_refl eq_refl
           ltac:(discriminate)).
Defined.

(** ** The resolver of the bridge *)

(** X12. The resolver of the bridge never throws and makes at most one
    call, a search for the first company name found in the message. An
    uppercase token of the message wins over every company name: the
    symbol is then that token, of one to five uppercase letters, and no
    call is made; nor is one made for a company name of the static table,
    nor for a name that every object inherits, such as [constructor], for
    which the symbol returned is a function. *)
Theorem resolver_makes_at_most_one_call :
  forall JSON_parse w message l,
  exists symbol l',
    Bridge.extractSymbol JSON_parse w message l = (Ret symbol, l')
    /\ (l' = l
        \/ exists first others,
             extractCompanyNames message = first :: others
             /\ l' = l ++ [call_of (ToolsCall "search_symbols" [("query", JStr first)])])
    /\ (forall symbolMatch,
          exec symbol_token message = Some symbolMatch ->
          symbol = Some (Json (JStr (group1 symbolMatch)))
          /\ ticker_shaped (group1 symbolMatch) /\ l' = l)
    /\ (forall first others ticker,
          exec symbol_token message = None ->
          extractCompanyNames message = first :: others ->
          map_get (toLowerCase first) Bridge.companyMap = Some ticker ->
          symbol = Some (Json (JStr ticker)) /\ l' = l)
    /\ (forall first others,
          exec symbol_token message = None ->
          extractCompanyNames message = first :: others ->
          map_get (toLowerCase first) Bridge.companyMap = None ->
          In (toLowerCase first) Object_prototype ->
          symbol = Some Function /\ l' = l)
    /\ (exec symbol_token message = None ->
        extractCompanyNames message = [] ->
        symbol = None /\ l' = l).
Proof.
  intros JSON_parse w message l. rewrite resolver_cases.
  destruct (exec symbol_token message) as [h|] eqn:E.
  { do 2 eexists. split; [reflexivity|]. split; [now left|].
    split; [|split; [discriminate|split; discriminate]].
    intros ? [= <-]. split; [reflexivity|]. split; [|reflexivity].
    apply search_is_match_at in E as [c' E]. eapply match_at_symbol_token; eassumption. }
  destruct (extractCompanyNames message) as [|first others] eqn:N.
  { do 2 eexists. split; [reflexivity|]. split; [now left|].
    split; [discriminate|]. split; [discriminate|]. split; [discriminate|]. auto. }
  assert (Hinh : map_get (toLowerCase first) Bridge.companyMap = None ->
                 In (toLowerCase first) Object_prototype ->
                 read_property Bridge.companyMap (toLowerCase first) = Some Function).
  { intros Hm Hin. unfold read_property. rewrite Hm.
    assert (Hex : existsb (String.eqb (toLowerCase first)) Object_prototype = true).
    { apply existsb_exists. eexists. split; [exact Hin|apply String.eqb_refl]. }
    now rewrite Hex. }
  destruct (held_truthy (read_property Bridge.companyMap (toLowerCase first))) eqn:T.
  { do 2 eexists. split; [reflexivity|]. split; [now left|].
    split; [discriminate|]. split; [|split; [|discriminate]].
    - intros ? ? ? _ [= <- _] Hm. now destruct (company_ticker _ _ Hm) as [-> _].
    - intros ? ? _ [= <- _] Hm Hin. now rewrite (Hinh Hm Hin). }
  cbv zeta. do 2 eexists. split; [reflexivity|].
  split; [right; eauto|]. split; [discriminate|].
  split; [|split; [|discriminate]].
  - intros ? ? ? _ [= <- _] Hm. destruct (company_ticker _ _ Hm) as [_ Ht]. congruence.
  - intros ? ? _ [= <- _] Hm Hin. rewrite (Hinh Hm Hin) in T. discriminate.
Qed.

Lemma resolver_makes_at_most_one_call_witness :
  exists l',
    Bridge.extractSymbol Examples.parse_nothing Examples.offline
      "I like Apple" [] = (Ret (Some (Json (JStr "I"))), l') /\ l' = [].
Proof.
  destruct (resolver_makes_at_most_one_call Examples.parse_nothing Examples.offline
              "I like Apple" []) as (symbol & l' & E & _ & H & _).
  exists l'. destruct (exec symbol_token "I like Apple") as [h|] eqn:X;
    [|vm_compute in X; discriminate].
  destruct (H h eq_refl) as (Hs & _ & Hl).
  rewrite E, Hs. split; [|exact Hl].
  vm_compute in X. injection X as <-. reflexivity.
Defined.

(** ** The required parameters *)

(** With a first company name that every object inherits, the loop makes
    no call and never returns early; the symbol it stores is the function. *)
Lemma fill_loop_inherited JSON_parse w tool message :
  inherited_name message ->
  forall requiredParams toolArgs l,
    NoDup (map fst toolArgs) ->
    exists filled,
      fill_loop JSON_parse w tool message requiredParams toolArgs l
      = (Ret (inr filled), l)
      /\ NoDup (map fst filled)
      /\ (forall h, map_get "symbol" toolArgs = Some h ->
                    held_truthy (Some h) = true ->
                    map_get "symbol" filled = Some h)
      /\ (held_truthy (map_get "symbol" toolArgs) = false ->
          In "symbol" requiredParams ->
          map_get "symbol" filled = Some Function).
Proof.
  intros Hinh. induction requiredParams as [|param others IH];
    intros toolArgs l Hnd; cbn [fill_loop].
  { exists toolArgs. split; [reflexivity|]. split; [exact Hnd|].
    split; [auto|]. intros _ []. }
  destruct (held_truthy (map_get param toolArgs)) eqn:Hp.
  { destruct (IH toolArgs l Hnd) as (filled & E & Hnd' & Hkeep & Hfun).
    exists filled. split; [exact E|]. split; [exact Hnd'|]. split; [exact Hkeep|].
    intros Hf [->|Hin]; [congruence|now apply Hfun]. }
  assert (Hset : forall key v,
             key <> "symbol" ->
             exists filled,
               fill_loop JSON_parse w tool message others (map_set key v toolArgs) l
               = (Ret (inr filled), l)
               /\ NoDup (map fst filled)
               /\ (forall h, map_get "symbol" toolArgs = Some h ->
                             held_truthy (Some h) = true ->
                             map_get "symbol" filled = Some h)
               /\ (held_truthy (map_get "symbol" toolArgs) = false ->
                   In "symbol" others ->
                   map_get "symbol" filled = Some Function)).
  { intros key v Hkey.
    destruct (IH (map_set key v toolArgs) l (map_set_NoDup _ _ _ Hnd))
      as (filled & E & Hnd' & Hkeep & Hfun).
    rewrite map_get_set_other in Hkeep, Hfun by assumption.
    exists filled. repeat split; assumption. }
  destruct (String.eqb_spec param "symbol") as [->|Hns].
  - unfold bind. rewrite (resolver_inherited JSON_parse w message l Hinh).
    cbn [held_truthy].
    destruct (IH (map_set "symbol" Function toolArgs) l (map_set_NoDup _ _ _ Hnd))
      as (filled & E & Hnd' & Hkeep & _).
    exists filled. split; [exact E|]. split; [exact Hnd'|]. split.
    + intros h Hh Ht. rewrite Hh in Hp. cbn [held_truthy] in Hp. congruence.
    + intros _ _. apply Hkeep; [apply map_get_set_same|reflexivity].
  - assert (Hin : forall filled,
               (held_truthy (map_get "symbol" toolArgs) = false ->
                In "symbol" others -> map_get "symbol" filled = Some Function) ->
               held_truthy (map_get "symbol" toolArgs) = false ->
               In "symbol" (param :: others) ->
               map_get "symbol" filled = Some Function).
    { intros filled H Hf [->|Hi]; [contradiction|now apply H]. }
    destruct (String.eqb_spec param "count") as [->|Hnc].
    { destruct (Hset "count" (Json (num match exec digits message with
                                        | Some countMatch => parseInt (group1 countMatch)
                                        | None => 5%Z
                                        end))) as (filled & E & H1 & H2 & H3);
        [discriminate|].
      exists filled. repeat split; auto. }
    destruct (String.eqb_spec param "query") as [->|Hnq].
    { match goal with
      | |- context [map_set "query" ?v toolArgs] =>
          destruct (Hset "query" v) as (filled & E & H1 & H2 & H3); [discriminate|]
      end.
      exists filled. repeat split; auto. }
    destruct (IH toolArgs l Hnd) as (filled & E & Hnd' & Hkeep & Hfun).
    exists filled. repeat split; auto.
Qed.

(** X13. The loop over the required parameters never throws, and its only
    early return is the answer [No symbol found]. When it lets the request
    go on and [symbol] is among the required parameters, the arguments sent
    hold a symbol that is truthy, with one exception: a message without an
    uppercase token whose first company name is one that every object
    inherits, such as [constructor inc]. The symbol is then a function,
    which passes the test and is left out of the request: the loop makes no
    call, and the tool is invoked with no symbol among its arguments. *)
Theorem required_symbol_is_present :
  forall JSON_parse w tool message requiredParams toolArgs l,
  exists r l',
    fill_required JSON_parse w tool message requiredParams toolArgs l = (Ret r, l')
    /\ (forall early, r = inl early -> early = no_symbol_found message)
    /\ (forall filled,
          r = inr filled ->
          In "symbol" requiredParams ->
          truthy (get "symbol" filled) = true \/ inherited_name message)
    /\ (inherited_name message ->
        In "symbol" requiredParams ->
        truthy (get "symbol" toolArgs) = false ->
        NoDup (map fst toolArgs) ->
        exists filled, r = inr filled /\ get "symbol" filled = None /\ l' = l).
Proof.
  intros JSON_parse w tool message requiredParams toolArgs l.
  destruct (fill_required_keeps JSON_parse w tool message requiredParams toolArgs l)
    as (r & l' & E & _ & _ & Hearly & Hfilled).
  exists r, l'. split; [exact E|]. split; [exact Hearly|]. split.
  - intros filled Hr Hin. destruct (Hfilled filled Hr) as [_ Hs].
    destruct (Hs Hin) as [H|[H _]]; [now left|now right].
  - intros Hinh Hin Hunset Hnd.
    rewrite <- held_truthy_hold in Hunset. rewrite <- hold_keys in Hnd.
    destruct (fill_loop_inherited JSON_parse w tool message Hinh requiredParams
                (hold toolArgs) l Hnd) as (held & E' & Hnd' & _ & Hfun).
    unfold fill_required, bind in E. rewrite E' in E. injection E as <- <-.
    eexists. split; [reflexivity|]. split; [|reflexivity].
    apply get_stringify_function; [exact Hnd'|now apply Hfun].
Qed.

Lemma required_symbol_is_present_witness :
  fill_required Examples.parse_nothing Examples.offline "get_quote" "constructor inc"
    ["symbol"] [] []
  = (Ret (inr []), []).
Proof.
  destruct (required_symbol_is_present Examples.parse_nothing Examples.offline
              "get_quote" "constructor inc" ["symbol"] [] [])
    as (r & l' & E & _ & _ & H).
  destruct H as (filled & -> & _ & ->).
  - split; [vm_compute; reflexivity|].
    exists "constructor", []. split; vm_compute; reflexivity.
  - now left.
  - reflexivity.
  - constructor.
  - rewrite E. f_equal. f_equal. vm_compute in E. now injection E as <-.
Defined.

(** X14. The loop over the required parameters never replaces an argument
    the classification supplied with a truthy value, and it makes at most
    one call, the search of the resolver, and none when the classification
    supplied the symbol. *)
Theorem classified_arguments_are_kept :
  forall JSON_parse w tool message requiredParams toolArgs l,
  exists r l',
    fill_required JSON_parse w tool message requiredParams toolArgs l = (Ret r, l')
    /\ (l' = l \/ exists req, l' = l ++ [call_of req])
    /\ (truthy (get "symbol" toolArgs) = true -> l' = l)
    /\ (forall filled k,
          r = inr filled ->
          truthy (get k toolArgs) = true ->
          get k filled = get k toolArgs).
Proof.
  intros JSON_parse w tool message requiredParams toolArgs l.
  destruct (fill_required_keeps JSON_parse w tool message requiredParams toolArgs l)
    as (r & l' & E & Hnocall & Hone & _ & Hfilled).
  exists r, l'. split; [exact E|].
  split; [destruct Hone as [->|[first ->]]; eauto|]. split; [exact Hnocall|].
  intros filled k Hr. now apply Hfilled.
Qed.

Lemma classified_arguments_are_kept_witness :
  fill_required Examples.parse_nothing Examples.offline "get_quote" "Apple stock"
    ["symbol"] [("symbol", JStr "MSFT")] []
  = (Ret (inr [("symbol", JStr "MSFT")]), []).
Proof.
  destruct (classified_arguments_are_kept Examples.parse_nothing Examples.offline
              "get_quote" "Apple stock" ["symbol"] [("symbol", JStr "MSFT")] [])
    as (r & l' & E & _ & Hl & _).
  rewrite E, (Hl eq_refl). f_equal. f_equal.
  vm_compute in E. now injection E as <- _.
Defined.

(** ** Invocations *)

Lemma fallbacks_NoDup (tool : string) :
  NoDup (fallbacks_for tool) /\ length (fallbacks_for tool) <= 2.
Proof.
  unfold fallbacks_for.
  destruct (String.eqb tool "get_screener");
    [split; [repeat constructor; cbn; intuition discriminate|cbn; lia]|].
  destruct (String.eqb tool "get_trending_stocks");
    [split; [repeat constructor; cbn; intuition discriminate|cbn; lia]|].
  destruct (String.eqb tool "get_quote");
    [split; [repeat constructor; cbn; intuition discriminate|cbn; lia]|].
  destruct (String.eqb tool "search_symbols");
    [split; [repeat constructor; cbn; intuition discriminate|cbn; lia]|].
  split; [constructor|cbn; lia].
Qed.

Lemma NoDup_prefix {A} (xs ys : list A) : NoDup (xs ++ ys) -> NoDup xs.
Proof.
  induction xs as [|x xs IH]; cbn; [constructor|].
  intros H. inversion H as [|? ? Hnot Hrest]; subst.
  constructor; [|now apply IH]. intros Hin. apply Hnot. apply in_or_app. now left.
Qed.

(** What [execute] does when the primary invocation succeeds. *)
Lemma execute_primary w message tool toolArgs fallbacks l :
  succeeds w l (ToolsCall tool toolArgs) = true ->
  exists r,
    mcp w l (ToolsCall tool toolArgs) = Ret r
    /\ has_error_marker r = false
    /\ execute w message tool toolArgs fallbacks l
       = (Ret {| response := Some r; lastError := None;
                 req_name := tool; req_arguments := toolArgs |},
          l ++ [call_of (ToolsCall tool toolArgs)]).
Proof.
  unfold succeeds, execute, bind, attempt. rewrite sendToMCP_runs.
  destruct (mcp w l (ToolsCall tool toolArgs)) as [r|msg]; [|discriminate].
  destruct (has_error_marker r) eqn:Hm; [discriminate|]. intros _.
  exists r. rewrite Hm. repeat split.
Qed.

(** The calls of [execute]: the primary request, then a prefix of the
    requests of [plan]. *)
Lemma execute_tried w message tool toolArgs fallbacks l :
  exists e tried rest,
    execute w message tool toolArgs fallbacks l
    = (Ret e, l ++ call_of (ToolsCall tool toolArgs) :: map call_of tried)
    /\ plan message toolArgs fallbacks = tried ++ rest
    /\ (succeeds w l (ToolsCall tool toolArgs) = true ->
        tried = [] /\ req_name e = tool).
Proof.
  destruct (succeeds w l (ToolsCall tool toolArgs)) eqn:S.
  - destruct (execute_primary w message tool toolArgs fallbacks l S)
      as (r & _ & _ & E).
    eexists. exists [], (plan message toolArgs fallbacks). rewrite E. cbn.
    repeat split.
  - destruct (execute_walk w message tool toolArgs fallbacks l S)
      as (e & E & _). cbv zeta in E.
    match type of E with
    | context [attempts w ?l1 ?requests] =>
        destruct (attempts_prefix w requests l1) as [rest Hrest]
    end.
    exists e. do 2 eexists. rewrite E, <- app_assoc. cbn [app].
    split; [reflexivity|]. split; [exact Hrest|discriminate].
Qed.

(** X15. The invocation block never throws and calls no tool twice: the
    primary tool once, then alternates of its chain in the declared order,
    each at most once and never the primary tool again, at most three calls
    in all; when the primary invocation succeeds it is the only call. *)
Theorem no_tool_is_called_twice :
  forall w message tool toolArgs l,
  exists e tried,
    execute w message tool toolArgs (fallbacks_for tool) l
    = (Ret e, l ++ call_of (ToolsCall tool toolArgs) :: map call_of tried)
    /\ NoDup (tool :: map request_name tried)
    /\ length tried <= 2
    /\ (succeeds w l (ToolsCall tool toolArgs) = true ->
        tried = [] /\ req_name e = tool).
Proof.
  intros w message tool toolArgs l.
  destruct (execute_tried w message tool toolArgs (fallbacks_for tool) l)
    as (e & tried & rest & E & Hplan & Hok).
  exists e, tried. split; [exact E|].
  pose proof (plan_names message (fallbacks_for tool) toolArgs) as Hnames.
  rewrite Hplan, map_app in Hnames.
  destruct (fallbacks_NoDup tool) as [Hnd Hlen].
  split; [|split; [|exact Hok]].
  - constructor.
    + intros Hin. apply (fallbacks_exclude_primary tool).
      rewrite <- Hnames. apply in_or_app. now left.
    + apply NoDup_prefix with (ys := map request_name rest). now rewrite Hnames.
  - assert (length (map request_name tried) <= length (fallbacks_for tool)).
    { rewrite <- Hnames, length_app. lia. }
    rewrite length_map in *. lia.
Qed.

Lemma no_tool_is_called_twice_witness :
  exists e,
    execute Examples.quotes_only "Apple stock" "get_quote" [("symbol", JStr "AAPL")]
      (fallbacks_for "get_quote") []
    = (Ret e, [call_of (ToolsCall "get_quote" [("symbol", JStr "AAPL")])])
    /\ req_name e = "get_quote".
Proof.
  destruct (no_tool_is_called_twice Examples.quotes_only "Apple stock" "get_quote"
              [("symbol", JStr "AAPL")] []) as (e & tried & E & _ & _ & H).
  destruct (H eq_refl) as [-> Hn]. exists e. split; [exact E|exact Hn].
Defined.



(** ** The handler as a whole *)

Lemma processQuery_calls JSON_parse ToNumber_ext w tools q l :
  exists r calls,
    processQuery JSON_parse ToNumber_ext w tools q l = (Ret r, l ++ calls)
    /\ length calls <= 2 /\ mcp_requests calls = [].
Proof.
  rewrite processQuery_cases. cbv zeta. rewrite <- app_assoc. cbn [app].
  destruct (fst (checkOllamaStatus w l)) as [[|]|msg0].
  2,3: (do 2 eexists; split; [reflexivity|]; cbn; split; [lia|reflexivity]).
  destruct (ollama_generate w _ (prompt q)) as [text|msg1].
  2: (do 2 eexists; split; [reflexivity|]; cbn; split; [lia|reflexivity]).
  destruct (interpret JSON_parse ToNumber_ext tools text) as [[r|]|msg2];
    do 2 eexists; (split; [reflexivity|]); cbn; (split; [lia|reflexivity]).
Qed.

Lemma mcp_requests_app a b : mcp_requests (a ++ b) = mcp_requests a ++ mcp_requests b.
Proof.
  induction a as [|c a IH]; cbn; [reflexivity|].
  destruct c; cbn; now rewrite IH.
Qed.

Lemma mcp_requests_calls requests :
  mcp_requests (map call_of requests) = requests.
Proof. induction requests as [|r rs IH]; cbn; [reflexivity|]. now rewrite IH. Qed.

Lemma mcp_requests_length calls : length (mcp_requests calls) <= length calls.
Proof.
  induction calls as [|c calls IH]; cbn; [lia|]. destruct c; cbn; lia.
Qed.

Lemma fill_required_early JSON_parse w tool message requiredParams toolArgs l early l' :
  fill_required JSON_parse w tool message requiredParams toolArgs l
  = (Ret (inl early), l') ->
  early = no_symbol_found message.
Proof.
  intros E.
  destruct (fill_required_keeps JSON_parse w tool message requiredParams toolArgs l)
    as (r & l0 & E0 & _ & _ & Hearly & _).
  rewrite E in E0. injection E0 as <- _. now apply Hearly.
Qed.

Lemma handle_answers_200 JSON_parse ToNumber_ext w reg message l resp l' :
  handle JSON_parse ToNumber_ext w reg message l = (Ret resp, l') ->
  status resp = 200%Z /\ error resp = None.
Proof.
  rewrite handle_cases.
  destruct (processQuery JSON_parse ToNumber_ext w (llm_availableTools reg) message l)
    as [[cls|msg] l1]; [|discriminate].
  destruct (prints (reasoning cls)); [|discriminate].
  destruct (map_get (tool cls) (availableTools reg)) as [toolInfo|];
    [|intros [= <- _]; now split].
  destruct (fill_required JSON_parse w (tool cls) message
              match t_required toolInfo with Some ps => ps | None => [] end
              (spread (parameters cls)) l1) as [[[early|toolArgs]|msg] l2] eqn:F;
    [| |discriminate].
  - apply fill_required_early in F. subst early. intros [= <- _]. now split.
  - destruct (execute w message (tool cls) toolArgs (fallbacks_for (tool cls)) l2)
      as [[e|msg] l3]; [|discriminate].
    unfold respond. destruct (response e); [|discriminate].
    intros [= <- _]. now split.
Qed.

(** X17. The [/analyze] handler never throws, whatever the endpoint and the
    server do. Its response has status 200 and no error field, or status
    500 with an error message, empty data, widget type [error] and the
    content [Failed to analyze message]. *)
Theorem analyze_never_throws :
  forall JSON_parse ToNumber_ext w reg message l,
  exists reg' resp l',
    analyze JSON_parse ToNumber_ext w reg message l = (Ret (reg', resp), l')
    /\ ((status resp = 200%Z /\ error resp = None)
        \/ (status resp = 500%Z /\ error resp <> None
            /\ data resp = JObj [] /\ widgetType resp = "error"
            /\ content resp = "Failed to analyze message"%string)).
Proof.
  intros. unfold analyze, bind, try_catch, ret.
  assert (Hd : exists reg' l0,
             (if length (availableTools reg) =? 0
              then discoverAvailableTools w reg
              else fun l => (Ret reg, l)) l = (Ret reg', l0)).
  { destruct (length (availableTools reg) =? 0); [|eauto].
    rewrite discoverAvailableTools_cases. eauto. }
  destruct Hd as (reg' & l0 & ->).
  destruct (handle JSON_parse ToNumber_ext w reg' message l0) as [[resp|msg] l1] eqn:H.
  - do 3 eexists. split; [reflexivity|]. left.
    eapply handle_answers_200; eassumption.
  - do 3 eexists. split; [reflexivity|]. right. cbn. repeat split. discriminate.
Qed.

(** X18. With an empty registry that discovery cannot fill, because the
    listing is rejected or names no tool, every query is answered by the
    error [Tool not found] of widget type [error], and no tool is invoked:
    the only request to the server is the listing. *)
Theorem empty_registry_rejects_every_query :
  forall JSON_parse ToNumber_ext w reg message l,
    availableTools reg = [] ->
    ((exists msg, mcp w l ToolsList = Throw msg)
     \/ (exists response,
           mcp w l ToolsList = Ret response
           /\ (r_tools response = None \/ r_tools response = Some []))) ->
    exists reg' resp calls,
      analyze JSON_parse ToNumber_ext w reg message l
      = (Ret (reg', resp), l ++ calls)
      /\ availableTools reg' = []
      /\ data resp = JObj [("error", JStr "Tool not found")]
      /\ widgetType resp = "error"
      /\ mcp_requests calls = [ToolsList].
Proof.
  intros JSON_parse ToNumber_ext w reg message l Hempty Hlist.
  unfold analyze, bind, try_catch, ret. rewrite Hempty. cbn [length Nat.eqb].
  rewrite discoverAvailableTools_cases.
  set (reg' := match mcp w l ToolsList with Ret _ => _ | Throw _ => _ end).
  assert (Hreg' : availableTools reg' = []).
  { unfold reg'. destruct Hlist as [[msg ->]|(response & -> & [->| ->])]; auto. }
  rewrite handle_cases.
  destruct (processQuery_calls JSON_parse ToNumber_ext w (llm_availableTools reg')
              message (l ++ [call_of ToolsList])) as (cls & calls & E & _ & Hm).
  rewrite E.
  destruct (processQuery_result _ _ _ _ _ _ _ _ E) as [->|[_ Hin]].
  2: { unfold llm_availableTools in Hin. rewrite Hreg' in Hin. destruct Hin. }
  destruct (fallback_reasoning message) as [why ->]. cbn [prints printable].
  rewrite Hreg'. cbn [map_get].
  exists reg'. do 2 eexists. rewrite <- app_assoc.
  split; [reflexivity|]. split; [exact Hreg'|]. split; [reflexivity|].
  split; [reflexivity|]. cbn [app mcp_requests call_of]. now rewrite Hm.
Qed.

Lemma empty_registry_rejects_every_query_witness :
  exists reg' resp calls,
    analyze Examples.parse_nothing Examples.not_a_number Examples.offline
      empty_registry "Apple stock" []
    = (Ret (reg', resp), calls)
    /\ widgetType resp = "error" /\ mcp_requests calls = [ToolsList].
Proof.
  destruct (empty_registry_rejects_every_query Examples.parse_nothing
              Examples.not_a_number Examples.offline empty_registry "Apple stock" []
              eq_refl (or_introl (ex_intro _ "MCP server not running" eq_refl)))
    as (reg' & resp & calls & E & _ & _ & Hw & Hm).
  exists reg', resp, calls. split; [exact E|]. split; [exact Hw|exact Hm].
Defined.

(** ** The calls of a request *)

Lemma handle_calls JSON_parse ToNumber_ext w reg message l :
  exists o calls,
    handle JSON_parse ToNumber_ext w reg message l = (o, l ++ calls)
    /\ length (mcp_requests calls) <= 4
    /\ length calls <= length (mcp_requests calls) + 2.
Proof.
  rewrite handle_cases.
  destruct (processQuery_calls JSON_parse ToNumber_ext w (llm_availableTools reg)
              message l) as (cls & c1 & -> & Hc1 & Hm1).
  destruct (prints (reasoning cls)).
  2: { do 2 eexists. split; [reflexivity|]. rewrite Hm1. cbn. lia. }
  destruct (map_get (tool cls) (availableTools reg)) as [toolInfo|].
  2: { do 2 eexists. split; [reflexivity|]. rewrite Hm1. cbn. lia. }
  destruct (fill_required_keeps JSON_parse w (tool cls) message
              match t_required toolInfo with Some ps => ps | None => [] end
              (spread (parameters cls)) (l ++ c1))
    as (r & l2 & -> & _ & Hl2 & _ & _).
  assert (Hc2 : exists c2, l2 = l ++ c1 ++ c2 /\ length c2 <= 1
                           /\ length (mcp_requests c2) = length c2).
  { destruct Hl2 as [->|[first ->]].
    - exists []. rewrite app_nil_r. repeat split. cbn; lia.
    - eexists [_]. rewrite <- app_assoc. repeat split. cbn; lia. }
  destruct Hc2 as (c2 & -> & Hc2 & Hm2).
  assert (Hm : length (mcp_requests (c1 ++ c2)) = length c2).
  { now rewrite mcp_requests_app, Hm1. }
  destruct r as [early|toolArgs].
  { exists (Ret early), (c1 ++ c2). split; [reflexivity|].
    rewrite Hm, length_app. lia. }
  destruct (execute_tried w message (tool cls) toolArgs (fallbacks_for (tool cls))
              (l ++ c1 ++ c2)) as (e & tried & rest & -> & Hplan & _).
  assert (Ht : length tried <= 2).
  { pose proof (plan_names message (fallbacks_for (tool cls)) toolArgs) as Hn.
    apply (f_equal (@length _)) in Hn.
    rewrite Hplan, length_map, length_app in Hn.
    destruct (fallbacks_NoDup (tool cls)) as [_ Hlen]. lia. }
  exists (fst (respond JSON_parse reg message (tool cls) e
                 ((l ++ c1 ++ c2)
                  ++ call_of (ToolsCall (tool cls) toolArgs) :: map call_of tried))).
  exists ((c1 ++ c2) ++ call_of (ToolsCall (tool cls) toolArgs) :: map call_of tried).
  split.
  - unfold respond, ret, throw. destruct (response e); cbn [fst];
      rewrite <- ?app_assoc; reflexivity.
  - rewrite mcp_requests_app, !length_app. cbn [length mcp_requests call_of].
    rewrite mcp_requests_calls, length_map, Hm. lia.
Qed.

(** X19. A request to [/analyze] makes at most seven calls to the outside:
    at most two that are not requests to the server, and at most five
    requests to the server, the discovery made when the registry is empty
    included. With a registry that holds a tool there is no discovery: the
    registry is left as it is and at most four requests go to the server. *)
Theorem analyze_call_budget :
  forall JSON_parse ToNumber_ext w reg message l,
  exists reg' resp calls,
    analyze JSON_parse ToNumber_ext w reg message l = (Ret (reg', resp), l ++ calls)
    /\ length calls <= 7
    /\ length (mcp_requests calls) <= 5
    /\ length calls <= length (mcp_requests calls) + 2
    /\ (availableTools reg <> [] ->
        reg' = reg /\ length (mcp_requests calls) <= 4).
Proof.
  intros. unfold analyze, bind, try_catch, ret.
  destruct (availableTools reg) as [|entry entries] eqn:Hreg; cbn [length Nat.eqb].
  - rewrite discoverAvailableTools_cases.
    match goal with
    | |- context [handle _ _ _ ?r _ _] =>
        destruct (handle_calls JSON_parse ToNumber_ext w r message
                    (l ++ [call_of ToolsList])) as (o & calls & -> & Hm & Hc)
    end.
    exists (match mcp w l ToolsList with
            | Ret response =>
                cache_tools
                  (match r_tools response with Some ts => ts | None => [] end)
                  empty_registry
            | Throw _ => reg
            end).
    exists (match o with Ret resp => resp | Throw msg => failure msg end).
    exists (call_of ToolsList :: calls).
    split; [destruct o; rewrite <- app_assoc; reflexivity|].
    cbn [length mcp_requests call_of].
    split; [lia|]. split; [lia|]. split; [lia|]. intros Hne. congruence.
  - destruct (handle_calls JSON_parse ToNumber_ext w reg message l)
      as (o & calls & -> & Hm & Hc).
    exists reg, (match o with Ret resp => resp | Throw msg => failure msg end), calls.
    split; [destruct o; reflexivity|].
    split; [lia|]. split; [lia|]. split; [lia|]. intros _. split; [reflexivity|lia].
Qed.

Lemma analyze_call_budget_witness :
  exists resp calls,
    analyze (Examples.parse_table [("[]", JArr [])]) Examples.not_a_number
      Examples.quotes_only
      (Examples.registry_of [Examples.get_quote; Examples.search_symbols])
      "stock price" []
    = (Ret (Examples.registry_of [Examples.get_quote; Examples.search_symbols], resp),
       calls)
    /\ length (mcp_requests calls) <= 4.
Proof.
  destruct (analyze_call_budget
              (Examples.parse_table [("[]", JArr [])]) Examples.not_a_number
              Examples.quotes_only
              (Examples.registry_of [Examples.get_quote; Examples.search_symbols])
              "stock price" [])
    as (reg' & resp & calls & E & _ & _ & _ & H).
  assert (Hreg : availableTools
                   (Examples.registry_of [Examples.get_quote; Examples.search_symbols])
                 <> []) by discriminate.
  destruct (H Hreg) as [Hr Hm]. rewrite Hr in E.
  exists resp, calls. split; [exact E|exact Hm].
Defined.
